(** * ChainLex: framework index, inference chains and hypergraph paths

    A shallow embedding of the Python sources

      - [framework_index.py]     (class [FrameworkIndex]),
      - [chainlex_api.py]        (classes [PrinciplesAPI], [RulesAPI] and
                                  [InferenceAPI]),
      - [enhanced_hypergraph.py] (classes [EnhancedHypergraphAPI] and
                                  [UnifiedChainLexAPI]),
      - [framework_validator.py] (class [FrameworkValidator]),

    together with the properties of the knowledge index and of the
    inference engine that the design document states about them, and with
    further properties of the build, the sub-APIs and the validator.

    Conventions of the embedding.

    - A Python [str] is a Rocq [string] holding the UTF-8 encoding of the
      text.  What the interpreter takes from the Unicode database
      ([str.lower], [str.isalnum] and [str.isspace] outside ASCII) is the
      class [PyRuntime]; every general theorem holds for all its instances.
    - A [dict] whose iteration order is observed is an insertion-ordered
      association list ([odict]); a [defaultdict(list)] that is only looked
      up is a [gmap].
    - A Python [float] is read twice.  In the module [Inference] the
      arithmetic of [InferenceAPI.confidence] is exact, over the rationals,
      and [round(x, 4)] is rounding to the nearest multiple of 1/10000, ties
      to even: this is the value that the design document describes.  In
      the module [Binary64] a [float] is a binary64 number of the IEEE 754
      specification of the Standard Library ([spec_float]), every product
      is rounded as the interpreter rounds it, and only the power [**],
      which the interpreter takes from the C library, is left open.
    - An exception is a value of an error type; [try ... except] is the
      match on it. *)

From Stdlib Require Import ZArith QArith Qround Qpower Lqa List String Ascii Lia Bool.
From Stdlib Require Import DecimalString Sorted SpecFloat.
From stdpp Require Import base option list gmap strings.
Import ListNotations.

#[local] Open Scope list_scope.
#[local] Open Scope Z_scope.

(* ===================================================================== *)
(** * The Python runtime: strings                                         *)
(* ===================================================================== *)

Module PyStr.

(** The Unicode-dependent part of the interpreter.  The two predicates are
    asked about one non-ASCII code point, given by its UTF-8 bytes. *)
Class PyRuntime : Type := {
  str_lower : string -> string;
  uni_isalnum : string -> bool;
  uni_isspace : string -> bool
}.

Definition code (c : ascii) : N := N_of_ascii c.

Definition between (lo hi : N) (b : N) : bool := ((lo <=? b) && (b <=? hi))%N.

(** A UTF-8 continuation byte, [10xxxxxx]. *)
Definition is_cont (c : ascii) : bool := between 128 191 (code c).

(** Number of bytes of the code point that starts with the lead byte [c]. *)
Definition cp_len (c : ascii) : nat :=
  let b := code c in
  if (b <? 128)%N then 1%nat
  else if (b <? 224)%N then 2%nat
  else if (b <? 240)%N then 3%nat
  else 4%nat.

(** The bytes of the code point at the head of [s]. *)
Definition cp_at (s : string) : string :=
  match s with
  | EmptyString => EmptyString
  | String c _ => substring 0 (cp_len c) s
  end.

Fixpoint drop (n : nat) (s : string) : string :=
  match n, s with
  | O, _ => s
  | S _, EmptyString => EmptyString
  | S n', String _ r => drop n' r
  end.

(** [needle in hay] on strings. *)
Fixpoint contains (needle hay : string) : bool :=
  String.prefix needle hay
  || match hay with
     | EmptyString => false
     | String _ r => contains needle r
     end.

(** The text after the first occurrence of [needle] in [hay]. *)
Fixpoint after_first (needle hay : string) : option string :=
  if String.prefix needle hay then Some (drop (String.length needle) hay)
  else match hay with
       | EmptyString => None
       | String _ r => after_first needle r
       end.

(** The text before the first occurrence of the character [stop], and the
    text after it; [None] when [stop] does not occur. *)
Fixpoint split_at_char (stop : ascii) (s : string) : option (string * string) :=
  match s with
  | EmptyString => None
  | String c r =>
      if Ascii.eqb c stop then Some (EmptyString, r)
      else match split_at_char stop r with
           | Some (a, b) => Some (String c a, b)
           | None => None
           end
  end.

(** The longest prefix without the character [stop]. *)
Fixpoint until_char (stop : ascii) (s : string) : string :=
  match s with
  | EmptyString => EmptyString
  | String c r => if Ascii.eqb c stop then EmptyString else String c (until_char stop r)
  end.

(** [s[:n]]: the first [n] code points of [s]. *)
Fixpoint take_cp (n : nat) (s : string) : string :=
  match s with
  | EmptyString => EmptyString
  | String c r =>
      if is_cont c then String c (take_cp n r)
      else match n with
           | O => EmptyString
           | S n' => String c (take_cp n' r)
           end
  end.

(** ** Strict UTF-8, as [open(..., encoding='utf-8')] decodes it *)

Fixpoint utf8_valid (s : string) : bool :=
  match s with
  | EmptyString => true
  | String c0 r0 =>
    let b0 := code c0 in
    if (b0 <? 128)%N then utf8_valid r0
    else match r0 with
    | EmptyString => false
    | String c1 r1 =>
      let b1 := code c1 in
      if between 194 223 b0 then between 128 191 b1 && utf8_valid r1
      else match r1 with
      | EmptyString => false
      | String c2 r2 =>
        let b2 := code c2 in
        if between 224 239 b0 then
          (if (b0 =? 224)%N then between 160 191 b1
           else if (b0 =? 237)%N then between 128 159 b1
           else between 128 191 b1)
          && between 128 191 b2 && utf8_valid r2
        else match r2 with
        | EmptyString => false
        | String c3 r3 =>
          let b3 := code c3 in
          if between 240 244 b0 then
            (if (b0 =? 240)%N then between 144 191 b1
             else if (b0 =? 244)%N then between 128 143 b1
             else between 128 191 b1)
            && between 128 191 b2 && between 128 191 b3 && utf8_valid r3
          else false
        end
      end
    end
  end.

Definition CR : ascii := ascii_of_N 13.
Definition LF : ascii := ascii_of_N 10.
Definition DQUOTE : ascii := ascii_of_N 34.

(** Text mode with the default [newline=None]: [\r\n] and a lone [\r] are
    read as [\n]. *)
Fixpoint universal_newlines (s : string) : string :=
  match s with
  | EmptyString => EmptyString
  | String c r =>
      if Ascii.eqb c CR then
        String LF
          match r with
          | EmptyString => EmptyString
          | String c' r' =>
              if Ascii.eqb c' LF then universal_newlines r' else universal_newlines r
          end
      else String c (universal_newlines r)
  end.

Inductive IOError : Type :=
| OSError
| UnicodeDecodeError.

(** [f.read()] on a file opened in text mode as UTF-8: the bytes on disk
    ([None]: the file cannot be opened) to the text, or the exception. *)
Definition read_text (bytes : option string) : IOError + string :=
  match bytes with
  | None => inl OSError
  | Some b => if utf8_valid b then inr (universal_newlines b) else inl UnicodeDecodeError
  end.

(** ** The character classes of [re] on [str] patterns *)

Definition is_ascii_alnum (b : N) : bool :=
  between 48 57 b || between 65 90 b || between 97 122 b.

(** ASCII white space of [str.isspace]: [\t \n \v \f \r], [\x1c]..[\x1f]
    and the space. *)
Definition is_ascii_space (b : N) : bool :=
  between 9 13 b || between 28 31 b || (b =? 32)%N.

Section Classes.
Context {rt : PyRuntime}.

(** [\w] at the head of [s]. *)
Definition re_w (s : string) : bool :=
  match s with
  | EmptyString => false
  | String c _ =>
      let b := code c in
      if (b <? 128)%N then is_ascii_alnum b || (b =? 95)%N
      else uni_isalnum (cp_at s)
  end.

(** [\s] at the head of [s]. *)
Definition re_s (s : string) : bool :=
  match s with
  | EmptyString => false
  | String c _ =>
      let b := code c in
      if (b <? 128)%N then is_ascii_space b else uni_isspace (cp_at s)
  end.

(** [[\w-]] at the head of [s]. *)
Definition re_w_or_hyphen (s : string) : bool :=
  re_w s || match s with
            | EmptyString => false
            | String c _ => (code c =? 45)%N
            end.

(** A greedy [X*]: the longest run of code points of the class [cls] at
    the head of [s], and what follows it.  The bytes that continue an
    accepted code point go with it. *)
Fixpoint span_cp (cls : string -> bool) (s : string) : string * string :=
  match s with
  | EmptyString => (EmptyString, EmptyString)
  | String c r =>
      if is_cont c || cls s then
        let '(a, b) := span_cp cls r in (String c a, b)
      else (EmptyString, s)
  end.

(** [re.findall(r'[\w-]+', s)]; [cur] is the run being read. *)
Fixpoint findall_names (s : string) (cur : string) : list string :=
  match s with
  | EmptyString => match cur with EmptyString => [] | _ => [cur] end
  | String c r =>
      if is_cont c then
        match cur with
        | EmptyString => findall_names r EmptyString
        | _ => findall_names r (cur +:+ String c EmptyString)
        end
      else if re_w_or_hyphen s then findall_names r (cur +:+ String c EmptyString)
      else match cur with
           | EmptyString => findall_names r EmptyString
           | _ => cur :: findall_names r EmptyString
           end
  end.

End Classes.

(** The runtime on ASCII text: [A]..[Z] go to lower case and nothing outside
    ASCII is a letter, a digit or white space.  It agrees with CPython on
    ASCII strings, which is what the concrete examples of this file use. *)
Definition ascii_lower_char (c : ascii) : ascii :=
  if between 65 90 (code c) then ascii_of_N (code c + 32) else c.

Fixpoint ascii_lower (s : string) : string :=
  match s with
  | EmptyString => EmptyString
  | String c r => String (ascii_lower_char c) (ascii_lower r)
  end.

Definition ascii_runtime : PyRuntime := {|
  str_lower := ascii_lower;
  uni_isalnum := fun _ => false;
  uni_isspace := fun _ => false
|}.

End PyStr.

(* ===================================================================== *)
(** * The Python runtime: insertion-ordered dictionaries                  *)
(* ===================================================================== *)

Module PyDict.

Section Odict.
Context {V : Type}.

(** A [dict] with [str] keys, in iteration order. *)
Definition odict : Type := list (string * V).

(** [d.get(k)] *)
Fixpoint od_get (d : odict) (k : string) : option V :=
  match d with
  | [] => None
  | (k', v) :: d' => if String.eqb k' k then Some v else od_get d' k
  end.

(** [d[k] = v]: a key already present keeps its place and takes the new
    value; a new key goes to the end. *)
Fixpoint od_set (d : odict) (k : string) (v : V) : odict :=
  match d with
  | [] => [(k, v)]
  | (k', v') :: d' =>
      if String.eqb k' k then (k', v) :: d' else (k', v') :: od_set d' k v
  end.

Definition od_keys (d : odict) : list string := map fst d.
Definition od_values (d : odict) : list V := map snd d.

End Odict.

Arguments odict V : clear implicits.

(** [d[k].append(x)] on a [defaultdict(list)]. *)
Definition dd_append (d : gmap string (list string)) (k x : string)
  : gmap string (list string) :=
  <[k := default [] (d !! k) ++ [x]]> d.

(** [d.get(k, [])] *)
Definition dd_get (d : gmap string (list string)) (k : string) : list string :=
  default [] (d !! k).

End PyDict.

(* ===================================================================== *)
(** * Record extraction ([FrameworkIndex._extract_functions_from_file])   *)
(* ===================================================================== *)

Module Extractor.
Import PyStr.

(** The dictionary that the extractor builds for one definition. *)
Record Func : Type := mkFunc {
  name : string;
  docstring : string;
  cross_references : list string;
  is_principle : bool;
  file : string
}.

(** A [Path] yielded by [path.glob('*.scm')]: its name and its bytes on
    disk ([None] when it cannot be opened). *)
Record SourceFile : Type := mkSourceFile {
  file_name : string;
  file_bytes : option string
}.

Section Extract.
Context {rt : PyRuntime}.

(** One match of
    [\(define\s+\(?(\w[\w-]*\??)\s*(?:\(lambda|\)?)]
    at the head of [s]: group 1 and the text after the match.  The tail
    [(?:\(lambda|\)?)] matches the empty string, so the greedy choices are
    never undone once [\w] has matched; and giving back white space or the
    optional parenthesis never makes [\w] match. *)
Definition match_define (s : string) : option (string * string) :=
  if String.prefix "(define" s then
    let s1 := drop 7 s in
    let '(ws, s2) := span_cp re_s s1 in
    match ws with
    | EmptyString => None
    | _ =>
      let s3 := if String.prefix "(" s2 then drop 1 s2 else s2 in
      if re_w s3 then
        let '(nm, s4) := span_cp re_w_or_hyphen s3 in
        let '(nm', s5) :=
          if String.prefix "?" s4 then (nm +:+ "?", drop 1 s4) else (nm, s4) in
        let '(_, s6) := span_cp re_s s5 in
        let s7 :=
          if String.prefix "(lambda" s6 then drop 7 s6
          else if String.prefix ")" s6 then drop 1 s6
          else s6 in
        Some (nm', s7)
      else None
    end
  else None.

(** [re.finditer(pattern, content)]: the matches from left to right, none
    overlapping; [skip] counts the bytes of the last match still to pass. *)
Fixpoint finditer_define (skip : nat) (s : string) : list (string * string) :=
  match s with
  | EmptyString => []
  | String _ r =>
      match skip with
      | S k => finditer_define k r
      | O =>
          match match_define s with
          | Some (nm, rest) =>
              (nm, rest)
                :: finditer_define (String.length s - String.length rest - 1) r
          | None => finditer_define O r
          end
      end
  end.

(** The docstring pattern, a double quote, any run of other characters
    and a double quote, searched in [window]: group 1 is the text between
    the first two double quotes. *)
Definition search_docstring (window : string) : string :=
  match split_at_char DQUOTE window with
  | Some (_, after) =>
      match split_at_char DQUOTE after with
      | Some (doc, _) => doc
      | None => EmptyString
      end
  | None => EmptyString
  end.

(** [re.search(r'Cross-reference:\s*([^\n]+)', window)] followed by
    [re.findall(r'[\w-]+', refs)].  When only white space follows the label
    up to the end of the window, group 1 is white space or there is no
    match; both give no name. *)
Definition search_cross_refs (window : string) : list string :=
  match after_first "Cross-reference:" window with
  | Some rest =>
      let '(_, r2) := span_cp re_s rest in
      findall_names (until_char LF r2) EmptyString
  | None => []
  end.

(** The body of the [for match in re.finditer(...)] loop. *)
Definition extract_one (fname : string) (m : string * string) : Func :=
  let '(func_name, rest) := m in
  {| name := func_name;
     docstring := search_docstring (take_cp 500 rest);
     cross_references := search_cross_refs (take_cp 1000 rest);
     is_principle := contains "Level 1" (take_cp 1000 rest);
     file := fname |}.

(** The [try] block: reading may raise; the loop over the matches does
    not. *)
Definition extract_try (f : SourceFile) : IOError + list Func :=
  match read_text (file_bytes f) with
  | inl e => inl e
  | inr content => inr (map (extract_one (file_name f)) (finditer_define O content))
  end.

(** [_extract_functions_from_file]: [except Exception] prints the error
    and returns the empty list. *)
Definition _extract_functions_from_file (f : SourceFile) : list Func :=
  match extract_try f with
  | inl _ => []
  | inr functions => functions
  end.

(** Whether the extractor printed [Error processing ...] for the file. *)
Definition reports_error (f : SourceFile) : bool :=
  match extract_try f with
  | inl _ => true
  | inr _ => false
  end.

End Extract.

End Extractor.

(* ===================================================================== *)
(** * The Python runtime: [list.sort(key=...)]                            *)
(* ===================================================================== *)

Module PySort.

Section Sort.
Context {A : Type} (key : A -> Z).

(** [x] comes from an earlier position than every element of [l]: it goes
    before the first element whose key is not smaller. *)
Fixpoint insert_stable (x : A) (l : list A) : list A :=
  match l with
  | [] => [x]
  | y :: l' => if key x <=? key y then x :: l else y :: insert_stable x l'
  end.

(** The stable sort: elements with equal keys keep their order. *)
Fixpoint sort_by (l : list A) : list A :=
  match l with
  | [] => []
  | x :: l' => insert_stable x (sort_by l')
  end.

End Sort.

End PySort.

(* ===================================================================== *)
(** * The index ([framework_index.py], class [FrameworkIndex])            *)
(* ===================================================================== *)

Module Index.
Import PyStr PyDict PySort.

Abbreviation Func := Extractor.Func.
Abbreviation SourceFile := Extractor.SourceFile.

(** An entry of [framework_defs]. *)
Record FrameworkDef : Type := mkDef {
  def_code : string;
  def_path : string;
  def_name : string;
  def_level : Z;
  def_domains : option (list string)
}.

Definition framework_defs : list FrameworkDef :=
  [ mkDef "lv1" "lv1" "Level 1 Principles" 1 None;
    mkDef "civ" "civ/za" "Civil Law (ZA)" 2
      (Some ["contract"; "delict"; "property"; "family"]);
    mkDef "cri" "cri/za" "Criminal Law (ZA)" 2 (Some ["criminal"]);
    mkDef "con" "con/za" "Constitutional Law (ZA)" 2 (Some ["constitutional"]);
    mkDef "adm" "adm/za" "Administrative Law (ZA)" 2 (Some ["administrative"]);
    mkDef "lab" "lab/za" "Labour Law (ZA)" 2 (Some ["labour"; "employment"]);
    mkDef "env" "env/za" "Environmental Law (ZA)" 2 (Some ["environmental"]);
    mkDef "cst" "cst/za" "Construction Law (ZA)" 2 (Some ["construction"]);
    mkDef "int" "int/za" "International Law (ZA)" 2 (Some ["international"]) ].

(** A value of [self.frameworks]. *)
Record Framework : Type := mkFramework {
  fw_code : string;
  fw_name : string;
  fw_level : Z;
  fw_path : string;
  fw_domains : list string;
  fw_files : list SourceFile;
  fw_functions : list Func;
  fw_function_count : option Z
}.

(** A value of [self.function_index]: the two framework keys, then the
    keys of the extracted dictionary. *)
Record IndexedFunc : Type := mkIndexed {
  framework : string;
  framework_name : string;
  func : Func
}.

(** A value of [self.principle_index]. *)
Record Principle : Type := mkPrinciple {
  p_framework : string;
  p_func : Func
}.

(** The attributes of a [FrameworkIndex]. *)
Record FrameworkIndex : Type := mkIndex {
  frameworks : odict Framework;
  function_index : odict IndexedFunc;
  principle_index : odict Principle;
  domain_index : gmap string (list string);
  cross_references : gmap string (list string)
}.

(** The directory tree below [base_path]: for a framework path, [None] when
    it does not exist and otherwise the files that [glob('*.scm')] yields,
    in the order it yields them. *)
Definition FileTree : Type := string -> option (list SourceFile).

(** [_load_frameworks] *)
Definition _load_frameworks (tree : FileTree) : odict Framework :=
  fold_left
    (fun fws info =>
       match tree (def_path info) with
       | Some files =>
           od_set fws (def_code info)
             {| fw_code := def_code info;
                fw_name := def_name info;
                fw_level := def_level info;
                fw_path := def_path info;
                fw_domains := default [] (def_domains info);
                fw_files := files;
                fw_functions := [];
                fw_function_count := None |}
       | None => fws
       end)
    framework_defs [].

(** [f"{code}:{func['name']}"] *)
Definition full_name (code : string) (f : Func) : string :=
  code +:+ ":" +:+ Extractor.name f.

Section Build.
Context {rt : PyRuntime}.

(** The body of [for func in functions]. *)
Definition index_function (code : string) (fw : Framework)
    (self : FrameworkIndex) (f : Func) : FrameworkIndex :=
  let func_full_name := full_name code f in
  {| frameworks := frameworks self;
     function_index :=
       od_set (function_index self) func_full_name
         {| framework := code; framework_name := fw_name fw; func := f |};
     domain_index :=
       fold_left (fun d domain => dd_append d domain func_full_name)
         (fw_domains fw) (domain_index self);
     cross_references :=
       fold_left (fun d ref => dd_append d ref func_full_name)
         (Extractor.cross_references f) (cross_references self);
     principle_index :=
       if Extractor.is_principle f || (fw_level fw =? 1) then
         od_set (principle_index self) (Extractor.name f)
           {| p_framework := code; p_func := f |}
       else principle_index self |}.

(** The body of [for scm_file in framework['files']]; [all_functions] is
    threaded along with the index. *)
Definition index_file (code : string) (fw : Framework)
    (acc : FrameworkIndex * list Func) (scm_file : SourceFile)
  : FrameworkIndex * list Func :=
  let functions := Extractor._extract_functions_from_file scm_file in
  (fold_left (index_function code fw) functions (fst acc), snd acc ++ functions).

(** The body of [for code, framework in self.frameworks.items()]. *)
Definition index_framework (self : FrameworkIndex) (item : string * Framework)
  : FrameworkIndex :=
  let '(code, fw) := item in
  let '(self', all_functions) := fold_left (index_file code fw) (fw_files fw) (self, []) in
  {| frameworks :=
       od_set (frameworks self') code
         {| fw_code := fw_code fw;
            fw_name := fw_name fw;
            fw_level := fw_level fw;
            fw_path := fw_path fw;
            fw_domains := fw_domains fw;
            fw_files := fw_files fw;
            fw_functions := all_functions;
            fw_function_count := Some (Z.of_nat (length all_functions)) |};
     function_index := function_index self';
     principle_index := principle_index self';
     domain_index := domain_index self';
     cross_references := cross_references self' |}.

(** [_build_indices] *)
Definition _build_indices (self : FrameworkIndex) : FrameworkIndex :=
  fold_left index_framework (frameworks self) self.

(** [FrameworkIndex(base_path)] *)
Definition init (tree : FileTree) : FrameworkIndex :=
  _build_indices
    {| frameworks := _load_frameworks tree;
       function_index := [];
       principle_index := [];
       domain_index := ∅;
       cross_references := ∅ |}.

End Build.

(** ** Queries *)

(** [x in l] on a list of strings. *)
Definition str_in (x : string) (l : list string) : bool :=
  existsb (String.eqb x) l.

(** The truth value of an optional [str] argument: [None] and the empty
    string are false. *)
Definition truthy (domain : option string) : option string :=
  match domain with
  | Some EmptyString => None
  | Some d => Some d
  | None => None
  end.

Inductive Relevance : Type :=
| exact
| partial
| description.

(** An element of the result of [search_functions]: the key [relevance],
    then the keys of the indexed function. *)
Record SearchResult : Type := mkResult {
  relevance : Relevance;
  data : IndexedFunc
}.

(** [relevance_order.get(x.get('relevance', 'description'), 3)] *)
Definition relevance_order (x : SearchResult) : Z :=
  match relevance x with
  | exact => 0
  | partial => 1
  | description => 2
  end.

(** The element of [find_principles_by_domain]. *)
Record PrincipleInfo : Type := mkInfo {
  pi_name : string;
  pi_framework : string;
  pi_docstring : string;
  pi_file : string
}.

(** A node of an inference chain: the keys [node], [type] and [level], and
    for the target the keys of its indexed function. *)
Record ChainNode : Type := mkNode {
  node : string;
  node_type : string;
  level : Z;
  node_data : option IndexedFunc
}.

Inductive PyError : Type :=
| KeyError (key : string).

Section Queries.
Context {rt : PyRuntime}.

(** The domain test at the head of the loop of [search_functions]:
    [inr true] to go on with the record, [inr false] for [continue], and
    the [KeyError] of [self.frameworks[framework_code]]. *)
Definition domain_filter (self : FrameworkIndex) (domain : option string)
    (func_data : IndexedFunc) : PyError + bool :=
  match truthy domain with
  | Some d =>
      match od_get (frameworks self) (framework func_data) with
      | Some fw => inr (str_in d (fw_domains fw))
      | None => inl (KeyError (framework func_data))
      end
  | None => inr true
  end.

(** The name test and the docstring test of the loop: what the iteration
    appends to [results]. *)
Definition match_record (query_lower : string) (func_data : IndexedFunc)
  : list SearchResult :=
  let nm := str_lower (Extractor.name (func func_data)) in
  if contains query_lower nm then
    [ {| relevance := if String.eqb query_lower nm then exact else partial;
         data := func_data |} ]
  else if contains query_lower (str_lower (Extractor.docstring (func func_data))) then
    [ {| relevance := description; data := func_data |} ]
  else [].

(** The loop of [search_functions] over [self.function_index.items()]. *)
Fixpoint search_loop (self : FrameworkIndex) (query_lower : string)
    (domain : option string) (items : list (string * IndexedFunc))
    (results : list SearchResult) : PyError + list SearchResult :=
  match items with
  | [] => inr results
  | (_, func_data) :: items' =>
      match domain_filter self domain func_data with
      | inl e => inl e
      | inr false => search_loop self query_lower domain items' results
      | inr true =>
          search_loop self query_lower domain items'
            (results ++ match_record query_lower func_data)
      end
  end.

(** [search_functions(query, domain)] *)
Definition search_functions (self : FrameworkIndex) (query : string)
    (domain : option string) : PyError + list SearchResult :=
  match search_loop self (str_lower query) domain (function_index self) [] with
  | inl e => inl e
  | inr results => inr (sort_by relevance_order results)
  end.

End Queries.

(** The inner loop of [find_principles_by_domain], over [domain_funcs];
    it ends at the [break]. *)
Fixpoint principle_loop (self : FrameworkIndex) (principle_name : string)
    (principle_data : Principle) (domain_funcs : list string)
    (principles : list PrincipleInfo) : list PrincipleInfo :=
  match domain_funcs with
  | [] => principles
  | func_name :: rest =>
      let refs :=
        match od_get (function_index self) func_name with
        | Some f => Extractor.cross_references (func f)
        | None => []
        end in
      if str_in principle_name refs then
        if negb (str_in principle_name (map pi_name principles)) then
          principles ++
            [ {| pi_name := principle_name;
                 pi_framework := p_framework principle_data;
                 pi_docstring := Extractor.docstring (p_func principle_data);
                 pi_file := Extractor.file (p_func principle_data) |} ]
        else principle_loop self principle_name principle_data rest principles
      else principle_loop self principle_name principle_data rest principles
  end.

(** [find_principles_by_domain(domain)] *)
Definition find_principles_by_domain (self : FrameworkIndex) (domain : string)
  : list PrincipleInfo :=
  fold_left
    (fun principles '(principle_name, principle_data) =>
       principle_loop self principle_name principle_data
         (dd_get (domain_index self) domain) principles)
    (principle_index self) [].

(** The list comprehension of [find_derived_rules]: [self.function_index[k]]
    for each name, or the first [KeyError]. *)
Fixpoint lookup_all (d : odict IndexedFunc) (keys : list string)
  : PyError + list IndexedFunc :=
  match keys with
  | [] => inr []
  | k :: keys' =>
      match od_get d k with
      | None => inl (KeyError k)
      | Some v =>
          match lookup_all d keys' with
          | inl e => inl e
          | inr vs => inr (v :: vs)
          end
      end
  end.

(** [find_derived_rules(principle_name)] *)
Definition find_derived_rules (self : FrameworkIndex) (principle_name : string)
  : PyError + list IndexedFunc :=
  lookup_all (function_index self) (dd_get (cross_references self) principle_name).

(** The loop of [build_inference_chain]: it stops, by [break], at the first
    item whose name is [end_function]. *)
Fixpoint chain_loop (start_principle end_function : string)
    (items : list (string * IndexedFunc)) : list ChainNode :=
  match items with
  | [] => []
  | (_, func_data) :: items' =>
      if String.eqb (Extractor.name (func func_data)) end_function then
        if str_in start_principle (Extractor.cross_references (func func_data)) then
          [ {| node := start_principle; node_type := "principle"; level := 1;
               node_data := None |};
            {| node := end_function; node_type := "rule"; level := 2;
               node_data := Some func_data |} ]
        else []
      else chain_loop start_principle end_function items'
  end.

(** [build_inference_chain(start_principle, end_function)]:
    [chain if chain else None]. *)
Definition build_inference_chain (self : FrameworkIndex)
    (start_principle end_function : string) : option (list ChainNode) :=
  match chain_loop start_principle end_function (function_index self) with
  | [] => None
  | chain => Some chain
  end.

End Index.

(* ===================================================================== *)
(** * Confidence of a chain ([chainlex_api.py], class [InferenceAPI])     *)
(* ===================================================================== *)

Module Inference.
Import Index.

#[local] Open Scope Q_scope.

(** [InferenceAPI.chain] *)
Definition chain (index : FrameworkIndex) (start end_ : string)
  : option (list ChainNode) :=
  build_inference_chain index start end_.

(** The dictionary [factors]. *)
Definition factors (inf_type : string) : option Q :=
  if String.eqb inf_type "deductive" then Some (95 # 100)
  else if String.eqb inf_type "inductive" then Some (80 # 100)
  else if String.eqb inf_type "abductive" then Some (70 # 100)
  else if String.eqb inf_type "analogical" then Some (65 # 100)
  else None.

(** [factors.get(inf_type, 0.95)] *)
Definition factor (inf_type : string) : Q :=
  match factors inf_type with
  | Some f => f
  | None => 95 # 100
  end.

(** Rounding to the nearest integer, ties to the even one. *)
Definition round_half_even (x : Q) : Z :=
  let f := Qfloor x in
  match Qcompare (x - inject_Z f) (1 # 2) with
  | Lt => f
  | Gt => (f + 1)%Z
  | Eq => if Z.even f then f else (f + 1)%Z
  end.

(** [round(x, 4)] *)
Definition round4 (x : Q) : Q := round_half_even (x * 10000) # 10000.

(** [InferenceAPI.confidence(chain, inference_types)], in exact
    arithmetic; [Binary64.confidence] below has the arithmetic of the
    interpreter.  An empty list of types is false in
    [if inference_types:], as [None] is. *)
Definition confidence (chain : list ChainNode)
    (inference_types : option (list string)) : Q :=
  match chain with
  | [] => 0
  | _ :: _ =>
      let confidence := 1 in
      let confidence :=
        match inference_types with
        | Some ((_ :: _) as types) =>
            fold_left (fun c inf_type => c * factor inf_type) types confidence
        | Some [] | None =>
            confidence * (95 # 100) ^ (Z.of_nat (length chain) - 1)
        end in
      round4 confidence
  end.

End Inference.

(* ===================================================================== *)
(** * Confidence in binary64 ([InferenceAPI.confidence])                  *)
(* ===================================================================== *)

Module Binary64.
Import Index.

(** The format of a Python [float]. *)
Definition prec : Z := 53.
Definition emax : Z := 1024.

Definition float : Type := spec_float.

(** The [float] of an [int] and of a decimal literal [n/d]: the nearest
    binary64 number, ties to even. *)
Definition of_Z (n : Z) : float := binary_normalize prec emax n 0 false.

Definition decimal (n d : Z) : float := SFdiv prec emax (of_Z n) (of_Z d).

Definition zero : float := S754_zero false.
Definition one : float := of_Z 1.

(** [x * y] *)
Definition mul (x y : float) : float := SFmul prec emax x y.

(** The number that a finite [float] holds. *)
Definition value (x : float) : Q :=
  match x with
  | S754_finite s m e =>
      (if s then -1 else 1) * inject_Z (Zpos m) * (2 # 1) ^ e
  | _ => 0
  end.

(** [round(x, 4)]: the decimal of four places nearest to the number that
    [x] holds, ties to even, as a [float]; a zero keeps the sign of [x],
    and what is not finite is returned as it is. *)
Definition round4 (x : float) : float :=
  match x with
  | S754_zero s | S754_finite s _ _ =>
      let k := Inference.round_half_even (value x * 10000) in
      if k =? 0 then S754_zero s else decimal k 10000
  | _ => x
  end.

(** The dictionary [factors]. *)
Definition factors (inf_type : string) : option float :=
  if String.eqb inf_type "deductive" then Some (decimal 95 100)
  else if String.eqb inf_type "inductive" then Some (decimal 80 100)
  else if String.eqb inf_type "abductive" then Some (decimal 70 100)
  else if String.eqb inf_type "analogical" then Some (decimal 65 100)
  else None.

(** [factors.get(inf_type, 0.95)] *)
Definition factor (inf_type : string) : float :=
  match factors inf_type with
  | Some f => f
  | None => decimal 95 100
  end.

Section Confidence.

(** [x ** n] for an [int] [n]: the [pow] of the C library. *)
Variable pow : float -> Z -> float.

(** [InferenceAPI.confidence(chain, inference_types)] *)
Definition confidence (chain : list ChainNode)
    (inference_types : option (list string)) : float :=
  match chain with
  | [] => zero
  | _ :: _ =>
      let confidence := one in
      let confidence :=
        match inference_types with
        | Some ((_ :: _) as types) =>
            fold_left (fun c inf_type => mul c (factor inf_type)) types confidence
        | Some [] | None =>
            mul confidence (pow (decimal 95 100) (Z.of_nat (length chain) - 1))
        end in
      round4 confidence
  end.

End Confidence.

(** An instance of the library function: the power of the number that
    [x] holds, rounded once to the nearest binary64 number. *)
Definition pow_rounded (x : float) (n : Z) : float :=
  match x with
  | S754_finite s m e =>
      binary_normalize prec emax ((if s then - Zpos m else Zpos m) ^ n) (e * n) false
  | _ => x
  end.

End Binary64.

(* ===================================================================== *)
(** * Paths in the hypergraph ([enhanced_hypergraph.py])                  *)
(* ===================================================================== *)

Module Hypergraph.

(** A node identifier or a node attribute: an [int] or a [str]. *)
Inductive PyVal : Type :=
| VInt (n : Z)
| VStr (s : string).

Definition pyval_eqb (a b : PyVal) : bool :=
  match a, b with
  | VInt x, VInt y => x =? y
  | VStr x, VStr y => String.eqb x y
  | _, _ => false
  end.

Definition mem (v : PyVal) (l : list PyVal) : bool := existsb (pyval_eqb v) l.

(** The truth value of [d.get(k)]: [None], [0] and the empty string are
    false. *)
Definition is_truthy (v : option PyVal) : bool :=
  match v with
  | None => false
  | Some (VInt 0) => false
  | Some (VStr EmptyString) => false
  | Some _ => true
  end.

(** A directed (multi)graph of networkx: the nodes that carry a [name]
    attribute, and the edges in the order of their insertion.  An end point
    of an edge is a node, as [add_edge] makes it one. *)
Record DiGraph : Type := mkGraph {
  node_names : list (PyVal * PyVal);
  isolated : list PyVal;
  edges : list (PyVal * PyVal)
}.

(** [v in G] *)
Definition has_node (g : DiGraph) (v : PyVal) : bool :=
  mem v (map fst (node_names g)) || mem v (isolated g)
  || mem v (map fst (edges g)) || mem v (map snd (edges g)).

(** [G.successors(u)], in adjacency order. *)
Definition successors (g : DiGraph) (u : PyVal) : list PyVal :=
  map snd (List.filter (fun e => pyval_eqb (fst e) u) (edges g)).

(** [G.nodes[node_id].get('name', node_id)] *)
Fixpoint lookup_name (l : list (PyVal * PyVal)) (node_id : PyVal) : PyVal :=
  match l with
  | [] => node_id
  | (k, nm) :: l' => if pyval_eqb k node_id then nm else lookup_name l' node_id
  end.

Definition name_of (g : DiGraph) (node_id : PyVal) : PyVal :=
  lookup_name (node_names g) node_id.

Inductive NxError : Type :=
| NodeNotFound
| NetworkXNoPath
| AttributeError.

(** ** [networkx.all_simple_paths]

    The library function, in the behaviour of networkx 3: a depth-first
    enumeration of the paths without repeated node from [source] to a
    target, of at most [cutoff] edges; a source that is a target gives the
    path of no edge. *)

(** [set(target)] of a string: its characters. *)
Fixpoint chars (s : string) : list PyVal :=
  match s with
  | EmptyString => []
  | String c r => VStr (String c EmptyString) :: chars r
  end.

(** The targets: the node itself, or for a value that is no node the
    elements of [set(target)], which an [int] does not have. *)
Definition targets_of (g : DiGraph) (target : PyVal) : option (list PyVal) :=
  if has_node g target then Some [target]
  else match target with
       | VStr s => Some (chars s)
       | VInt _ => None
       end.

(** The search from [next_node], entered after the nodes of [path]; [fuel]
    is the number of edges that may still be added.  The path is yielded
    when it ends on a target, and extended while a target is left outside
    it. *)
Fixpoint visit (g : DiGraph) (targets : list PyVal) (fuel : nat)
    (path : list PyVal) (next_node : PyVal) : list (list PyVal) :=
  let path' := path ++ [next_node] in
  (if mem next_node targets then [path'] else [])
  ++ match fuel with
     | O => []
     | S fuel' =>
         if existsb (fun t => negb (mem t path')) targets then
           flat_map
             (fun w => if mem w path' then [] else visit g targets fuel' path' w)
             (successors g next_node)
         else []
     end.

Definition all_simple_paths (g : DiGraph) (source target : PyVal) (cutoff : Z)
  : NxError + list (list PyVal) :=
  if has_node g source then
    match targets_of g target with
    | None => inl NodeNotFound
    | Some targets =>
        if (0 <=? cutoff) && match targets with [] => false | _ :: _ => true end then
          inr (visit g targets (Z.to_nat cutoff) [] source)
        else inr []
    end
  else inl NodeNotFound.

(** ** [EnhancedHypergraphAPI] *)

(** The attributes [graph] and [node_index]; both are [None] until the
    pickle is loaded. *)
Record EnhancedHypergraphAPI : Type := mkAPI {
  graph : option DiGraph;
  node_index : option (gmap string PyVal)
}.

(** [is_available] *)
Definition is_available (self : EnhancedHypergraphAPI) : bool :=
  match graph self with
  | Some _ => true
  | None => false
  end.

(** [find_all_paths(start, end, max_length)] *)
Definition find_all_paths (self : EnhancedHypergraphAPI) (start end_ : string)
    (max_length : Z) : NxError + list (list PyVal) :=
  match graph self with
  | None => inr []
  | Some g =>
      match node_index self with
      | None => inl AttributeError
      | Some idx =>
          let start_id := idx !! start in
          let end_id := idx !! end_ in
          if negb (is_truthy start_id) || negb (is_truthy end_id) then inr []
          else
            match start_id, end_id with
            | Some s, Some e =>
                match all_simple_paths g s e max_length with
                | inr paths => inr (map (map (name_of g)) paths)
                | inl NetworkXNoPath => inr []
                | inl err => inl err
                end
            | _, _ => inr []
            end
      end
  end.

Section ShortestPath.

(** [networkx.shortest_path(G, source, target)]: a path with the fewest
    edges, [NetworkXNoPath] when there is none, [NodeNotFound] for a value
    that is no node. *)
Variable shortest_path : DiGraph -> PyVal -> PyVal -> NxError + list PyVal.

(** [find_path(start, end)] *)
Definition find_path (self : EnhancedHypergraphAPI) (start end_ : string)
  : NxError + option (list PyVal) :=
  match graph self with
  | None => inr None
  | Some g =>
      match node_index self with
      | None => inl AttributeError
      | Some idx =>
          let start_id := idx !! start in
          let end_id := idx !! end_ in
          if negb (is_truthy start_id) || negb (is_truthy end_id) then inr None
          else
            match start_id, end_id with
            | Some s, Some e =>
                match shortest_path g s e with
                | inr path => inr (Some (map (name_of g) path))
                | inl NetworkXNoPath => inr None
                | inl err => inl err
                end
            | _, _ => inr None
            end
      end
  end.

End ShortestPath.

(** A breadth-first search for [shortest_path]: [frontier] holds the paths
    of the current length, last node first. *)
Fixpoint bfs (g : DiGraph) (target : PyVal) (fuel : nat)
    (frontier : list (list PyVal)) (seen : list PyVal) : option (list PyVal) :=
  match find (fun p => match p with v :: _ => pyval_eqb v target | [] => false end)
          frontier with
  | Some p => Some (rev p)
  | None =>
      match fuel with
      | O => None
      | S fuel' =>
          let step :=
            fold_left
              (fun '(next, seen') p =>
                 match p with
                 | [] => (next, seen')
                 | v :: _ =>
                     fold_left
                       (fun '(next', seen'') w =>
                          if mem w seen'' then (next', seen'')
                          else (next' ++ [w :: p], w :: seen''))
                       (successors g v) (next, seen')
                 end)
              frontier ([], seen) in
          match fst step with
          | [] => None
          | next => bfs g target fuel' next (snd step)
          end
      end
  end.

Definition bfs_shortest_path (g : DiGraph) (source target : PyVal)
  : NxError + list PyVal :=
  if has_node g source && has_node g target then
    match bfs g target (length (edges g)) [[source]] [source] with
    | Some p => inr p
    | None => inl NetworkXNoPath
    end
  else inl NodeNotFound.

End Hypergraph.

(* ===================================================================== *)
(** * Facts about the runtime structures                                  *)
(* ===================================================================== *)

Module PyDictFacts.
Import PyDict.

Section Odict.
Context {V : Type}.
Implicit Types (d : odict V) (k : string) (v : V).

Lemma od_get_app d1 d2 k :
  od_get (d1 ++ d2) k =
  match od_get d1 k with
  | Some v => Some v
  | None => od_get d2 k
  end.
Proof.
  induction d1 as [|[k' v'] d1 IH]; simpl; [reflexivity|].
  destruct (String.eqb k' k); [reflexivity | exact IH].
Qed.

Lemma od_get_set_eq d k v : od_get (od_set d k v) k = Some v.
Proof.
  induction d as [|[k' v'] d IH]; simpl.
  - rewrite String.eqb_refl. reflexivity.
  - destruct (String.eqb k' k) eqn:E; simpl; rewrite E; [reflexivity | exact IH].
Qed.

Lemma od_get_set_ne d k k' v :
  k <> k' -> od_get (od_set d k v) k' = od_get d k'.
Proof.
  intros Hne. induction d as [|[k0 v0] d IH]; simpl.
  - destruct (String.eqb k k') eqn:E; [|reflexivity].
    apply String.eqb_eq in E. contradiction.
  - destruct (String.eqb k0 k) eqn:E; simpl.
    + apply String.eqb_eq in E. subst k0.
      destruct (String.eqb k k') eqn:E'; [|reflexivity].
      apply String.eqb_eq in E'. contradiction.
    + rewrite IH. reflexivity.
Qed.

Lemma od_get_set d k k' v :
  od_get (od_set d k v) k' = if String.eqb k k' then Some v else od_get d k'.
Proof.
  destruct (String.eqb k k') eqn:E.
  - apply String.eqb_eq in E. subst k'. apply od_get_set_eq.
  - apply od_get_set_ne. intros ->. rewrite String.eqb_refl in E. discriminate.
Qed.

(** After a run of assignments a key holds the value of the last one made
    to it, and otherwise what it held before. *)
Lemma od_get_fold_set (l : list (string * V)) d k :
  od_get (fold_left (fun d kv => od_set d (fst kv) (snd kv)) l d) k =
  match od_get (rev l) k with
  | Some v => Some v
  | None => od_get d k
  end.
Proof.
  revert d. induction l as [|[k0 v0] l IH]; intros d; simpl; [reflexivity|].
  rewrite IH, od_get_app, od_get_set. simpl.
  destruct (od_get (rev l) k); [reflexivity|].
  destruct (String.eqb k0 k); reflexivity.
Qed.

Lemma od_keys_set d k v :
  od_keys (od_set d k v) =
  if existsb (String.eqb k) (od_keys d) then od_keys d else od_keys d ++ [k].
Proof.
  induction d as [|[k0 v0] d IH]; simpl; [reflexivity|].
  rewrite (String.eqb_sym k k0).
  destruct (String.eqb k0 k) eqn:E; simpl; [reflexivity|].
  change (map fst (od_set d k v)) with (od_keys (od_set d k v)).
  change (map fst d) with (od_keys d).
  rewrite IH.
  destruct (existsb _ _); reflexivity.
Qed.

Lemma existsb_eqb_In k (l : list string) :
  existsb (String.eqb k) l = true <-> In k l.
Proof.
  rewrite existsb_exists. split.
  - intros (x & Hin & E). apply String.eqb_eq in E. subst. exact Hin.
  - intros Hin. exists k. split; [exact Hin | apply String.eqb_refl].
Qed.

Lemma od_keys_set_NoDup d k v :
  List.NoDup (od_keys d) -> List.NoDup (od_keys (od_set d k v)).
Proof.
  intros Hnd. rewrite od_keys_set.
  destruct (existsb (String.eqb k) (od_keys d)) eqn:E; [exact Hnd|].
  apply List.NoDup_app.
  - exact Hnd.
  - constructor; [intros [] | constructor].
  - intros x Hx [<-|[]].
    apply existsb_eqb_In in Hx. congruence.
Qed.

Lemma od_get_In d k v : od_get d k = Some v -> In (k, v) d.
Proof.
  induction d as [|[k0 v0] d IH]; simpl; [discriminate|].
  destruct (String.eqb k0 k) eqn:E.
  - intros [= ->]. apply String.eqb_eq in E. subst. left. reflexivity.
  - intros H. right. apply IH, H.
Qed.

Lemma od_get_None d k : od_get d k = None <-> ~ In k (od_keys d).
Proof.
  induction d as [|[k0 v0] d IH]; simpl; [tauto|].
  destruct (String.eqb k0 k) eqn:E.
  - apply String.eqb_eq in E. subst. split; [discriminate | tauto].
  - rewrite IH. split.
    + intros H [->|H']; [rewrite String.eqb_refl in E; discriminate | tauto].
    + tauto.
Qed.

Lemma In_od_get d k v :
  List.NoDup (od_keys d) -> In (k, v) d -> od_get d k = Some v.
Proof.
  induction d as [|[k0 v0] d IH]; simpl; [tauto|].
  intros Hnd [E|Hin].
  - injection E as -> ->. rewrite String.eqb_refl. reflexivity.
  - inversion Hnd as [|? ? Hnotin Hnd']; subst.
    destruct (String.eqb k0 k) eqn:E.
    + apply String.eqb_eq in E. subst. exfalso. apply Hnotin.
      apply (in_map fst) in Hin. exact Hin.
    + apply IH; assumption.
Qed.

End Odict.

(** ** [defaultdict(list)] *)

Lemma dd_get_append d k x k' :
  dd_get (dd_append d k x) k' =
  if String.eqb k k' then dd_get d k ++ [x] else dd_get d k'.
Proof.
  unfold dd_get, dd_append.
  destruct (String.eqb k k') eqn:E.
  - apply String.eqb_eq in E. subst. rewrite lookup_insert_eq. reflexivity.
  - rewrite lookup_insert_ne; [reflexivity|].
    intros ->. rewrite String.eqb_refl in E. discriminate.
Qed.

(** Appending [x] under each key of [keys]: the key [k'] receives [x] once
    for each of its occurrences in [keys]. *)
Lemma dd_get_fold_append (keys : list string) d x k' :
  dd_get (fold_left (fun d k => dd_append d k x) keys d) k' =
  dd_get d k' ++ flat_map (fun k => if String.eqb k k' then [x] else []) keys.
Proof.
  revert d. induction keys as [|k keys IH]; intros d; simpl.
  - rewrite app_nil_r. reflexivity.
  - rewrite IH, dd_get_append.
    destruct (String.eqb k k') eqn:E; simpl; [|reflexivity].
    apply String.eqb_eq in E. subst k'.
    rewrite <- app_assoc. reflexivity.
Qed.

End PyDictFacts.

Module ListFacts.

Lemma fold_left_map {A B C : Type} (f : A -> B -> A) (g : C -> B) (l : list C) (a : A) :
  fold_left f (map g l) a = fold_left (fun a x => f a (g x)) l a.
Proof.
  revert a. induction l as [|x l IH]; intros a; simpl; [reflexivity | apply IH].
Qed.

Lemma fold_left_ext {A B : Type} (f g : A -> B -> A) (l : list B) (a : A) :
  (forall a x, f a x = g a x) -> fold_left f l a = fold_left g l a.
Proof.
  intros H. revert a. induction l as [|x l IH]; intros a; simpl; [reflexivity|].
  rewrite H. apply IH.
Qed.

End ListFacts.

(* ===================================================================== *)
(** * The index that the build produces                                   *)
(* ===================================================================== *)

Module IndexFacts.
Import ListFacts PyStr PyDict PyDictFacts Index.

(** The index with another [frameworks] attribute. *)
Definition set_frameworks (fws : odict Framework) (s : FrameworkIndex)
  : FrameworkIndex :=
  {| frameworks := fws;
     function_index := function_index s;
     principle_index := principle_index s;
     domain_index := domain_index s;
     cross_references := cross_references s |}.

Section Corpus.
Context {rt : PyRuntime}.

(** The records of the corpus in the order in which the build reaches
    them, each with the code and the framework it is indexed under. *)
Definition corpus (fws : odict Framework) : list (string * Framework * Func) :=
  flat_map
    (fun '(code, fw) =>
       map (fun f => (code, fw, f))
         (flat_map Extractor._extract_functions_from_file (fw_files fw)))
    fws.

(** The assignment [self.function_index[func_full_name] = ...] that the
    build makes for a record. *)
Definition entry (r : string * Framework * Func) : string * IndexedFunc :=
  let '(code, fw, f) := r in
  (full_name code f, {| framework := code; framework_name := fw_name fw; func := f |}).

(** The assignments to [function_index] in the order of the build. *)
Definition insertions (tree : FileTree) : list (string * IndexedFunc) :=
  map entry (corpus (_load_frameworks tree)).

Lemma corpus_cons code fw fws :
  corpus ((code, fw) :: fws) =
  map (fun f => (code, fw, f))
    (flat_map Extractor._extract_functions_from_file (fw_files fw))
  ++ corpus fws.
Proof. reflexivity. Qed.

Lemma fold_index_file code fw files s acc :
  fold_left (index_file code fw) files (s, acc) =
  (fold_left (index_function code fw)
     (flat_map Extractor._extract_functions_from_file files) s,
   acc ++ flat_map Extractor._extract_functions_from_file files).
Proof.
  revert s acc. induction files as [|f files IH]; intros s acc; simpl.
  - rewrite app_nil_r. reflexivity.
  - unfold index_file at 2. simpl. rewrite IH, fold_left_app, <- app_assoc.
    reflexivity.
Qed.

Lemma index_framework_eq s code fw :
  index_framework s (code, fw) =
  set_frameworks
    (od_set (frameworks
               (fold_left (index_function code fw)
                  (flat_map Extractor._extract_functions_from_file (fw_files fw)) s))
       code
       {| fw_code := fw_code fw; fw_name := fw_name fw; fw_level := fw_level fw;
          fw_path := fw_path fw; fw_domains := fw_domains fw;
          fw_files := fw_files fw;
          fw_functions :=
            flat_map Extractor._extract_functions_from_file (fw_files fw);
          fw_function_count :=
            Some (Z.of_nat (length
              (flat_map Extractor._extract_functions_from_file (fw_files fw)))) |})
    (fold_left (index_function code fw)
       (flat_map Extractor._extract_functions_from_file (fw_files fw)) s).
Proof.
  unfold index_framework. rewrite fold_index_file. reflexivity.
Qed.

(** An attribute [P] that each record updates by [U], whatever the
    [frameworks] attribute is, is after the build the fold of [U] over the
    corpus. *)
Section Projection.
Context {X : Type} (P : FrameworkIndex -> X)
  (U : string -> Framework -> Func -> X -> X).
Hypothesis P_step : forall code fw s f,
  P (index_function code fw s f) = U code fw f (P s).
Hypothesis P_frameworks : forall fws s, P (set_frameworks fws s) = P s.

Lemma fold_index_function code fw fns s :
  P (fold_left (index_function code fw) fns s) =
  fold_left (fun x f => U code fw f x) fns (P s).
Proof.
  revert s. induction fns as [|f fns IH]; intros s; simpl; [reflexivity|].
  rewrite IH, P_step. reflexivity.
Qed.

Lemma build_projection fws s :
  P (fold_left index_framework fws s) =
  fold_left (fun x '(code, fw, f) => U code fw f x) (corpus fws) (P s).
Proof.
  revert s. induction fws as [|[code fw] fws IH]; intros s; [reflexivity|].
  change (fold_left index_framework ((code, fw) :: fws) s)
    with (fold_left index_framework fws (index_framework s (code, fw))).
  rewrite IH, index_framework_eq, P_frameworks, fold_index_function.
  rewrite corpus_cons, fold_left_app, fold_left_map. reflexivity.
Qed.

End Projection.

Lemma function_index_build fws s :
  function_index (fold_left index_framework fws s) =
  fold_left (fun d kv => od_set d (fst kv) (snd kv)) (map entry (corpus fws))
    (function_index s).
Proof.
  rewrite (build_projection function_index
             (fun code fw f d =>
                od_set d (full_name code f)
                  {| framework := code; framework_name := fw_name fw; func := f |}));
    [|reflexivity|reflexivity].
  rewrite fold_left_map. apply fold_left_ext. intros d [[code fw] f]. reflexivity.
Qed.

Lemma cross_references_build fws s p :
  dd_get (cross_references (fold_left index_framework fws s)) p =
  dd_get (cross_references s) p
  ++ flat_map
       (fun r => flat_map
          (fun ref => if String.eqb ref p then [fst (entry r)] else [])
          (Extractor.cross_references (snd r)))
       (corpus fws).
Proof.
  rewrite (build_projection cross_references
             (fun code fw f d =>
                fold_left (fun d ref => dd_append d ref (full_name code f))
                  (Extractor.cross_references f) d));
    [|reflexivity|reflexivity].
  generalize (cross_references s). induction (corpus fws) as [|[[code fw] f] l IH];
    intros d; simpl.
  - rewrite app_nil_r. reflexivity.
  - rewrite IH, dd_get_fold_append, <- app_assoc. reflexivity.
Qed.

Lemma domain_index_build fws s dom :
  dd_get (domain_index (fold_left index_framework fws s)) dom =
  dd_get (domain_index s) dom
  ++ flat_map
       (fun r => flat_map
          (fun d => if String.eqb d dom then [fst (entry r)] else [])
          (fw_domains (snd (fst r))))
       (corpus fws).
Proof.
  rewrite (build_projection domain_index
             (fun code fw f d =>
                fold_left (fun d domain => dd_append d domain (full_name code f))
                  (fw_domains fw) d));
    [|reflexivity|reflexivity].
  generalize (domain_index s). induction (corpus fws) as [|[[code fw] f] l IH];
    intros d; simpl.
  - rewrite app_nil_r. reflexivity.
  - rewrite IH, dd_get_fold_append, <- app_assoc. reflexivity.
Qed.

Lemma principle_index_build fws s :
  principle_index (fold_left index_framework fws s) =
  fold_left
    (fun d '(code, fw, f) =>
       if Extractor.is_principle f || (fw_level fw =? 1) then
         od_set d (Extractor.name f) {| p_framework := code; p_func := f |}
       else d)
    (corpus fws) (principle_index s).
Proof.
  apply (build_projection principle_index
           (fun code fw f d =>
              if Extractor.is_principle f || (fw_level fw =? 1) then
                od_set d (Extractor.name f) {| p_framework := code; p_func := f |}
              else d)); reflexivity.
Qed.

Lemma fold_od_set_NoDup {V : Type} (l : list (string * V)) (d : odict V) :
  List.NoDup (od_keys d) ->
  List.NoDup (od_keys (fold_left (fun d kv => od_set d (fst kv) (snd kv)) l d)).
Proof.
  revert d. induction l as [|[k v] l IH]; intros d Hd; simpl; [exact Hd|].
  apply IH, od_keys_set_NoDup, Hd.
Qed.

(** C1, as the build does it: an assignment to a qualified name that is
    already in [function_index] replaces the record held there.  For every
    built index, the index holds one record for each qualified name, and it
    is the record of the last assignment that the build made to that name;
    the build has no result besides the index, so nothing is reported. *)
Theorem function_index_keeps_last_inserted (tree : FileTree) (k : string) :
  List.NoDup (od_keys (function_index (init tree)))
  /\ od_get (function_index (init tree)) k = od_get (rev (insertions tree)) k.
Proof.
  unfold init, _build_indices, insertions. cbn [frameworks].
  rewrite function_index_build. cbn [function_index]. split.
  - apply fold_od_set_NoDup. constructor.
  - rewrite od_get_fold_set. simpl.
    destruct (od_get (rev _) k); reflexivity.
Qed.

End Corpus.

End IndexFacts.


(* ===================================================================== *)
(** * One-hop chains ([build_inference_chain])                            *)
(* ===================================================================== *)

Module ChainFacts.
Import PyStr PyDict PyDictFacts Index.

Lemma str_in_In (x : string) (l : list string) : str_in x l = true <-> In x l.
Proof. apply existsb_eqb_In. Qed.

(** The first record, in the order of [function_index], whose local name is
    [target]. *)
Definition first_named (self : FrameworkIndex) (target : string)
  : option IndexedFunc :=
  option_map snd
    (find (fun kv => String.eqb (Extractor.name (func (snd kv))) target)
       (function_index self)).

(** The two nodes of a chain. *)
Definition principle_node (p : string) : ChainNode :=
  {| node := p; node_type := "principle"; level := 1; node_data := None |}.
Definition rule_node (t : string) (fd : IndexedFunc) : ChainNode :=
  {| node := t; node_type := "rule"; level := 2; node_data := Some fd |}.

Lemma chain_loop_first p t items :
  chain_loop p t items =
  match find (fun kv => String.eqb (Extractor.name (func (snd kv))) t) items with
  | Some kv =>
      if str_in p (Extractor.cross_references (func (snd kv)))
      then [principle_node p; rule_node t (snd kv)]
      else []
  | None => []
  end.
Proof.
  induction items as [|[k fd] items IH]; simpl; [reflexivity|].
  destruct (String.eqb (Extractor.name (func fd)) t); [reflexivity | exact IH].
Qed.

(** C2, as the code does it: the chain is decided by the first record of
    the index whose local name is the target, where the loop stops.
    [chain] returns a chain exactly when that record lists the principle
    among its cross-references; the chain is then the two nodes principle
    and target, and otherwise the result is [None], whatever the other
    records of the index say. *)
Theorem chain_decided_by_first_named (self : FrameworkIndex) (p t : string) :
  Inference.chain self p t = build_inference_chain self p t
  /\ ((exists c, Inference.chain self p t = Some c) <->
      (exists fd, first_named self t = Some fd
                  /\ In p (Extractor.cross_references (func fd))))
  /\ (forall c, Inference.chain self p t = Some c ->
        exists fd, first_named self t = Some fd
                   /\ c = [principle_node p; rule_node t fd])
  /\ ((forall fd, first_named self t = Some fd ->
         ~ In p (Extractor.cross_references (func fd))) ->
      Inference.chain self p t = None).
Proof.
  unfold Inference.chain, build_inference_chain, first_named.
  rewrite chain_loop_first.
  destruct (find _ (function_index self)) as [[k fd]|]; simpl.
  - destruct (str_in p (Extractor.cross_references (func fd))) eqn:E.
    + apply str_in_In in E. repeat split.
      * intros _. exists fd. split; [reflexivity | exact E].
      * intros _. eexists. reflexivity.
      * intros c [= <-]. exists fd. split; reflexivity.
      * intros H. exfalso. exact (H fd eq_refl E).
    + repeat split.
      * intros [c H]. discriminate H.
      * intros (fd' & [= <-] & Hin). apply str_in_In in Hin. congruence.
      * intros c H. discriminate H.
  - repeat split.
    + intros [c H]. discriminate H.
    + intros (fd & H & _). discriminate H.
    + intros c H. discriminate H.
Qed.

End ChainFacts.

(* ===================================================================== *)
(** * The reverse index ([find_derived_rules])                            *)
(* ===================================================================== *)

Module DerivedFacts.
Import ListFacts PyStr PyDict PyDictFacts Index IndexFacts ChainFacts.

Lemma flat_map_map {A B C : Type} (f : B -> list C) (g : A -> B) (l : list A) :
  flat_map f (map g l) = flat_map (fun x => f (g x)) l.
Proof.
  induction l as [|x l IH]; simpl; [reflexivity | rewrite IH; reflexivity].
Qed.

Lemma od_set_fresh {V : Type} (d : odict V) k v :
  ~ In k (od_keys d) -> od_set d k v = d ++ [(k, v)].
Proof.
  induction d as [|[k0 v0] d IH]; simpl; [reflexivity|].
  intros Hnot. destruct (String.eqb k0 k) eqn:E.
  - apply String.eqb_eq in E. tauto.
  - rewrite IH; [reflexivity | tauto].
Qed.

(** Assignments to keys that are all different and new append to the
    dictionary. *)
Lemma fold_od_set_fresh {V : Type} (l : list (string * V)) (d : odict V) :
  List.NoDup (od_keys d ++ map fst l) ->
  fold_left (fun d kv => od_set d (fst kv) (snd kv)) l d = d ++ l.
Proof.
  revert d. induction l as [|[k v] l IH]; intros d Hnd; simpl.
  - rewrite app_nil_r. reflexivity.
  - rewrite od_set_fresh.
    + rewrite IH; [rewrite <- app_assoc; reflexivity|].
      unfold od_keys. rewrite map_app, <- app_assoc. exact Hnd.
    + apply NoDup_remove_2 in Hnd. intros Hin. apply Hnd.
      apply in_or_app. left. exact Hin.
Qed.

(** The records that refer to [p], in the order of [items], once for each
    occurrence of [p] among the cross-references of the record. *)
Definition referrers (p : string) (items : list (string * IndexedFunc))
  : list IndexedFunc :=
  flat_map
    (fun kv =>
       flat_map (fun ref => if String.eqb ref p then [snd kv] else [])
         (Extractor.cross_references (func (snd kv))))
    items.

Lemma In_referrers p items e :
  In e (referrers p items) <->
  In e (od_values items) /\ In p (Extractor.cross_references (func e)).
Proof.
  unfold referrers, od_values. rewrite in_flat_map. split.
  - intros ([k v] & Hin & H). apply in_flat_map in H as (ref & Href & H).
    simpl in *. destruct (String.eqb ref p) eqn:E; [|destruct H].
    destruct H as [<-|[]]. apply String.eqb_eq in E. subst ref.
    split; [|exact Href]. apply (in_map snd) in Hin. exact Hin.
  - intros [Hin Hp]. apply in_map_iff in Hin as ([k v] & <- & Hin).
    exists (k, v). split; [exact Hin|]. apply in_flat_map. exists p.
    split; [exact Hp|]. simpl. rewrite String.eqb_refl. left. reflexivity.
Qed.

Lemma lookup_all_app d ks1 ks2 vs1 vs2 :
  lookup_all d ks1 = inr vs1 -> lookup_all d ks2 = inr vs2 ->
  lookup_all d (ks1 ++ ks2) = inr (vs1 ++ vs2).
Proof.
  revert vs1. induction ks1 as [|k ks1 IH]; intros vs1 H1 H2; simpl in *.
  - injection H1 as <-. exact H2.
  - destruct (od_get d k); [|discriminate].
    destruct (lookup_all d ks1) as [e|vs] eqn:E; [discriminate|].
    injection H1 as <-. rewrite (IH vs eq_refl H2). reflexivity.
Qed.

(** Looking up the names under which the records of [items] were filed
    gives the records back, when each name is held by its record. *)
Lemma lookup_all_referrers d p (items : list (string * IndexedFunc)) :
  (forall kv, In kv items -> od_get d (fst kv) = Some (snd kv)) ->
  lookup_all d
    (flat_map
       (fun kv =>
          flat_map (fun ref => if String.eqb ref p then [fst kv] else [])
            (Extractor.cross_references (func (snd kv))))
       items)
  = inr (referrers p items).
Proof.
  induction items as [|kv items IH]; intros Hget; [reflexivity|].
  simpl. apply lookup_all_app.
  - specialize (Hget kv (or_introl eq_refl)).
    induction (Extractor.cross_references (func (snd kv))) as [|ref refs IHr];
      [reflexivity|].
    simpl. destruct (String.eqb ref p); simpl; [|exact IHr].
    rewrite Hget, IHr. reflexivity.
  - apply IH. intros kv' Hin. apply Hget. right. exact Hin.
Qed.

Section Derived.
Context {rt : PyRuntime}.

Lemma cross_references_init tree p :
  dd_get (cross_references (init tree)) p =
  flat_map
    (fun kv =>
       flat_map (fun ref => if String.eqb ref p then [fst kv] else [])
         (Extractor.cross_references (func (snd kv))))
    (insertions tree).
Proof.
  unfold init, _build_indices, insertions. cbn [frameworks].
  rewrite cross_references_build. cbn [cross_references].
  unfold dd_get at 1. rewrite lookup_empty. simpl.
  rewrite flat_map_map. apply flat_map_ext. intros [[code fw] f]. reflexivity.
Qed.

(** With qualified names that are all different, the index is the list of
    the insertions. *)
Lemma function_index_unique tree :
  List.NoDup (od_keys (insertions tree)) ->
  function_index (init tree) = insertions tree.
Proof.
  intros Hnd. unfold init, _build_indices. cbn [frameworks].
  rewrite function_index_build. cbn [function_index].
  fold (insertions tree). apply (fold_od_set_fresh (insertions tree) []).
  exact Hnd.
Qed.

(** C4, for a corpus without duplicate definitions: when the qualified
    names of the records of the corpus are pairwise different,
    [find_derived_rules p] returns the records of the index whose
    cross-references contain [p], all of them and no other, in the order in
    which the build reached them (a record that lists [p] several times
    appears once for each occurrence). *)
Theorem derived_rules_are_the_referrers (tree : FileTree) (p : string)
    (Hunique : List.NoDup (od_keys (insertions tree))) :
  find_derived_rules (init tree) p
    = inr (referrers p (function_index (init tree)))
  /\ forall e,
       In e (referrers p (function_index (init tree))) <->
       In e (od_values (function_index (init tree)))
       /\ In p (Extractor.cross_references (func e)).
Proof.
  split; [|intros e; apply In_referrers].
  unfold find_derived_rules.
  rewrite cross_references_init, (function_index_unique tree Hunique).
  apply lookup_all_referrers.
  intros [k v] Hin. apply In_od_get; assumption.
Qed.

End Derived.

End DerivedFacts.

(* ===================================================================== *)
(** * Keyword search ([search_functions])                                 *)
(* ===================================================================== *)

Module SortFacts.
Import PySort.

Section Sort.
Context {A : Type} (key : A -> Z).

Lemma insert_stable_head x l :
  (forall y, In y l -> key x <= key y) -> insert_stable key x l = x :: l.
Proof.
  destruct l as [|y l]; intros H; simpl; [reflexivity|].
  destruct (Z.leb_spec (key x) (key y)) as [_|Hlt]; [reflexivity|].
  specialize (H y (or_introl eq_refl)). lia.
Qed.

Lemma insert_stable_skip x l1 l2 :
  (forall y, In y l1 -> key y < key x) ->
  insert_stable key x (l1 ++ l2) = l1 ++ insert_stable key x l2.
Proof.
  induction l1 as [|y l1 IH]; intros H; simpl; [reflexivity|].
  destruct (Z.leb_spec (key x) (key y)) as [Hle|_].
  - specialize (H y (or_introl eq_refl)). lia.
  - rewrite IH; [reflexivity|]. intros z Hz. apply H. right. exact Hz.
Qed.

Definition has_key (k : Z) (x : A) : bool := key x =? k.

Lemma In_has_key k x l : In x (List.filter (has_key k) l) -> key x = k.
Proof. intros H. apply filter_In in H as [_ H]. apply Z.eqb_eq, H. Qed.

(** With the three keys 0, 1 and 2 the stable sort is the three classes one
    after the other, each in the order of the input. *)
Lemma sort_by_three_keys l :
  (forall x, In x l -> key x = 0 \/ key x = 1 \/ key x = 2) ->
  sort_by key l =
  List.filter (has_key 0) l ++ List.filter (has_key 1) l ++ List.filter (has_key 2) l.
Proof.
  induction l as [|x l IH]; intros Hkeys; [reflexivity|].
  cbn [sort_by List.filter].
  rewrite IH by (intros y Hy; apply Hkeys; right; exact Hy).
  change (has_key 0 x) with (key x =? 0).
  change (has_key 1 x) with (key x =? 1).
  change (has_key 2 x) with (key x =? 2).
  destruct (Hkeys x (or_introl eq_refl)) as [E|[E|E]]; rewrite E;
    cbn [Z.eqb Pos.eqb app].
  - apply insert_stable_head. intros y Hy.
    assert (key y = 0 \/ key y = 1 \/ key y = 2) as Hy'; [|lia].
    apply in_app_or in Hy as [Hy|Hy]; [|apply in_app_or in Hy as [Hy|Hy]];
      apply In_has_key in Hy; lia.
  - rewrite insert_stable_skip.
    + f_equal. apply insert_stable_head. intros y Hy.
      apply in_app_or in Hy as [Hy|Hy]; apply In_has_key in Hy; lia.
    + intros y Hy. apply In_has_key in Hy. lia.
  - rewrite insert_stable_skip.
    + f_equal. rewrite insert_stable_skip.
      * f_equal. apply insert_stable_head. intros y Hy.
        apply In_has_key in Hy. lia.
      * intros y Hy. apply In_has_key in Hy. lia.
    + intros y Hy. apply In_has_key in Hy. lia.
Qed.

End Sort.

End SortFacts.

Module StrFacts.
Import PyStr.

Lemma append_nil_l (s : string) : EmptyString +:+ s = s.
Proof. reflexivity. Qed.

Lemma append_cons (c : ascii) (a b : string) :
  String c a +:+ b = String c (a +:+ b).
Proof. reflexivity. Qed.

Lemma append_nil_r (s : string) : s +:+ EmptyString = s.
Proof. induction s as [|c s IH]; [reflexivity|]. rewrite append_cons, IH. reflexivity. Qed.

Lemma prefix_nil (b : string) : String.prefix EmptyString b = true.
Proof. destruct b; reflexivity. Qed.

Lemma prefix_cons (c c' : ascii) (a b : string) :
  String.prefix (String c a) (String c' b) =
  if Ascii.eqb c c' then String.prefix a b else false.
Proof.
  cbn [String.prefix]. destruct (ascii_dec c c') as [->|Hne].
  - rewrite Ascii.eqb_refl. reflexivity.
  - destruct (Ascii.eqb c c') eqn:E; [|reflexivity].
    apply Ascii.eqb_eq in E. contradiction.
Qed.

Lemma prefix_app (a b : string) :
  String.prefix a b = true <-> exists post, b = a +:+ post.
Proof.
  revert b. induction a as [|c a IH]; intros b.
  - rewrite prefix_nil. split; [intros _; exists b; reflexivity | reflexivity].
  - destruct b as [|c' b].
    + split; [discriminate | intros [post H]; discriminate H].
    + rewrite prefix_cons. destruct (Ascii.eqb c c') eqn:E.
      * apply Ascii.eqb_eq in E. subst c'. rewrite IH.
        split; intros [post H]; exists post.
        -- rewrite append_cons, H. reflexivity.
        -- rewrite append_cons in H. injection H as H. exact H.
      * split; [discriminate|]. intros [post H]. rewrite append_cons in H.
        injection H as H _. subst c'. rewrite Ascii.eqb_refl in E. discriminate.
Qed.

(** [contains] is the substring test. *)
Lemma contains_spec (needle hay : string) :
  contains needle hay = true <-> exists pre post, hay = pre +:+ needle +:+ post.
Proof.
  induction hay as [|c hay IH].
  - cbn [contains]. rewrite orb_false_r, prefix_app. split.
    + intros [post H]. exists EmptyString, post. exact H.
    + intros (pre & post & H). destruct pre; [exists post; exact H|].
      discriminate H.
  - cbn [contains]. rewrite orb_true_iff, IH, prefix_app. split.
    + intros [[post H]|(pre & post & H)].
      * exists EmptyString, post. exact H.
      * exists (String c pre), post. rewrite append_cons, H. reflexivity.
    + intros (pre & post & H). destruct pre as [|c' pre].
      * left. exists post. exact H.
      * right. rewrite append_cons in H. injection H as _ H.
        exists pre, post. exact H.
Qed.

Lemma contains_refl (s : string) : contains s s = true.
Proof.
  apply contains_spec. exists EmptyString, EmptyString.
  rewrite append_nil_l, append_nil_r. reflexivity.
Qed.

End StrFacts.

Module SearchFacts.
Import ListFacts PyStr PyDict PyDictFacts PySort SortFacts StrFacts.
Import Index IndexFacts ChainFacts.

Lemma In_od_set {V : Type} (d : odict V) k v kv :
  In kv (od_set d k v) -> In kv d \/ kv = (k, v).
Proof.
  induction d as [|[k0 v0] d IH]; simpl.
  - intros [<-|[]]. right. reflexivity.
  - destruct (String.eqb k0 k) eqn:E; simpl.
    + apply String.eqb_eq in E. subst k0.
      intros [<-|H]; [right; reflexivity | left; right; exact H].
    + intros [<-|H]; [left; left; reflexivity|].
      destruct (IH H) as [H'|H']; [left; right; exact H' | right; exact H'].
Qed.

Lemma In_fold_od_set {V : Type} (l : list (string * V)) (d : odict V) kv :
  In kv (fold_left (fun d kv => od_set d (fst kv) (snd kv)) l d) ->
  In kv d \/ In kv l.
Proof.
  revert d. induction l as [|[k v] l IH]; intros d; simpl; [tauto|].
  intros H. destruct (IH _ H) as [H'|H']; [|tauto].
  destruct (In_od_set _ _ _ _ H') as [H''|H'']; [tauto|].
  right. left. symmetry. exact H''.
Qed.

Lemma od_keys_set_incl {V : Type} (d : odict V) k v x :
  In x (od_keys d) -> In x (od_keys (od_set d k v)).
Proof.
  rewrite od_keys_set. destruct (existsb _ _); [tauto|].
  intros H. apply in_or_app. left. exact H.
Qed.

Lemma od_keys_set_key {V : Type} (d : odict V) k v :
  In k (od_keys (od_set d k v)).
Proof.
  rewrite od_keys_set. destruct (existsb _ _) eqn:E.
  - apply existsb_eqb_In, E.
  - apply in_or_app. right. left. reflexivity.
Qed.

Section Search.
Context {rt : PyRuntime}.

Lemma frameworks_index_function code fw fns s :
  frameworks (fold_left (index_function code fw) fns s) = frameworks s.
Proof.
  rewrite (fold_index_function frameworks (fun _ _ _ x => x)
             (fun _ _ _ _ => eq_refl)).
  induction fns as [|f fns IH]; [reflexivity | exact IH].
Qed.

(** The build keeps the codes of [self.frameworks]. *)
Lemma frameworks_build_keys fws s x :
  In x (od_keys (frameworks s)) ->
  In x (od_keys (frameworks (fold_left index_framework fws s))).
Proof.
  revert s. induction fws as [|[code fw] fws IH]; intros s Hx; [exact Hx|].
  change (fold_left index_framework ((code, fw) :: fws) s)
    with (fold_left index_framework fws (index_framework s (code, fw))).
  apply IH. rewrite index_framework_eq. cbn [set_frameworks frameworks].
  apply od_keys_set_incl. rewrite frameworks_index_function. exact Hx.
Qed.

Lemma In_corpus r fws :
  In r (corpus fws) -> In (fst (fst r)) (od_keys fws).
Proof.
  unfold corpus. rewrite in_flat_map. intros ([code fw] & Hin & H).
  apply in_map_iff in H as (f & <- & _). simpl.
  apply (in_map fst) in Hin. exact Hin.
Qed.

(** Every record of a built index names a framework of the index. *)
Lemma function_index_framework tree kv :
  In kv (function_index (init tree)) ->
  od_get (frameworks (init tree)) (framework (snd kv)) <> None.
Proof.
  intros Hin. rewrite od_get_None. intros Hnot. apply Hnot. clear Hnot.
  unfold init, _build_indices in *. cbn [frameworks] in *.
  rewrite function_index_build in Hin. cbn [function_index] in Hin.
  apply In_fold_od_set in Hin as [[]|Hin].
  apply in_map_iff in Hin as ([[code fw] f] & <- & Hin).
  apply frameworks_build_keys. cbn [frameworks].
  apply In_corpus in Hin. exact Hin.
Qed.

(** The record passes the domain test: there is no filter, or the framework
    of the record declares the domain. *)
Definition passes (self : FrameworkIndex) (domain : option string)
    (fd : IndexedFunc) : bool :=
  match truthy domain with
  | Some d =>
      match od_get (frameworks self) (framework fd) with
      | Some fw => str_in d (fw_domains fw)
      | None => false
      end
  | None => true
  end.

Lemma domain_filter_passes self domain fd :
  od_get (frameworks self) (framework fd) <> None ->
  domain_filter self domain fd = inr (passes self domain fd).
Proof.
  unfold domain_filter, passes. intros H.
  destruct (truthy domain); [|reflexivity].
  destruct (od_get (frameworks self) (framework fd)); [reflexivity | congruence].
Qed.

Lemma search_loop_spec self ql domain items acc :
  (forall kv, In kv items ->
     od_get (frameworks self) (framework (snd kv)) <> None) ->
  search_loop self ql domain items acc =
  inr (acc ++ flat_map
                (fun fd => if passes self domain fd then match_record ql fd else [])
                (od_values items)).
Proof.
  revert acc. induction items as [|[k fd] items IH]; intros acc Hfw; simpl.
  - rewrite app_nil_r. reflexivity.
  - rewrite domain_filter_passes by exact (Hfw (k, fd) (or_introl eq_refl)).
    destruct (passes self domain fd).
    + rewrite IH by (intros kv H; apply Hfw; right; exact H).
      rewrite <- app_assoc. reflexivity.
    + rewrite IH by (intros kv H; apply Hfw; right; exact H). reflexivity.
Qed.

(** The three tests on a record, for the lower-cased query [ql]. *)
Definition name_is (ql : string) (fd : IndexedFunc) : bool :=
  String.eqb ql (str_lower (Extractor.name (func fd))).
Definition name_has (ql : string) (fd : IndexedFunc) : bool :=
  contains ql (str_lower (Extractor.name (func fd))).
Definition doc_has (ql : string) (fd : IndexedFunc) : bool :=
  contains ql (str_lower (Extractor.docstring (func fd))).

Lemma name_is_has ql fd : name_is ql fd = true -> name_has ql fd = true.
Proof.
  unfold name_is, name_has. intros H. apply String.eqb_eq in H.
  rewrite <- H. apply contains_refl.
Qed.

Lemma filter_flat_map {A B : Type} (p : B -> bool) (f : A -> list B) (l : list A) :
  List.filter p (flat_map f l) = flat_map (fun x => List.filter p (f x)) l.
Proof.
  induction l as [|x l IH]; simpl; [reflexivity|].
  rewrite List.filter_app, IH. reflexivity.
Qed.

Lemma flat_map_singleton_if {A B : Type} (p : A -> bool) (g : A -> B) (l : list A) :
  flat_map (fun x => if p x then [g x] else []) l = map g (List.filter p l).
Proof.
  induction l as [|x l IH]; simpl; [reflexivity|].
  destruct (p x); simpl; rewrite IH; reflexivity.
Qed.

(** The results of one class, among the matches of the candidates. *)
Lemma class_of_matches self ql domain (k : Z) (r : Relevance)
    (test : IndexedFunc -> bool) (fds : list IndexedFunc) :
  (forall fd,
     List.filter (has_key relevance_order k) (match_record ql fd) =
     if test fd then [ {| relevance := r; data := fd |} ] else []) ->
  List.filter (has_key relevance_order k)
    (flat_map (fun fd => if passes self domain fd then match_record ql fd else [])
       fds) =
  map (mkResult r)
    (List.filter test (List.filter (passes self domain) fds)).
Proof.
  intros Hclass. rewrite filter_flat_map.
  induction fds as [|fd fds IH]; simpl; [reflexivity|].
  destruct (passes self domain fd); simpl.
  - rewrite Hclass, IH. destruct (test fd); reflexivity.
  - exact IH.
Qed.

(** C6, with the filter the code applies: an empty string is no filter.
    For every built index, query and optional domain, the search returns the
    records that pass the domain test (a non-empty domain must be declared
    by the framework of the record) and whose lower-cased name or docstring
    contains the lower-cased query: first those whose name equals the
    query, then those whose name only contains it, then those matched by
    the docstring alone, each class in the order of the index. *)
Theorem search_ranks_by_relevance (tree : FileTree) (query : string)
    (domain : option string) :
  let self := init tree in
  let ql := str_lower query in
  let candidates := List.filter (passes self domain) (od_values (function_index self)) in
  search_functions self query domain =
  inr (map (mkResult exact) (List.filter (name_is ql) candidates)
       ++ map (mkResult partial)
            (List.filter (fun fd => name_has ql fd && negb (name_is ql fd)) candidates)
       ++ map (mkResult description)
            (List.filter (fun fd => negb (name_has ql fd) && doc_has ql fd) candidates)).
Proof.
  intros self ql candidates. unfold search_functions. fold ql.
  rewrite search_loop_spec by (apply function_index_framework). simpl app.
  rewrite sort_by_three_keys.
  - f_equal. f_equal; [|f_equal];
      apply class_of_matches; intros fd; unfold match_record;
      fold (name_has ql fd); fold (doc_has ql fd); fold (name_is ql fd);
      pose proof (name_is_has ql fd) as Hexact;
      destruct (name_has ql fd), (name_is ql fd), (doc_has ql fd);
      try reflexivity; discriminate (Hexact eq_refl).
  - intros x Hx. apply in_flat_map in Hx as (fd & _ & Hx).
    destruct (passes self domain fd); [|destruct Hx].
    unfold match_record in Hx.
    destruct (contains _ _); [|destruct (contains _ _)];
      [destruct Hx as [<-|[]] | destruct Hx as [<-|[]] | destruct Hx].
    + unfold relevance_order. simpl. destruct (String.eqb _ _); simpl; tauto.
    + unfold relevance_order. simpl. tauto.
Qed.

End Search.

End SearchFacts.

(* ===================================================================== *)
(** * Principles of a domain ([find_principles_by_domain])                *)
(* ===================================================================== *)

Module PrincipleFacts.
Import ListFacts PyStr PyDict PyDictFacts Index IndexFacts ChainFacts.

(** The principle [p] is among the cross-references of a record that
    [function_index] holds under a name of [domain_index[domain]]. *)
Definition referenced_by (self : FrameworkIndex) (funcs : list string)
    (p : string) : bool :=
  existsb
    (fun func_name =>
       match od_get (function_index self) func_name with
       | Some fd => str_in p (Extractor.cross_references (func fd))
       | None => false
       end)
    funcs.

Definition referenced (self : FrameworkIndex) (domain : string) (p : string)
  : bool :=
  referenced_by self (dd_get (domain_index self) domain) p.

Definition info (p : string) (pd : Principle) : PrincipleInfo :=
  {| pi_name := p;
     pi_framework := p_framework pd;
     pi_docstring := Extractor.docstring (p_func pd);
     pi_file := Extractor.file (p_func pd) |}.

Lemma principle_loop_spec self p pd funcs acc :
  principle_loop self p pd funcs acc =
  if str_in p (map pi_name acc) then acc
  else if referenced_by self funcs p then acc ++ [info p pd]
  else acc.
Proof.
  induction funcs as [|fn funcs IH]; simpl.
  - destruct (str_in p (map pi_name acc)); reflexivity.
  - destruct (match od_get (function_index self) fn with
              | Some fd => str_in p (Extractor.cross_references (func fd))
              | None => false
              end) eqn:E.
    + assert (str_in p
                match od_get (function_index self) fn with
                | Some f => Extractor.cross_references (func f)
                | None => []
                end = true) as ->
        by (destruct (od_get (function_index self) fn); [exact E | discriminate E]).
      destruct (str_in p (map pi_name acc)) eqn:Hacc; simpl.
      * rewrite IH. reflexivity.
      * reflexivity.
    + assert (str_in p
                match od_get (function_index self) fn with
                | Some f => Extractor.cross_references (func f)
                | None => []
                end = false) as ->
        by (destruct (od_get (function_index self) fn); [exact E | reflexivity]).
      simpl. exact IH.
Qed.

Lemma map_pi_name_info (items : list (string * Principle)) :
  map pi_name (map (fun kv => info (fst kv) (snd kv)) items) = map fst items.
Proof.
  induction items as [|[p pd] items IH]; simpl; [reflexivity|].
  rewrite IH. reflexivity.
Qed.

(** The outer loop over principles with different names, started with
    principles of other names: each referenced principle is appended. *)
Lemma principles_fold self funcs (items : list (string * Principle)) acc :
  List.NoDup (map pi_name acc ++ map fst items) ->
  fold_left
    (fun principles '(principle_name, principle_data) =>
       principle_loop self principle_name principle_data funcs principles)
    items acc
  = acc ++ map (fun kv => info (fst kv) (snd kv))
             (List.filter (fun kv => referenced_by self funcs (fst kv)) items).
Proof.
  revert acc. induction items as [|[p pd] items IH]; intros acc Hnd; simpl.
  - rewrite app_nil_r. reflexivity.
  - rewrite principle_loop_spec.
    assert (str_in p (map pi_name acc) = false) as ->.
    { destruct (str_in p (map pi_name acc)) eqn:E; [|reflexivity].
      apply str_in_In in E. apply NoDup_remove_2 in Hnd. exfalso. apply Hnd.
      apply in_or_app. left. exact E. }
    destruct (referenced_by self funcs p).
    + rewrite IH.
      * simpl. rewrite <- app_assoc. reflexivity.
      * rewrite map_app. simpl. rewrite <- app_assoc. exact Hnd.
    + apply IH. simpl in Hnd. apply NoDup_remove_1 in Hnd. exact Hnd.
Qed.

Lemma filter_map_fst {V : Type} (t : string -> bool) (items : list (string * V)) :
  map fst (List.filter (fun kv => t (fst kv)) items) = List.filter t (map fst items).
Proof.
  induction items as [|[k v] items IH]; simpl; [reflexivity|].
  destruct (t k); simpl; rewrite IH; reflexivity.
Qed.

Lemma referenced_by_spec self funcs p :
  referenced_by self funcs p = true <->
  exists func_name fd,
    In func_name funcs
    /\ od_get (function_index self) func_name = Some fd
    /\ In p (Extractor.cross_references (func fd)).
Proof.
  unfold referenced_by. rewrite existsb_exists. split.
  - intros (fn & Hin & H).
    destruct (od_get (function_index self) fn) as [fd|] eqn:E; [|discriminate].
    exists fn, fd. repeat split; [exact Hin | exact E | apply str_in_In, H].
  - intros (fn & fd & Hin & E & Hp). exists fn. split; [exact Hin|].
    rewrite E. apply str_in_In, Hp.
Qed.

(** ** The order of the design document

    The design document lets the principles come in the order in which the
    records of the domain first refer to them.  [principles_first_seen]
    follows these words: the cross-references of the records held under
    the names of the domain, in the order of the records, those that name a
    principle of the index, each kept where it first occurs. *)

Definition references (self : FrameworkIndex) (funcs : list string)
  : list string :=
  flat_map
    (fun func_name =>
       match od_get (function_index self) func_name with
       | Some fd => Extractor.cross_references (func fd)
       | None => []
       end)
    funcs.

Fixpoint first_seen (seen : list string) (l : list string) : list string :=
  match l with
  | [] => []
  | x :: l' =>
      if str_in x seen then first_seen seen l'
      else x :: first_seen (seen ++ [x]) l'
  end.

Definition principles_first_seen (self : FrameworkIndex) (domain : string)
  : list string :=
  first_seen []
    (List.filter (fun p => str_in p (od_keys (principle_index self)))
       (references self (dd_get (domain_index self) domain))).

Lemma In_first_seen (seen l : list string) (x : string) :
  In x (first_seen seen l) <-> In x l /\ ~ In x seen.
Proof.
  revert seen. induction l as [|y l IH]; intros seen; simpl; [tauto|].
  destruct (str_in y seen) eqn:E.
  - apply str_in_In in E. rewrite IH. split.
    + intros [H1 H2]. tauto.
    + intros [[->|H1] H2]; [contradiction | tauto].
  - assert (~ In y seen) as Hy
      by (intros H; apply str_in_In in H; congruence).
    simpl. rewrite IH, in_app_iff. simpl. split.
    + intros [->|[H1 H2]]; [tauto|]. split; [tauto|]. intros H. apply H2. tauto.
    + intros [[->|H1] H2]; [tauto|].
      destruct (String.eqb y x) eqn:Eyx.
      * apply String.eqb_eq in Eyx. tauto.
      * apply String.eqb_neq in Eyx. right. split; [exact H1|].
        intros [H|[H|[]]]; [exact (H2 H) | exact (Eyx H)].
Qed.

Lemma In_references self funcs p :
  In p (references self funcs) <->
  exists func_name fd,
    In func_name funcs
    /\ od_get (function_index self) func_name = Some fd
    /\ In p (Extractor.cross_references (func fd)).
Proof.
  unfold references. rewrite in_flat_map. split.
  - intros (fn & Hfn & H).
    destruct (od_get (function_index self) fn) as [fd|] eqn:E; [|destruct H].
    exists fn, fd. repeat split; assumption.
  - intros (fn & fd & Hfn & E & H). exists fn. split; [exact Hfn|].
    rewrite E. exact H.
Qed.

Section Principles.
Context {rt : PyRuntime}.

Lemma principle_index_NoDup tree :
  List.NoDup (od_keys (principle_index (init tree))).
Proof.
  unfold init, _build_indices. cbn [frameworks].
  rewrite principle_index_build. cbn [principle_index].
  assert (List.NoDup (od_keys (@nil (string * Principle)))) as H by constructor.
  revert H. generalize (@nil (string * Principle)).
  induction (corpus (_load_frameworks tree)) as [|[[code fw] f] l IH];
    intros d Hd; simpl; [exact Hd|].
  apply IH. destruct (_ || _); [apply od_keys_set_NoDup|]; exact Hd.
Qed.

(** C7, with the order that the method keeps: for every built index and
    domain, the names returned by [find_principles_by_domain] are the names
    of [principle_index] that some record held under a name of the domain
    lists among its cross-references: in the order of [principle_index]
    (the order in which the build first met each principle), each once, and
    none that no record of the domain refers to.  They are the names that
    the order of first reference lists, which may come in another order. *)
Theorem principles_of_domain (tree : FileTree) (domain : string) :
  let self := init tree in
  let names := map pi_name (find_principles_by_domain self domain) in
  names = List.filter (referenced self domain) (od_keys (principle_index self))
  /\ List.NoDup names
  /\ (forall p,
       In p names <->
       In p (od_keys (principle_index self))
       /\ exists func_name fd,
            In func_name (dd_get (domain_index self) domain)
            /\ od_get (function_index self) func_name = Some fd
            /\ In p (Extractor.cross_references (func fd)))
  /\ forall p, In p names <-> In p (principles_first_seen self domain).
Proof.
  intros self names.
  assert (names =
          List.filter (referenced self domain) (od_keys (principle_index self)))
    as Hnames.
  { unfold names, find_principles_by_domain.
    rewrite principles_fold by (apply principle_index_NoDup).
    simpl. rewrite map_pi_name_info. apply filter_map_fst. }
  split; [exact Hnames|]. rewrite Hnames. split; [|split].
  - apply List.NoDup_filter, principle_index_NoDup.
  - intros p. rewrite filter_In. unfold referenced.
    rewrite referenced_by_spec. reflexivity.
  - intros p. unfold principles_first_seen.
    rewrite In_first_seen, !filter_In, In_references. unfold referenced.
    rewrite referenced_by_spec, <- str_in_In. simpl. tauto.
Qed.

End Principles.

End PrincipleFacts.

(* ===================================================================== *)
(** * Confidence ([InferenceAPI.confidence])                              *)
(* ===================================================================== *)

Module ConfidenceFacts.
Import Index Inference.

#[local] Open Scope Q_scope.

(** ** Rounding *)

Lemma round_half_even_comp (x y : Q) :
  x == y -> round_half_even x = round_half_even y.
Proof.
  intros H. unfold round_half_even.
  rewrite (Qfloor_comp x y H).
  assert (Qcompare (x - inject_Z (Qfloor y)) (1 # 2)
          = Qcompare (y - inject_Z (Qfloor y)) (1 # 2)) as ->
    by (rewrite H; reflexivity).
  reflexivity.
Qed.

Lemma round_half_even_bounds (x : Q) :
  (Qfloor x <= round_half_even x <= Qfloor x + 1)%Z.
Proof.
  unfold round_half_even.
  destruct (Qcompare _ _); [destruct (Z.even _)| |]; lia.
Qed.

Lemma round_half_even_mono (x y : Q) :
  x <= y -> (round_half_even x <= round_half_even y)%Z.
Proof.
  intros Hxy.
  pose proof (Qfloor_resp_le x y Hxy) as Hf.
  pose proof (round_half_even_bounds x) as Hx.
  pose proof (round_half_even_bounds y) as Hy.
  destruct (Z.eq_dec (Qfloor x) (Qfloor y)) as [E|E]; [|lia].
  clear Hx Hy Hf. unfold round_half_even. rewrite E.
  destruct (Qcompare_spec (x - inject_Z (Qfloor y)) (1 # 2)) as [Hx|Hx|Hx];
    destruct (Qcompare_spec (y - inject_Z (Qfloor y)) (1 # 2)) as [Hy|Hy|Hy];
    try (destruct (Z.even (Qfloor y))); try lia; exfalso; lra.
Qed.

Lemma round4_comp (x y : Q) : x == y -> round4 x = round4 y.
Proof.
  intros H. unfold round4. rewrite (round_half_even_comp (x * 10000) (y * 10000));
    [reflexivity | rewrite H; reflexivity].
Qed.

Lemma round4_mono (x y : Q) : x <= y -> round4 x <= round4 y.
Proof.
  intros H. unfold round4, Qle. simpl.
  apply Z.mul_le_mono_nonneg_r; [lia|].
  apply round_half_even_mono. lra.
Qed.

(** ** Powers of the default factor *)

Lemma pow_succ (q : Q) (n : nat) :
  ~ q == 0 -> q ^ Z.of_nat (S n) == q ^ Z.of_nat n * q.
Proof.
  intros Hq. rewrite Nat2Z.inj_succ, <- Z.add_1_r, Qpower_plus by exact Hq.
  reflexivity.
Qed.

Lemma pow_default_step (n : nat) :
  (95 # 100) ^ Z.of_nat (S n) <= (95 # 100) ^ Z.of_nat n.
Proof.
  rewrite pow_succ by discriminate.
  pose proof (Qpower_0_le (95 # 100) (Z.of_nat n)) as H.
  assert (0 <= 95 # 100) as H0 by discriminate. specialize (H H0).
  generalize dependent ((95 # 100) ^ Z.of_nat n). intros a Ha. nra.
Qed.

Lemma pow_default_mono (n m : nat) :
  (n <= m)%nat -> (95 # 100) ^ Z.of_nat m <= (95 # 100) ^ Z.of_nat n.
Proof.
  induction 1 as [|m Hle IH]; [apply Qle_refl|].
  eapply Qle_trans; [apply pow_default_step | exact IH].
Qed.

(** ** The two branches *)

(** The product of a list of factors. *)
Definition product (l : list Q) : Q := fold_right Qmult 1 l.

Lemma fold_factors (types : list string) (c : Q) :
  fold_left (fun c inf_type => c * factor inf_type) types c
  == c * product (map factor types).
Proof.
  revert c. induction types as [|t types IH]; intros c; simpl.
  - ring.
  - rewrite IH. ring.
Qed.

Lemma confidence_default (chain : list ChainNode) :
  chain <> [] ->
  confidence chain None = round4 ((95 # 100) ^ (Z.of_nat (length chain) - 1))
  /\ confidence chain (Some []) = confidence chain None.
Proof.
  destruct chain as [|a chain]; [congruence|]. intros _. split; [|reflexivity].
  unfold confidence. apply round4_comp. ring.
Qed.

Lemma confidence_types (chain : list ChainNode) (types : list string) :
  chain <> [] -> types <> [] ->
  confidence chain (Some types) = round4 (product (map factor types)).
Proof.
  destruct chain as [|a chain]; [congruence|].
  destruct types as [|t types]; [congruence|]. intros _ _.
  unfold confidence. apply round4_comp. rewrite fold_factors. ring.
Qed.

Lemma length_pred_of_nat (chain : list ChainNode) :
  chain <> [] ->
  (Z.of_nat (length chain) - 1)%Z = Z.of_nat (Nat.pred (length chain)).
Proof. destruct chain; [congruence|]. intros _. simpl length. lia. Qed.

(** ** Any set of factors *)










(** ** The supplied types, in binary64 *)

(** C9, in the arithmetic of the interpreter and for a list of types that
    is not empty: the confidence of a non-empty chain with supplied
    inference types is 1.0 multiplied by the factors of these types, one
    after the other in the order of the list, one factor for each type,
    0.95 for a type the table does not have, each product rounded to
    binary64 and the last one to four decimals; it is the same for every
    non-empty chain, whatever its length, and whatever the power of the C
    library is.  A supplied list that is empty is read as an omitted
    one. *)
Theorem confidence_of_types (pow : Binary64.float -> Z -> Binary64.float)
    (chain chain' : list ChainNode) (types : list string) :
  chain <> [] -> chain' <> [] -> types <> [] ->
  Binary64.confidence pow chain (Some types)
  = Binary64.round4
      (fold_left (fun c inf_type => Binary64.mul c (Binary64.factor inf_type))
         types Binary64.one)
  /\ Binary64.confidence pow chain' (Some types)
     = Binary64.confidence pow chain (Some types)
  /\ (forall t, Binary64.factors t = None ->
                Binary64.factor t = Binary64.decimal 95 100)
  /\ Binary64.confidence pow chain (Some []) = Binary64.confidence pow chain None.
Proof.
  intros Hc Hc' Ht.
  destruct chain as [|a chain]; [congruence|].
  destruct chain' as [|a' chain']; [congruence|].
  destruct types as [|t types]; [congruence|].
  repeat split.
  intros t' H. unfold Binary64.factor. rewrite H. reflexivity.
Qed.

End ConfidenceFacts.

(* ===================================================================== *)
(** * Failures of the extractor                                           *)
(* ===================================================================== *)

Module ExtractorFacts.
Import PyStr PyDict Index IndexFacts.

Section Extraction.
Context {rt : PyRuntime}.

(** A document that is read yields one record for each match of the
    definition pattern: the loop over the matches raises nothing. *)
Lemma extraction_of_readable (f : SourceFile) (content : string) :
  read_text (Extractor.file_bytes f) = inr content ->
  Extractor.reports_error f = false
  /\ Extractor._extract_functions_from_file f =
     map (Extractor.extract_one (Extractor.file_name f))
       (Extractor.finditer_define O content).
Proof.
  intros H.
  unfold Extractor.reports_error, Extractor._extract_functions_from_file,
    Extractor.extract_try.
  rewrite H. split; reflexivity.
Qed.

Lemma failing_document_is_empty (f : SourceFile) :
  Extractor.reports_error f = true ->
  Extractor._extract_functions_from_file f = [].
Proof.
  unfold Extractor.reports_error, Extractor._extract_functions_from_file.
  destruct (Extractor.extract_try f); [reflexivity | discriminate].
Qed.

(** C5, at the granularity of the code: the [try] block encloses the
    whole document.  When the processing of a document fails, the failure
    is reported, the document yields no record at all, and the build goes
    on with the other documents of the framework as if the failing one were
    not there. *)
Theorem extraction_fails_per_document (f : SourceFile) (code : string)
    (fw : Framework) (before after : list SourceFile)
    (acc : FrameworkIndex * list Func) :
  Extractor.reports_error f = true ->
  Extractor._extract_functions_from_file f = []
  /\ fold_left (index_file code fw) (before ++ f :: after) acc
     = fold_left (index_file code fw) (before ++ after) acc.
Proof.
  intros Hfail. pose proof (failing_document_is_empty f Hfail) as Hnil.
  split; [exact Hnil|].
  rewrite !fold_left_app. cbn [fold_left]. f_equal.
  generalize (fold_left (index_file code fw) before acc). intros [s fns].
  unfold index_file. rewrite Hnil. simpl. rewrite app_nil_r. reflexivity.
Qed.

End Extraction.

End ExtractorFacts.

(* ===================================================================== *)
(** * Paths of the hypergraph                                             *)
(* ===================================================================== *)

Module HypergraphFacts.
Import Hypergraph.

Lemma pyval_eqb_eq (a b : PyVal) : pyval_eqb a b = true <-> a = b.
Proof.
  destruct a as [x|x], b as [y|y]; simpl.
  - rewrite Z.eqb_eq. split; congruence.
  - split; discriminate.
  - split; discriminate.
  - rewrite String.eqb_eq. split; congruence.
Qed.

Lemma mem_In (v : PyVal) (l : list PyVal) : mem v l = true <-> In v l.
Proof.
  unfold mem. rewrite existsb_exists. split.
  - intros (x & Hin & E). apply pyval_eqb_eq in E. subst. exact Hin.
  - intros Hin. exists v. split; [exact Hin | apply pyval_eqb_eq; reflexivity].
Qed.

Lemma mem_false (v : PyVal) (l : list PyVal) : mem v l = false <-> ~ In v l.
Proof.
  rewrite <- mem_In. destruct (mem v l); split; congruence.
Qed.

(** Consecutive nodes of [p] are joined by an edge of the graph. *)
Fixpoint walk (g : DiGraph) (p : list PyVal) : Prop :=
  match p with
  | [] => True
  | u :: r =>
      match r with
      | [] => True
      | v :: _ => In (u, v) (edges g) /\ walk g r
      end
  end.

(** A path of the graph from [s] without repeated node. *)
Definition simple_path_from (g : DiGraph) (s : PyVal) (p : list PyVal) : Prop :=
  (exists rest, p = s :: rest) /\ List.NoDup p /\ walk g p.

Lemma successors_edge g u w : In w (successors g u) -> In (u, w) (edges g).
Proof.
  unfold successors. rewrite in_map_iff. intros ([u' w'] & <- & H).
  apply filter_In in H as [Hin E]. simpl in E. apply pyval_eqb_eq in E.
  subst u'. exact Hin.
Qed.

Lemma walk_snoc g l u w :
  walk g (l ++ [u]) -> In (u, w) (edges g) -> walk g ((l ++ [u]) ++ [w]).
Proof.
  intros Hw He. induction l as [|a l IH]; simpl in *.
  - split; [exact He | exact I].
  - destruct (l ++ [u]) as [|b r] eqn:E.
    + destruct l; discriminate E.
    + simpl. destruct Hw as [Hab Hw]. split; [exact Hab | apply IH, Hw].
Qed.

Lemma NoDup_snoc (l : list PyVal) (w : PyVal) :
  List.NoDup l -> ~ In w l -> List.NoDup (l ++ [w]).
Proof.
  intros Hl Hw. apply List.NoDup_app.
  - exact Hl.
  - constructor; [intros [] | constructor].
  - intros x Hx [<-|[]]. exact (Hw Hx).
Qed.

Lemma last_default (l : list PyVal) (a b : PyVal) :
  l <> [] -> List.last l a = List.last l b.
Proof.
  induction l as [|x l IH]; intros Hne; [congruence|].
  destruct l as [|y l]; [reflexivity|].
  change (List.last (y :: l) a = List.last (y :: l) b). apply IH. discriminate.
Qed.

(** Every path that the search yields extends the path it was entered
    with by at most [fuel] nodes, repeats no node, follows the edges and
    ends on a target. *)
Lemma visit_sound g targets fuel :
  forall path next q,
    In q (visit g targets fuel path next) ->
    exists ext,
      q = (path ++ [next]) ++ ext
      /\ (length ext <= fuel)%nat
      /\ (List.NoDup (path ++ [next]) -> List.NoDup q)
      /\ (walk g (path ++ [next]) -> walk g q)
      /\ In (List.last q next) targets.
Proof.
  induction fuel as [|fuel IH]; intros path next q Hq;
    cbn [visit] in Hq; apply in_app_or in Hq as [Hq|Hq].
  - destruct (mem next targets) eqn:E; [|destruct Hq].
    destruct Hq as [<-|[]]. exists []. rewrite app_nil_r.
    repeat split; auto. rewrite List.last_last. apply mem_In, E.
  - destruct Hq.
  - destruct (mem next targets) eqn:E; [|destruct Hq].
    destruct Hq as [<-|[]]. exists []. rewrite app_nil_r.
    repeat split; auto; [simpl; lia|]. rewrite List.last_last. apply mem_In, E.
  - destruct (existsb _ targets); [|destruct Hq].
    apply in_flat_map in Hq as (w & Hw & Hq).
    destruct (mem w (path ++ [next])) eqn:Ew; [destruct Hq|].
    apply mem_false in Ew.
    destruct (IH _ _ _ Hq) as (ext & -> & Hlen & Hnd & Hwalk & Hlast).
    exists (w :: ext). repeat split.
    + rewrite <- app_assoc. reflexivity.
    + simpl. lia.
    + intros H. apply Hnd, NoDup_snoc; assumption.
    + intros H. apply Hwalk, walk_snoc; [exact H | apply successors_edge, Hw].
    + rewrite (last_default _ next w); [exact Hlast|].
      intros H. apply app_eq_nil in H as [H _]. apply app_eq_nil in H as [_ H].
      discriminate H.
Qed.

Lemma all_simple_paths_sound g s e cutoff paths p :
  all_simple_paths g s e cutoff = inr paths -> In p paths ->
  simple_path_from g s p
  /\ Z.of_nat (length p) - 1 <= cutoff
  /\ (has_node g e = true -> List.last p s = e).
Proof.
  unfold all_simple_paths, targets_of.
  destruct (has_node g s); [|discriminate].
  destruct (has_node g e) eqn:He.
  - destruct ((0 <=? cutoff) && true) eqn:Hc; intros [= <-] Hin; [|destruct Hin].
    apply andb_true_iff in Hc as [Hc _]. apply Z.leb_le in Hc.
    destruct (visit_sound _ _ _ _ _ _ Hin) as (ext & -> & Hlen & Hnd & Hwalk & Hlast).
    repeat split.
    + exists ext. reflexivity.
    + apply Hnd. constructor; [intros [] | constructor].
    + apply Hwalk. exact I.
    + simpl length. lia.
    + intros _. destruct Hlast as [<-|[]]. reflexivity.
  - destruct e as [n|str]; [discriminate|].
    destruct ((0 <=? cutoff) && _) eqn:Hc; intros [= <-] Hin; [|destruct Hin].
    apply andb_true_iff in Hc as [Hc _]. apply Z.leb_le in Hc.
    destruct (visit_sound _ _ _ _ _ _ Hin) as (ext & -> & Hlen & Hnd & Hwalk & Hlast).
    repeat split.
    + exists ext. reflexivity.
    + apply Hnd. constructor; [intros [] | constructor].
    + apply Hwalk. exact I.
    + simpl length. lia.
    + discriminate.
Qed.

(** The graph with the cycle [A -> B -> C -> A] and the edge [A -> D]. *)
Definition cycle_graph : DiGraph :=
  {| node_names := [(VInt 1, VStr "A"); (VInt 2, VStr "B");
                    (VInt 3, VStr "C"); (VInt 4, VStr "D")];
     isolated := [];
     edges := [(VInt 1, VInt 2); (VInt 2, VInt 3); (VInt 3, VInt 1);
               (VInt 1, VInt 4)] |}.

Definition cycle_api : EnhancedHypergraphAPI :=
  {| graph := Some cycle_graph;
     node_index :=
       Some (<["A" := VInt 1]> (<["B" := VInt 2]> (<["C" := VInt 3]>
              (<["D" := VInt 4]> ∅)))) |}.

(** C8: [find_all_paths] is a total function of the graph, cyclic or not;
    when it returns a list, each element is the list of the names of a path
    of the graph that starts at the node of [start], repeats no node, has at
    most [max_length] edges and ends at the node of [end]; otherwise it
    raises for a missing index or a missing node.  On the graph with the
    edges [A -> B], [B -> C], [C -> A] and [A -> D] the paths from [A] to [D]
    of at most three edges are the one path [A, D]. *)
Theorem all_paths_are_simple (self : EnhancedHypergraphAPI)
    (start end_ : string) (max_length : Z) :
  match find_all_paths self start end_ max_length with
  | inr paths =>
      forall names, In names paths ->
        exists g idx s e p,
          graph self = Some g /\ node_index self = Some idx
          /\ idx !! start = Some s /\ idx !! end_ = Some e
          /\ names = map (name_of g) p
          /\ simple_path_from g s p
          /\ Z.of_nat (length p) - 1 <= max_length
          /\ (has_node g e = true -> List.last p s = e)
  | inl err => err = AttributeError \/ err = NodeNotFound
  end
  /\ find_all_paths cycle_api "A" "D" 3 = inr [[VStr "A"; VStr "D"]].
Proof.
  split; [|vm_compute; reflexivity].
  unfold find_all_paths.
  destruct (graph self) as [g|] eqn:Hg; [|intros names []].
  destruct (node_index self) as [idx|] eqn:Hidx; [|left; reflexivity].
  destruct (negb (is_truthy (idx !! start)) || negb (is_truthy (idx !! end_)));
    [intros names []|].
  destruct (idx !! start) as [s|] eqn:Hs; [|intros names []].
  destruct (idx !! end_) as [e|] eqn:He; [|intros names []].
  destruct (all_simple_paths g s e max_length) as [err|paths] eqn:E.
  - destruct err; [right; reflexivity | intros names [] | left; reflexivity].
  - intros names Hin. apply in_map_iff in Hin as (p & <- & Hin).
    destruct (all_simple_paths_sound _ _ _ _ _ _ E Hin) as (Hsimple & Hlen & Hlast).
    exists g, idx, s, e, p.
    split; [reflexivity|]. split; [reflexivity|]. split; [exact Hs|].
    split; [exact He|]. split; [reflexivity|]. split; [exact Hsimple|].
    split; [exact Hlen | exact Hlast].
Qed.

(** A graph whose node [A] has the identifier 0. *)
Definition zero_graph : DiGraph :=
  {| node_names := [(VInt 0, VStr "A"); (VInt 1, VStr "B")];
     isolated := [];
     edges := [(VInt 0, VInt 1)] |}.

Definition zero_api : EnhancedHypergraphAPI :=
  {| graph := Some zero_graph;
     node_index := Some (<["A" := VInt 0]> (<["B" := VInt 1]> ∅)) |}.

(** C10: a name whose lookup in [node_index] is false as a truth value,
    because it is missing or because its identifier is [0] or the empty
    string, is treated as absent by [find_path], which returns [None], and
    by [find_all_paths], which returns the empty list, whatever the graph
    holds. *)
Theorem falsy_identifier_is_absent
    (shortest_path : DiGraph -> PyVal -> PyVal -> NxError + list PyVal)
    (self : EnhancedHypergraphAPI) (idx : gmap string PyVal)
    (start end_ : string) (max_length : Z) :
  node_index self = Some idx ->
  is_truthy (idx !! start) = false \/ is_truthy (idx !! end_) = false ->
  find_path shortest_path self start end_ = inr None
  /\ find_all_paths self start end_ max_length = inr []
  /\ is_truthy (Some (VInt 0)) = false
  /\ is_truthy (Some (VStr "")) = false.
Proof.
  intros Hidx Hfalsy. unfold find_path, find_all_paths. rewrite Hidx.
  assert (negb (is_truthy (idx !! start)) || negb (is_truthy (idx !! end_)) = true)
    as -> by (destruct Hfalsy as [-> | ->]; [reflexivity | apply orb_true_r]).
  destruct (graph self); repeat split.
Qed.

End HypergraphFacts.

(* ===================================================================== *)
(** * Statistics and the sub-APIs ([get_framework_stats], [chainlex_api.py]) *)
(* ===================================================================== *)

Module Api.
Import PyStr PyDict Index.

(** ** [FrameworkIndex.get_framework_stats] *)

(** A value of [stats['frameworks']]. *)
Record FrameworkStat : Type := mkFrameworkStat {
  fs_name : string;
  fs_level : Z;
  fs_function_count : Z;
  fs_domains : list string
}.

(** A value of [stats['domains']]. *)
Record DomainStat : Type := mkDomainStat {
  ds_function_count : Z;
  ds_principles : Z
}.

Record Stats : Type := mkStats {
  total_frameworks : Z;
  total_functions : Z;
  total_principles : Z;
  stats_frameworks : odict FrameworkStat;
  stats_domains : gmap string DomainStat
}.

(** The loop over [self.frameworks.items()]; [framework['function_count']]
    raises [KeyError] for a framework that the build has not reached. *)
Fixpoint framework_stats (items : list (string * Framework))
    (acc : odict FrameworkStat) : PyError + odict FrameworkStat :=
  match items with
  | [] => inr acc
  | (code, fw) :: items' =>
      match fw_function_count fw with
      | None => inl (KeyError "function_count")
      | Some n =>
          framework_stats items'
            (od_set acc code
               {| fs_name := fw_name fw; fs_level := fw_level fw;
                  fs_function_count := n; fs_domains := fw_domains fw |})
      end
  end.

(** [get_framework_stats()] *)
Definition get_framework_stats (self : FrameworkIndex) : PyError + Stats :=
  match framework_stats (frameworks self) [] with
  | inl e => inl e
  | inr fws =>
      inr {| total_frameworks := Z.of_nat (length (frameworks self));
             total_functions := Z.of_nat (length (function_index self));
             total_principles := Z.of_nat (length (principle_index self));
             stats_frameworks := fws;
             stats_domains :=
               map_imap
                 (fun domain funcs =>
                    Some {| ds_function_count := Z.of_nat (length funcs);
                            ds_principles :=
                              Z.of_nat (length (find_principles_by_domain self domain)) |})
                 (domain_index self) |}
  end.

(** ** [PrinciplesAPI] *)

(** [PrinciplesAPI.get(name)] *)
Definition principles_get (index : FrameworkIndex) (name : string)
  : option Principle :=
  od_get (principle_index index) name.

(** [PrinciplesAPI.by_domain(domain)] *)
Definition principles_by_domain (index : FrameworkIndex) (domain : string)
  : list PrincipleInfo :=
  find_principles_by_domain index domain.

Section Search.
Context {rt : PyRuntime}.

(** [PrinciplesAPI.search(query)]: the dictionaries [{'name': name, **data}],
    whose key [name] is overridden by that of [data]. *)
Definition principles_search (index : FrameworkIndex) (query : string)
  : list Principle :=
  let query_lower := str_lower query in
  fold_left
    (fun results '(name, data) =>
       if contains query_lower (str_lower name) then results ++ [data]
       else if contains query_lower (str_lower (Extractor.docstring (p_func data)))
       then results ++ [data]
       else results)
    (principle_index index) [].

(** [RulesAPI.search(query, domain)] *)
Definition rules_search (index : FrameworkIndex) (query : string)
    (domain : option string) : PyError + list SearchResult :=
  search_functions index query domain.

End Search.

(** ** [RulesAPI] *)

(** [RulesAPI.by_framework(framework_code)] *)
Definition rules_by_framework (index : FrameworkIndex) (framework_code : string)
  : list Func :=
  match od_get (frameworks index) framework_code with
  | None => []
  | Some fw =>
      List.filter (fun f => negb (Extractor.is_principle f)) (fw_functions fw)
  end.

(** [RulesAPI.by_domain(domain)] *)
Definition rules_by_domain (index : FrameworkIndex) (domain : string)
  : PyError + list IndexedFunc :=
  lookup_all (function_index index) (dd_get (domain_index index) domain).

(** [RulesAPI.derived_from(principle_name)] *)
Definition rules_derived_from (index : FrameworkIndex) (principle_name : string)
  : PyError + list IndexedFunc :=
  find_derived_rules index principle_name.

(** ** [InferenceAPI.explain] *)

(** [str(n)] of an [int]. *)
Definition str_of_int (n : Z) : string :=
  DecimalString.NilZero.string_of_int (Z.to_int n).

(** ["\n".join(lines)] *)
Fixpoint join (sep : string) (lines : list string) : string :=
  match lines with
  | [] => EmptyString
  | [l] => l
  | l :: ls => l +:+ sep +:+ join sep ls
  end.

Definition newline : string := String LF EmptyString.

Definition arrow_line : string := "   ↓ (inference)".

(** [f"Level {level}: {name} ({node_type})"] *)
Definition node_line (n : ChainNode) : string :=
  "Level " +:+ str_of_int (level n) +:+ ": " +:+ node n
  +:+ " (" +:+ node_type n +:+ ")".

(** The loop [for i, node in enumerate(chain)], [len_chain] being
    [len(chain)]. *)
Fixpoint explain_loop (len_chain : Z) (i : Z) (chain : list ChainNode)
    (explanation : list string) : list string :=
  match chain with
  | [] => explanation
  | n :: rest =>
      let explanation := explanation ++ [node_line n] in
      let explanation :=
        if i <? len_chain - 1 then explanation ++ [arrow_line] else explanation in
      explain_loop len_chain (i + 1) rest explanation
  end.

(** [InferenceAPI.explain(chain)] *)
Definition explain (chain : list ChainNode) : string :=
  match chain with
  | [] => "No inference chain found"
  | _ :: _ => join newline (explain_loop (Z.of_nat (length chain)) 0 chain [])
  end.

End Api.

(* ===================================================================== *)
(** * Confidence of a path and the unified API ([enhanced_hypergraph.py]) *)
(* ===================================================================== *)

Module Unified.
Import Index Inference Hypergraph.

#[local] Open Scope Q_scope.

(** [G.has_edge(u, v)] *)
Definition has_edge (g : DiGraph) (u v : PyVal) : bool :=
  existsb (fun e => pyval_eqb (fst e) u && pyval_eqb (snd e) v) (edges g).

(** [self.node_index.get(name)] for a name of a path: an [int] is no key
    of the index. *)
Definition index_get (idx : gmap string PyVal) (name : PyVal) : option PyVal :=
  match name with
  | VStr s => idx !! s
  | VInt _ => None
  end.

Section PathConfidence.

(** The attribute [inference_type] of the edges:
    [self.graph[u][v].get('inference_type')]. *)
Variable inference_type : PyVal -> PyVal -> option string.

(** The body of [for i in range(len(path) - 1)], over the consecutive
    names of the path; an edge that the graph does not have multiplies
    nothing. *)
Fixpoint path_factors (g : DiGraph) (idx : gmap string PyVal)
    (path : list PyVal) (confidence : Q) : Q :=
  match path with
  | [] => confidence
  | a :: rest =>
      match rest with
      | [] => confidence
      | b :: _ =>
          let node_id := index_get idx a in
          let next_id := index_get idx b in
          let confidence :=
            match node_id, next_id with
            | Some u, Some v =>
                if is_truthy node_id && is_truthy next_id && has_edge g u v then
                  confidence
                  * factor (default "deductive" (inference_type u v))
                else confidence
            | _, _ => confidence
            end in
          path_factors g idx rest confidence
      end
  end.

(** [compute_path_confidence(path)] *)
Definition compute_path_confidence (self : EnhancedHypergraphAPI)
    (path : list PyVal) : NxError + Q :=
  match graph self with
  | None => inr 0
  | Some g =>
      if (length path <? 2)%nat then inr 0
      else
        match node_index self with
        | None => inl AttributeError
        | Some idx => inr (round4 (path_factors g idx path 1))
        end
  end.

End PathConfidence.

(** The dictionary that [find_inference_path] returns. *)
Record PathResult : Type := mkPathResult {
  path : list PyVal;
  path_confidence : Q;
  explanation : string;
  method : string
}.

(** [str(node)] of a name of a path. *)
Definition str_of_name (v : PyVal) : string :=
  match v with
  | VStr s => s
  | VInt n => Api.str_of_int n
  end.

(** The explanation of the hypergraph branch: [f"Level {i+1}: {node}"]
    for each name, with the arrow between two names. *)
Fixpoint path_lines (len_path : Z) (i : Z) (names : list PyVal)
    (explanation : list string) : list string :=
  match names with
  | [] => explanation
  | n :: rest =>
      let explanation :=
        explanation ++ ["Level " +:+ Api.str_of_int (i + 1) +:+ ": " +:+ str_of_name n] in
      let explanation :=
        if (i <? len_path - 1)%Z then explanation ++ [Api.arrow_line]
        else explanation in
      path_lines len_path (i + 1) rest explanation
  end.

Section FindInferencePath.

Variable shortest_path : DiGraph -> PyVal -> PyVal -> NxError + list PyVal.
Variable inference_type : PyVal -> PyVal -> option string.

(** [UnifiedChainLexAPI.find_inference_path(start, end)];
    [enhanced_graph] is [None] when the hypergraph was not asked for. *)
Definition find_inference_path (index : FrameworkIndex)
    (enhanced_graph : option EnhancedHypergraphAPI) (start end_ : string)
  : NxError + option PathResult :=
  let simple :=
    match Inference.chain index start end_ with
    | Some ((_ :: _) as chain) =>
        inr (Some {| path := map (fun n => VStr (node n)) chain;
                     path_confidence := confidence chain None;
                     explanation := Api.explain chain;
                     method := "simple" |})
    | _ => inr None
    end in
  match enhanced_graph with
  | None => simple
  | Some eg =>
      if negb (is_available eg) then simple
      else
        match find_path shortest_path eg start end_ with
        | inl e => inl e
        | inr (Some ((_ :: _) as names)) =>
            match compute_path_confidence inference_type eg names with
            | inl e => inl e
            | inr c =>
                inr (Some {| path := names;
                             path_confidence := c;
                             explanation :=
                               Api.join Api.newline
                                 (path_lines (Z.of_nat (length names)) 0 names []);
                             method := "hypergraph" |})
            end
        | inr _ => inr None
        end
  end.

End FindInferencePath.

End Unified.

(* ===================================================================== *)
(** * The validator ([framework_validator.py], class [FrameworkValidator]) *)
(* ===================================================================== *)

Module Validator.
Import PyStr PyDict Index Api.

(** An element of [self.errors], [self.warnings] or [self.info]; the
    elements of [self.info] have no key [severity]. *)
Record Message : Type := mkMessage {
  check : string;
  severity : option string;
  message : string
}.

Record FrameworkValidator : Type := mkValidator {
  index : FrameworkIndex;
  errors : list Message;
  warnings : list Message;
  info : list Message
}.

Definition expected_frameworks : list string :=
  ["lv1"; "civ"; "cri"; "con"; "adm"; "lab"; "env"; "cst"; "int"].

Definition missing_framework (code : string) : Message :=
  {| check := "structure"; severity := Some "error";
     message := "Missing framework: " +:+ code |}.

Definition no_files (code : string) : Message :=
  {| check := "structure"; severity := Some "warning";
     message := "No .scm files found in framework: " +:+ code |}.

Definition framework_report (code : string) (files functions : Z) : Message :=
  {| check := "structure"; severity := None;
     message := "Framework " +:+ code +:+ ": " +:+ str_of_int files +:+ " files, "
                +:+ str_of_int functions +:+ " functions" |}.

(** The loop [for code in expected_frameworks];
    [framework["function_count"]] raises [KeyError] for a framework that
    the build has not reached. *)
Fixpoint structure_loop (codes : list string) (self : FrameworkValidator)
  : PyError + FrameworkValidator :=
  match codes with
  | [] => inr self
  | code :: codes' =>
      match od_get (frameworks (index self)) code with
      | None =>
          structure_loop codes'
            {| index := index self;
               errors := errors self ++ [missing_framework code];
               warnings := warnings self;
               info := info self |}
      | Some framework =>
          match fw_files framework with
          | [] =>
              structure_loop codes'
                {| index := index self;
                   errors := errors self;
                   warnings := warnings self ++ [no_files code];
                   info := info self |}
          | _ :: _ =>
              match fw_function_count framework with
              | None => inl (KeyError "function_count")
              | Some n =>
                  structure_loop codes'
                    {| index := index self;
                       errors := errors self;
                       warnings := warnings self;
                       info := info self
                               ++ [framework_report code
                                     (Z.of_nat (length (fw_files framework))) n] |}
              end
          end
      end
  end.

(** [check_framework_structure()] *)
Definition check_framework_structure (self : FrameworkValidator)
  : PyError + FrameworkValidator :=
  structure_loop expected_frameworks self.

Definition no_domains : Message :=
  {| check := "domains"; severity := Some "error"; message := "No domains found" |}.

Definition empty_domain (domain : string) : Message :=
  {| check := "domains"; severity := Some "warning";
     message := "Domain " +:+ domain +:+ " has no functions" |}.

Definition coverage_report (domains total_functions : Z) : Message :=
  {| check := "domains"; severity := None;
     message := str_of_int domains +:+ " domains covering "
                +:+ str_of_int total_functions +:+ " function references" |}.

(** [check_domain_coverage()]; [items] is what
    [self.index.domain_index.items()] yields, the entries of the table in
    the order in which the dictionary keeps them. *)
Definition check_domain_coverage (self : FrameworkValidator)
    (items : list (string * list string)) : FrameworkValidator :=
  let domain_stats :=
    map (fun '(domain, func_names) => (domain, Z.of_nat (length func_names)))
      items in
  match domain_stats with
  | [] =>
      {| index := index self;
         errors := errors self ++ [no_domains];
         warnings := warnings self;
         info := info self |}
  | _ :: _ =>
      let warnings' :=
        fold_left
          (fun ws '(domain, count) =>
             if count =? 0 then ws ++ [empty_domain domain] else ws)
          domain_stats (warnings self) in
      let total_functions := fold_left Z.add (map snd domain_stats) 0 in
      {| index := index self;
         errors := errors self;
         warnings := warnings';
         info := info self
                 ++ [coverage_report (Z.of_nat (length domain_stats)) total_functions] |}
  end.

End Validator.

(* ===================================================================== *)
(** * Related nodes ([EnhancedHypergraphAPI.find_related_nodes])           *)
(* ===================================================================== *)

Module Related.
Import PySort Hypergraph.

(** An element of the result of [find_related_nodes]. *)
Record RelatedNode : Type := mkRelated {
  rel_name : PyVal;
  rel_type : string;
  distance : Z;
  rel_confidence : Q
}.

Section FindRelatedNodes.

(** [lengths_within g source cutoff] is what
    [nx.single_source_shortest_path_length(g.to_undirected(), source,
    cutoff=cutoff).items()] yields, or the exception it raises. *)
Variable lengths_within : DiGraph -> PyVal -> Z -> NxError + list (PyVal * Z).

(** The attributes [node_type] and [confidence] of the nodes:
    [self.graph.nodes[v].get(...)] without its default. *)
Variable node_type : PyVal -> option string.
Variable node_confidence : PyVal -> option Q.

(** The loop over [lengths.items()]; [self.graph.nodes[target_id]] raises
    [KeyError] for a value that is no node, and the list gathered so far is
    then what the method is left with: [inl]. *)
Fixpoint related_loop (g : DiGraph) (lengths : list (PyVal * Z))
    (related : list RelatedNode) : list RelatedNode + list RelatedNode :=
  match lengths with
  | [] => inr related
  | (target_id, d) :: lengths' =>
      if 0 <? d then
        if has_node g target_id then
          related_loop g lengths'
            (related
             ++ [{| rel_name := name_of g target_id;
                    rel_type := default "unknown" (node_type target_id);
                    distance := d;
                    rel_confidence := default (95 # 100) (node_confidence target_id) |}])
        else inl related
      else related_loop g lengths' related
  end.

(** [find_related_nodes(node_name, max_distance)]: an exception inside the
    [try] is printed and the list is returned as it is, unsorted. *)
Definition find_related_nodes (self : EnhancedHypergraphAPI) (node_name : string)
    (max_distance : Z) : NxError + list RelatedNode :=
  match graph self with
  | None => inr []
  | Some g =>
      match node_index self with
      | None => inl AttributeError
      | Some idx =>
          let node_id := idx !! node_name in
          if negb (is_truthy node_id) then inr []
          else
            match node_id with
            | None => inr []
            | Some v =>
                match lengths_within g v max_distance with
                | inl _ => inr []
                | inr lengths =>
                    match related_loop g lengths [] with
                    | inl related => inr related
                    | inr related => inr (sort_by distance related)
                    end
                end
            end
      end
  end.

End FindRelatedNodes.

(** An instance of the library function: the breadth-first distances in
    the undirected view of the graph, level by level, up to the cutoff. *)
Definition neighbours (g : DiGraph) (u : PyVal) : list PyVal :=
  successors g u
  ++ map fst (List.filter (fun e => pyval_eqb (snd e) u) (edges g)).

Fixpoint fresh (seen : list PyVal) (l : list PyVal) : list PyVal :=
  match l with
  | [] => []
  | v :: l' => if mem v seen then fresh seen l' else v :: fresh (seen ++ [v]) l'
  end.

Fixpoint levels (g : DiGraph) (fuel : nat) (d : Z) (frontier seen : list PyVal)
  : list (PyVal * Z) :=
  map (fun v => (v, d)) frontier
  ++ match fuel with
     | O => []
     | S fuel' =>
         let next := fresh seen (flat_map (neighbours g) frontier) in
         match next with
         | [] => []
         | _ :: _ => levels g fuel' (d + 1) next (seen ++ next)
         end
     end.

Definition undirected_lengths (g : DiGraph) (source : PyVal) (cutoff : Z)
  : NxError + list (PyVal * Z) :=
  if has_node g source then inr (levels g (Z.to_nat cutoff) 0 [source] [source])
  else inl NodeNotFound.

End Related.

(* ===================================================================== *)
(** * The frameworks and the indices after the build                      *)
(* ===================================================================== *)

Module BuildFacts.
Import ListFacts PyStr PyDict PyDictFacts Index IndexFacts ChainFacts.
Import DerivedFacts SearchFacts Api.

(** The dictionary that [_load_frameworks] creates for a definition whose
    path exists. *)
Definition loaded (info : FrameworkDef) (files : list SourceFile) : Framework :=
  {| fw_code := def_code info;
     fw_name := def_name info;
     fw_level := def_level info;
     fw_path := def_path info;
     fw_domains := default [] (def_domains info);
     fw_files := files;
     fw_functions := [];
     fw_function_count := None |}.

(** The frameworks whose path exists, in the order of [framework_defs]. *)
Definition loaded_frameworks (tree : FileTree) (defs : list FrameworkDef)
  : odict Framework :=
  flat_map
    (fun info =>
       match tree (def_path info) with
       | Some files => [(def_code info, loaded info files)]
       | None => []
       end)
    defs.

Lemma od_keys_app {V : Type} (d1 d2 : odict V) :
  od_keys (d1 ++ d2) = od_keys d1 ++ od_keys d2.
Proof. unfold od_keys. apply map_app. Qed.

Lemma od_set_app_fresh {V : Type} (d1 d2 : odict V) k v v' :
  ~ In k (od_keys d1) ->
  od_set (d1 ++ (k, v) :: d2) k v' = d1 ++ (k, v') :: d2.
Proof.
  induction d1 as [|[k0 v0] d1 IH]; simpl; intros H.
  - rewrite String.eqb_refl. reflexivity.
  - destruct (String.eqb k0 k) eqn:E.
    + apply String.eqb_eq in E. tauto.
    + rewrite IH; [reflexivity | tauto].
Qed.

Lemma load_fold (tree : FileTree) (defs : list FrameworkDef) (acc : odict Framework) :
  List.NoDup (od_keys acc ++ map def_code defs) ->
  fold_left
    (fun fws info =>
       match tree (def_path info) with
       | Some files => od_set fws (def_code info) (loaded info files)
       | None => fws
       end)
    defs acc
  = acc ++ loaded_frameworks tree defs.
Proof.
  revert acc. induction defs as [|info defs IH]; intros acc Hnd; simpl.
  - rewrite app_nil_r. reflexivity.
  - destruct (tree (def_path info)) as [files|].
    + rewrite od_set_fresh.
      * rewrite IH; [rewrite <- app_assoc; reflexivity|].
        rewrite od_keys_app, <- app_assoc. exact Hnd.
      * apply NoDup_remove_2 in Hnd. intros Hin. apply Hnd.
        apply in_or_app. left. exact Hin.
    + apply IH. apply NoDup_remove_1 in Hnd. exact Hnd.
Qed.

Lemma codes_NoDup : List.NoDup (map def_code framework_defs).
Proof.
  simpl. repeat constructor; simpl; intros H;
    repeat (destruct H as [H|H]; [discriminate H|]); exact H.
Qed.

Lemma load_frameworks_eq (tree : FileTree) :
  _load_frameworks tree = loaded_frameworks tree framework_defs.
Proof.
  unfold _load_frameworks.
  exact (load_fold tree framework_defs [] codes_NoDup).
Qed.

Lemma In_loaded_keys tree defs k :
  In k (od_keys (loaded_frameworks tree defs)) -> In k (map def_code defs).
Proof.
  induction defs as [|info defs IH]; simpl; [tauto|].
  destruct (tree (def_path info)); simpl; [intros [H|H]|]; auto.
Qed.

Lemma loaded_keys_NoDup tree defs :
  List.NoDup (map def_code defs) ->
  List.NoDup (od_keys (loaded_frameworks tree defs)).
Proof.
  induction defs as [|info defs IH]; simpl; intros Hnd; [constructor|].
  inversion Hnd as [|? ? Hnotin Hnd']; subst.
  destruct (tree (def_path info)); simpl; [|apply IH, Hnd'].
  constructor; [|apply IH, Hnd'].
  intros Hin. apply Hnotin, (In_loaded_keys tree), Hin.
Qed.

(** Assigning to every key of a dictionary in its own order leaves the
    order and replaces every value. *)
Lemma fold_od_set_self {V : Type} (g : string * V -> V) (l pre : odict V) :
  List.NoDup (od_keys pre ++ od_keys l) ->
  fold_left (fun d kv => od_set d (fst kv) (g kv)) l
    (map (fun kv => (fst kv, g kv)) pre ++ l)
  = map (fun kv => (fst kv, g kv)) pre ++ map (fun kv => (fst kv, g kv)) l.
Proof.
  revert pre. induction l as [|[k v] l IH]; intros pre Hnd; [reflexivity|].
  cbn [fold_left fst]. rewrite od_set_app_fresh.
  - specialize (IH (pre ++ [(k, v)])).
    rewrite map_app, <- app_assoc in IH. cbn [map app fst] in IH.
    rewrite IH; [rewrite <- app_assoc; reflexivity|].
    rewrite od_keys_app, <- app_assoc. exact Hnd.
  - apply NoDup_remove_2 in Hnd. intros Hin. apply Hnd.
    apply in_or_app. left. unfold od_keys in *. rewrite map_map in Hin.
    exact Hin.
Qed.

Section Build.
Context {rt : PyRuntime}.

(** The dictionary of a framework once the build has passed it: its
    [functions] are the records of its files and [function_count] is their
    number. *)
Definition built (fw : Framework) : Framework :=
  {| fw_code := fw_code fw;
     fw_name := fw_name fw;
     fw_level := fw_level fw;
     fw_path := fw_path fw;
     fw_domains := fw_domains fw;
     fw_files := fw_files fw;
     fw_functions :=
       flat_map Extractor._extract_functions_from_file (fw_files fw);
     fw_function_count :=
       Some (Z.of_nat (length
         (flat_map Extractor._extract_functions_from_file (fw_files fw)))) |}.

Lemma frameworks_index_framework s code fw :
  frameworks (index_framework s (code, fw)) = od_set (frameworks s) code (built fw).
Proof.
  rewrite index_framework_eq. cbn [set_frameworks frameworks].
  rewrite frameworks_index_function. reflexivity.
Qed.

Lemma frameworks_fold (l : odict Framework) s :
  frameworks (fold_left index_framework l s) =
  fold_left (fun d kv => od_set d (fst kv) (built (snd kv))) l (frameworks s).
Proof.
  revert s. induction l as [|[code fw] l IH]; intros s; [reflexivity|].
  change (fold_left index_framework ((code, fw) :: l) s)
    with (fold_left index_framework l (index_framework s (code, fw))).
  rewrite IH, frameworks_index_framework. reflexivity.
Qed.

Lemma frameworks_init tree :
  frameworks (init tree) =
  map (fun kv => (fst kv, built (snd kv))) (loaded_frameworks tree framework_defs).
Proof.
  unfold init, _build_indices. cbn [frameworks].
  rewrite frameworks_fold. cbn [frameworks]. rewrite load_frameworks_eq.
  apply (fold_od_set_self (fun kv => built (snd kv))
           (loaded_frameworks tree framework_defs) []).
  apply loaded_keys_NoDup, codes_NoDup.
Qed.

Lemma od_get_built_loaded tree defs info :
  List.NoDup (map def_code defs) -> In info defs ->
  od_get (map (fun kv => (fst kv, built (snd kv))) (loaded_frameworks tree defs))
    (def_code info)
  = match tree (def_path info) with
    | Some files => Some (built (loaded info files))
    | None => None
    end.
Proof.
  induction defs as [|d defs IH]; intros Hnd Hin; [destruct Hin|].
  destruct Hin as [->|Hin].
  - simpl. destruct (tree (def_path info)) as [files|].
    + simpl. rewrite String.eqb_refl. reflexivity.
    + apply od_get_None. inversion Hnd as [|? ? Hnotin _]; subst.
      intros H. apply Hnotin. apply (In_loaded_keys tree).
      unfold od_keys in *. rewrite map_map in H. exact H.
  - inversion Hnd as [|? ? Hnotin Hnd']; subst.
    simpl. destruct (tree (def_path d)) as [files|]; [|apply IH; assumption].
    simpl. destruct (String.eqb (def_code d) (def_code info)) eqn:E.
    + apply String.eqb_eq in E. exfalso. apply Hnotin. rewrite E.
      apply in_map, Hin.
    + apply IH; assumption.
Qed.

(** After the build, the framework of each definition of [framework_defs]
    is in [self.frameworks] exactly when its directory exists; it then has
    the name, level and domains of the definition (no domain for one that
    declares none), the files of the directory, as [functions] the records
    extracted from these files in their order, and as [function_count]
    their number.  No other code is a key of [self.frameworks]. *)
Theorem frameworks_after_build (tree : FileTree) (info : FrameworkDef) (code : string) :
  (In info framework_defs ->
   od_get (frameworks (init tree)) (def_code info)
   = match tree (def_path info) with
     | Some files => Some (built (loaded info files))
     | None => None
     end)
  /\ (~ In code (map def_code framework_defs) ->
      od_get (frameworks (init tree)) code = None).
Proof.
  rewrite frameworks_init. split.
  - apply od_get_built_loaded, codes_NoDup.
  - intros Hnot. apply od_get_None. intros H. apply Hnot.
    apply (In_loaded_keys tree). unfold od_keys in *. rewrite map_map in H.
    exact H.
Qed.

(** [RulesAPI.by_framework] of a built index: for a framework whose
    directory exists, the records extracted from its files, in the order of
    the files, without those whose text has the [Level 1] marker; the empty
    list for a directory that does not exist and for a code that
    [framework_defs] does not have. *)
Theorem rules_by_framework_of_build (tree : FileTree) (info : FrameworkDef)
    (code : string) :
  (In info framework_defs ->
   rules_by_framework (init tree) (def_code info)
   = match tree (def_path info) with
     | Some files =>
         List.filter (fun f => negb (Extractor.is_principle f))
           (flat_map Extractor._extract_functions_from_file files)
     | None => []
     end)
  /\ (~ In code (map def_code framework_defs) ->
      rules_by_framework (init tree) code = []).
Proof.
  unfold rules_by_framework. rewrite frameworks_init. split.
  - intros H. rewrite (od_get_built_loaded tree _ info codes_NoDup H).
    destruct (tree (def_path info)); reflexivity.
  - intros Hnot.
    rewrite (proj2 (od_get_None _ code)); [reflexivity|].
    intros H. apply Hnot. apply (In_loaded_keys tree).
    unfold od_keys in *. rewrite map_map in H. exact H.
Qed.

(** ** Integrity of the indices *)

Lemma od_get_fold_set_key {V : Type} (l : list (string * V)) (d : odict V) k :
  In k (map fst l) ->
  od_get (fold_left (fun d kv => od_set d (fst kv) (snd kv)) l d) k <> None.
Proof.
  intros Hin. rewrite od_get_fold_set.
  destruct (od_get (rev l) k) eqn:E; [discriminate|].
  apply od_get_None in E. exfalso. apply E.
  unfold od_keys. rewrite map_rev. apply in_rev. rewrite rev_involutive.
  exact Hin.
Qed.

Lemma function_index_has_key tree k :
  In k (map fst (insertions tree)) ->
  od_get (function_index (init tree)) k <> None.
Proof.
  intros Hin. unfold init, _build_indices. cbn [frameworks].
  rewrite function_index_build. cbn [function_index].
  apply od_get_fold_set_key. exact Hin.
Qed.

Lemma lookup_all_total (d : odict IndexedFunc) (keys : list string) :
  (forall k, In k keys -> od_get d k <> None) ->
  exists vs,
    lookup_all d keys = inr vs
    /\ length vs = length keys
    /\ forall v, In v vs -> exists k, In k keys /\ od_get d k = Some v.
Proof.
  induction keys as [|k keys IH]; intros H.
  - exists []. repeat split. intros v [].
  - destruct IH as (vs & Hvs & Hlen & Hin); [intros k' Hk'; apply H; right; exact Hk'|].
    destruct (od_get d k) as [v|] eqn:E;
      [|exfalso; exact (H k (or_introl eq_refl) E)].
    exists (v :: vs). simpl. rewrite E, Hvs. repeat split.
    + simpl. rewrite Hlen. reflexivity.
    + intros v' [<-|Hv'].
      * exists k. split; [left; reflexivity | exact E].
      * destruct (Hin v' Hv') as (k' & Hk' & E').
        exists k'. split; [right; exact Hk' | exact E'].
Qed.

Lemma domain_index_init tree dom :
  dd_get (domain_index (init tree)) dom =
  flat_map
    (fun r => flat_map
       (fun d => if String.eqb d dom then [fst (entry r)] else [])
       (fw_domains (snd (fst r))))
    (corpus (_load_frameworks tree)).
Proof.
  unfold init, _build_indices. cbn [frameworks].
  rewrite domain_index_build. cbn [domain_index].
  unfold dd_get at 1. rewrite lookup_empty. reflexivity.
Qed.

Lemma In_domain_index tree dom k :
  In k (dd_get (domain_index (init tree)) dom) ->
  exists r, In r (corpus (_load_frameworks tree))
            /\ k = fst (entry r) /\ In dom (fw_domains (snd (fst r))).
Proof.
  rewrite domain_index_init, in_flat_map. intros (r & Hr & H).
  apply in_flat_map in H as (d & Hd & H).
  destruct (String.eqb d dom) eqn:E; [|destruct H].
  destruct H as [<-|[]]. apply String.eqb_eq in E. subst d.
  exists r. repeat split; assumption.
Qed.

Lemma In_cross_references tree p k :
  In k (dd_get (cross_references (init tree)) p) ->
  In k (map fst (insertions tree)).
Proof.
  rewrite cross_references_init, in_flat_map. intros (kv & Hkv & H).
  apply in_flat_map in H as (ref & _ & H).
  destruct (String.eqb ref p); [|destruct H].
  destruct H as [<-|[]]. apply in_map, Hkv.
Qed.

(** Every qualified name that the build files under a domain or under a
    referenced name is a key of [function_index]: on a built index
    [find_derived_rules] and [RulesAPI.by_domain] raise no [KeyError], and
    they return one record for each name filed, the empty list for a name
    under which nothing is filed. *)
Theorem reverse_lookups_never_raise (tree : FileTree) (name : string) :
  (exists rules,
     find_derived_rules (init tree) name = inr rules
     /\ length rules = length (dd_get (cross_references (init tree)) name))
  /\ (exists rules,
        rules_by_domain (init tree) name = inr rules
        /\ length rules = length (dd_get (domain_index (init tree)) name))
  /\ (cross_references (init tree) !! name = None ->
      find_derived_rules (init tree) name = inr [])
  /\ (domain_index (init tree) !! name = None ->
      rules_by_domain (init tree) name = inr []).
Proof.
  repeat split.
  - destruct (lookup_all_total (function_index (init tree))
                (dd_get (cross_references (init tree)) name))
      as (vs & Hvs & Hlen & _).
    + intros k Hk. apply function_index_has_key, (In_cross_references tree name), Hk.
    + exists vs. split; assumption.
  - destruct (lookup_all_total (function_index (init tree))
                (dd_get (domain_index (init tree)) name))
      as (vs & Hvs & Hlen & _).
    + intros k Hk. apply function_index_has_key.
      apply In_domain_index in Hk as (r & Hr & -> & _).
      unfold insertions. rewrite map_map. apply (in_map (fun x => fst (entry x))), Hr.
    + exists vs. split; assumption.
  - intros H. unfold find_derived_rules, dd_get. rewrite H. reflexivity.
  - intros H. unfold rules_by_domain, dd_get. rewrite H. reflexivity.
Qed.

End Build.

End BuildFacts.

(* ===================================================================== *)
(** * Bounds of the confidence, explanations and the unified lookup        *)
(* ===================================================================== *)

Module PathFacts.
Import PyStr PyDict Index ChainFacts Inference ConfidenceFacts Hypergraph Api Unified.

#[local] Open Scope Q_scope.

Lemma factor_bounds (t : string) : 0 <= factor t <= 1.
Proof.
  unfold factor, factors.
  repeat (destruct (String.eqb t _)); split; discriminate.
Qed.

Lemma round4_unit (x : Q) : 0 <= x <= 1 -> 0 <= round4 x <= 1.
Proof.
  intros [H0 H1]. split.
  - apply (Qle_trans _ (round4 0)); [discriminate | apply round4_mono, H0].
  - apply (Qle_trans _ (round4 1)); [apply round4_mono, H1 | discriminate].
Qed.

Lemma fold_factors_unit (types : list string) (c : Q) :
  0 <= c <= 1 ->
  0 <= fold_left (fun c inf_type => c * factor inf_type) types c <= 1.
Proof.
  revert c. induction types as [|t types IH]; intros c Hc; [exact Hc|].
  simpl. apply IH. pose proof (factor_bounds t) as Ht.
  generalize dependent (factor t). intros f Hf. split; nra.
Qed.

Lemma pow_default_unit (n : nat) : 0 <= (95 # 100) ^ Z.of_nat n <= 1.
Proof.
  split.
  - apply Qpower_0_le. discriminate.
  - apply (pow_default_mono 0 n). lia.
Qed.

(** The confidence of a chain is a number between 0 and 1, whatever the
    chain and the inference types. *)
Theorem confidence_in_unit_interval (chain : list ChainNode)
    (types : option (list string)) :
  0 <= confidence chain types <= 1.
Proof.
  destruct chain as [|a chain]; [split; discriminate|].
  assert (0 <= confidence (a :: chain) None <= 1) as Hdefault.
  { rewrite (proj1 (confidence_default (a :: chain) ltac:(discriminate))).
    rewrite length_pred_of_nat by discriminate.
    apply round4_unit, pow_default_unit. }
  destruct types as [[|t types]|]; [exact Hdefault| |exact Hdefault].
  unfold confidence. apply round4_unit, fold_factors_unit. split; discriminate.
Qed.

(** ** [compute_path_confidence] *)

Section PathConfidence.
Variable inference_type : PyVal -> PyVal -> option string.

(** One step of the loop, between the names [a] and [b]. *)
Definition path_step (g : DiGraph) (idx : gmap string PyVal) (a b : PyVal)
    (confidence : Q) : Q :=
  match index_get idx a, index_get idx b with
  | Some u, Some v =>
      if is_truthy (index_get idx a) && is_truthy (index_get idx b)
         && has_edge g u v
      then confidence * factor (default "deductive"%string (inference_type u v))
      else confidence
  | _, _ => confidence
  end.

Lemma path_factors_cons g idx (a b : PyVal) (rest : list PyVal) (c : Q) :
  path_factors inference_type g idx (a :: b :: rest) c
  = path_factors inference_type g idx (b :: rest) (path_step g idx a b c).
Proof. reflexivity. Qed.

Lemma path_step_unit g idx a b (c : Q) :
  0 <= c <= 1 -> 0 <= path_step g idx a b c <= 1.
Proof.
  intros Hc. unfold path_step.
  destruct (index_get idx a) as [u|]; [|exact Hc].
  destruct (index_get idx b) as [v|]; [|exact Hc].
  destruct (_ && _); [|exact Hc].
  pose proof (factor_bounds (default "deductive"%string (inference_type u v))) as Hf.
  generalize dependent (factor (default "deductive"%string (inference_type u v))).
  intros f Hf. split; nra.
Qed.

Lemma path_factors_unit g idx (names : list PyVal) (c : Q) :
  0 <= c <= 1 -> 0 <= path_factors inference_type g idx names c <= 1.
Proof.
  revert c. induction names as [|a rest IH]; intros c Hc; [exact Hc|].
  destruct rest as [|b rest]; [exact Hc|].
  rewrite path_factors_cons. apply IH, path_step_unit, Hc.
Qed.

Lemma path_factors_skip g idx (names : list PyVal) (c : Q) :
  (forall n, In n names -> is_truthy (index_get idx n) = false) ->
  path_factors inference_type g idx names c = c.
Proof.
  revert c. induction names as [|a rest IH]; intros c H; [reflexivity|].
  destruct rest as [|b rest]; [reflexivity|].
  rewrite path_factors_cons, IH by (intros n Hn; apply H; right; exact Hn).
  unfold path_step. rewrite (H a (or_introl eq_refl)).
  destruct (index_get idx a); [|reflexivity].
  destruct (index_get idx b); reflexivity.
Qed.

(** The confidence of a path is a number between 0 and 1; the only
    exception that [compute_path_confidence] raises is that of a missing
    node index. *)
Theorem path_confidence_in_unit_interval (self : EnhancedHypergraphAPI)
    (names : list PyVal) :
  match compute_path_confidence inference_type self names with
  | inr c => 0 <= c <= 1
  | inl e => e = AttributeError /\ node_index self = None
  end.
Proof.
  unfold compute_path_confidence.
  destruct (graph self) as [g|]; [|split; discriminate].
  destruct (length names <? 2)%nat; [split; discriminate|].
  destruct (node_index self) as [idx|]; [|split; reflexivity].
  apply round4_unit, path_factors_unit. split; discriminate.
Qed.

(** A step between two names is skipped unless both names have a true
    identifier in the node index: a path of two or more names that the
    index does not know, or knows under the identifier 0 or the empty
    string, has the confidence 1. *)
Theorem unknown_path_has_full_confidence (self : EnhancedHypergraphAPI)
    (g : DiGraph) (idx : gmap string PyVal) (names : list PyVal) :
  graph self = Some g -> node_index self = Some idx ->
  (2 <= length names)%nat ->
  (forall n, In n names -> is_truthy (index_get idx n) = false) ->
  exists c, compute_path_confidence inference_type self names = inr c /\ c == 1.
Proof.
  intros Hg Hidx Hlen Hfalsy. unfold compute_path_confidence.
  rewrite Hg, Hidx.
  destruct (Nat.ltb_spec (length names) 2) as [Hlt|_]; [lia|].
  rewrite path_factors_skip by exact Hfalsy.
  eexists. split; reflexivity.
Qed.

End PathConfidence.

(** ** [InferenceAPI.explain] *)

(** The lines with [sep] between every two of them. *)
Fixpoint intersperse (sep : string) (lines : list string) : list string :=
  match lines with
  | [] => []
  | l :: ls =>
      match ls with
      | [] => [l]
      | _ :: _ => l :: sep :: intersperse sep ls
      end
  end.

Lemma explain_loop_spec (chain : list ChainNode) (i : Z) (acc : list string) :
  explain_loop (i + Z.of_nat (length chain)) i chain acc
  = acc ++ intersperse arrow_line (map node_line chain).
Proof.
  revert i acc. induction chain as [|n rest IH]; intros i acc.
  - simpl. rewrite app_nil_r. reflexivity.
  - cbn [explain_loop].
    replace (i + Z.of_nat (length (n :: rest)))%Z
      with ((i + 1) + Z.of_nat (length rest))%Z by (simpl length; lia).
    destruct rest as [|m rest].
    + replace (i <? i + 1 + Z.of_nat (length (@nil ChainNode)) - 1)%Z with false
        by (symmetry; apply Z.ltb_ge; simpl; lia).
      rewrite IH. simpl. rewrite app_nil_r. reflexivity.
    + replace (i <? i + 1 + Z.of_nat (length (m :: rest)) - 1)%Z with true
        by (symmetry; apply Z.ltb_lt; simpl length; lia).
      rewrite IH. cbn [map intersperse]. rewrite <- !app_assoc. reflexivity.
Qed.

(** [explain] renders the fixed message for the empty chain, and otherwise
    one line for each node, in the order of the chain, with the arrow line
    between every two nodes and none after the last, the lines joined by
    newlines. *)
Theorem explain_lines (chain : list ChainNode) :
  explain chain =
  match chain with
  | [] => "No inference chain found"%string
  | _ :: _ => join newline (intersperse arrow_line (map node_line chain))
  end.
Proof.
  destruct chain as [|n rest]; [reflexivity|].
  unfold explain. f_equal.
  exact (explain_loop_spec (n :: rest) 0 []).
Qed.

(** ** Chains that the index returns *)

Lemma chain_shape (self : FrameworkIndex) (p t : string) (c : list ChainNode) :
  Inference.chain self p t = Some c ->
  exists fd, c = [principle_node p; rule_node t fd].
Proof.
  unfold Inference.chain, build_inference_chain. rewrite chain_loop_first.
  destruct (find _ _) as [[k fd]|]; [|discriminate].
  destruct (str_in _ _); [|discriminate].
  intros [= <-]. exists fd. reflexivity.
Qed.

(** A chain that [InferenceAPI.chain] returns always has the confidence
    0.95 under the default factors, and its explanation is the line of the
    principle at level 1, the arrow, and the line of the rule at level 2. *)
Theorem returned_chain_confidence (self : FrameworkIndex) (p t : string)
    (c : list ChainNode) :
  Inference.chain self p t = Some c ->
  confidence c None == 95 # 100
  /\ explain c =
     (("Level 1: " +:+ p +:+ " (principle)") +:+ newline +:+ arrow_line
      +:+ newline +:+ "Level 2: " +:+ t +:+ " (rule)")%string.
Proof.
  intros H. apply chain_shape in H as [fd ->]. split; reflexivity.
Qed.

(** ** [find_inference_path] without a hypergraph *)

Section FindInferencePath.
Variable shortest_path : DiGraph -> PyVal -> PyVal -> NxError + list PyVal.
Variable inference_type : PyVal -> PyVal -> option string.

(** When the hypergraph was not asked for or could not be loaded,
    [find_inference_path] answers from the index alone: it returns [None]
    exactly when there is no one-hop chain, and otherwise the path of the
    two names, the confidence 0.95, the explanation of the chain and the
    method [simple]; it raises nothing. *)
Theorem inference_path_without_hypergraph (index : FrameworkIndex)
    (enhanced_graph : option EnhancedHypergraphAPI) (start end_ : string) :
  (enhanced_graph = None
   \/ exists eg, enhanced_graph = Some eg /\ graph eg = None) ->
  match Inference.chain index start end_ with
  | None =>
      find_inference_path shortest_path inference_type index enhanced_graph
        start end_ = inr None
  | Some c =>
      exists r,
        find_inference_path shortest_path inference_type index enhanced_graph
          start end_ = inr (Some r)
        /\ path r = [VStr start; VStr end_]
        /\ path_confidence r == 95 # 100
        /\ explanation r = explain c
        /\ method r = "simple"%string
  end.
Proof.
  intros Hnone.
  assert (find_inference_path shortest_path inference_type index enhanced_graph
            start end_
          = match Inference.chain index start end_ with
            | Some ((_ :: _) as chain) =>
                inr (Some {| path := map (fun n => VStr (node n)) chain;
                             path_confidence := confidence chain None;
                             explanation := explain chain;
                             method := "simple" |})
            | _ => inr None
            end) as Heq.
  { unfold find_inference_path.
    destruct Hnone as [->|(eg & -> & Hg)]; [reflexivity|].
    unfold is_available. rewrite Hg. reflexivity. }
  rewrite Heq. destruct (Inference.chain index start end_) as [c|] eqn:E;
    [|reflexivity].
  apply chain_shape in E as [fd ->].
  eexists. split; [reflexivity|]. repeat split.
Qed.

End FindInferencePath.

End PathFacts.

(* ===================================================================== *)
(** * Principles by name, domains of the records, statistics              *)
(* ===================================================================== *)

Module StatsFacts.
Import ListFacts PyStr PyDict PyDictFacts Index IndexFacts ChainFacts.
Import DerivedFacts SearchFacts Api BuildFacts.

Lemma fold_left_filter {A B : Type} (t : B -> bool) (f : A -> B -> A)
    (l : list B) (a : A) :
  fold_left (fun a x => if t x then f a x else a) l a
  = fold_left f (List.filter t l) a.
Proof.
  revert a. induction l as [|x l IH]; intros a; simpl; [reflexivity|].
  destruct (t x); simpl; apply IH.
Qed.

Lemma length_od_set {V : Type} (d : odict V) k v :
  (length d <= length (od_set d k v) <= S (length d))%nat.
Proof.
  induction d as [|[k0 v0] d IH]; simpl; [lia|].
  destruct (String.eqb k0 k); simpl; lia.
Qed.

Lemma length_fold_od_set {V : Type} (l : list (string * V)) (d : odict V) :
  (length (fold_left (fun d kv => od_set d (fst kv) (snd kv)) l d)
   <= length d + length l)%nat.
Proof.
  revert d. induction l as [|[k v] l IH]; intros d; simpl; [lia|].
  specialize (IH (od_set d k v)). pose proof (length_od_set d k v). lia.
Qed.

Section Stats.
Context {rt : PyRuntime}.

(** ** [PrinciplesAPI.get] *)

(** The record is indexed as a principle: its text has the [Level 1]
    marker, or its framework has level 1. *)
Definition is_indexed_principle (r : string * Framework * Func) : bool :=
  Extractor.is_principle (snd r) || (fw_level (snd (fst r)) =? 1).

(** The assignments to [principle_index] in the order of the build. *)
Definition principle_insertions (tree : FileTree) : list (string * Principle) :=
  map (fun r => (Extractor.name (snd r),
                 {| p_framework := fst (fst r); p_func := snd r |}))
    (List.filter is_indexed_principle (corpus (_load_frameworks tree))).

(** [PrinciplesAPI.get(name)] on a built index returns the last record, in
    the order of the build, of that local name among the records that have
    the [Level 1] marker or belong to a framework of level 1, whatever its
    framework, and [None] when there is none. *)
Theorem principle_by_name_is_last_inserted (tree : FileTree) (name : string) :
  principles_get (init tree) name = od_get (rev (principle_insertions tree)) name.
Proof.
  unfold principles_get, init, _build_indices. cbn [frameworks].
  rewrite principle_index_build. cbn [principle_index].
  rewrite (fold_left_ext _
             (fun d r =>
                if is_indexed_principle r then
                  od_set d (Extractor.name (snd r))
                    {| p_framework := fst (fst r); p_func := snd r |}
                else d))
    by (intros d [[code fw] f]; reflexivity).
  rewrite (fold_left_filter is_indexed_principle
             (fun d r => od_set d (Extractor.name (snd r))
                           {| p_framework := fst (fst r); p_func := snd r |})).
  unfold principle_insertions.
  pose proof (fold_left_map (fun (d : odict Principle) kv => od_set d (fst kv) (snd kv))
                (fun r : string * Framework * Func =>
                   (Extractor.name (snd r),
                    {| p_framework := fst (fst r); p_func := snd r |}))
                (List.filter is_indexed_principle (corpus (_load_frameworks tree)))
                []) as Hmap.
  cbv beta in Hmap. cbn [fst snd] in Hmap. rewrite <- Hmap.
  rewrite od_get_fold_set. simpl. destruct (od_get (rev _) name); reflexivity.
Qed.

(** ** The frameworks of the records of a domain *)

Lemma code_length code :
  In code (map def_code framework_defs) -> String.length code = 3%nat.
Proof.
  simpl. intros H.
  repeat (destruct H as [<-|H]; [reflexivity|]). destruct H.
Qed.

Lemma append_inj_length (a b c d : string) :
  String.length a = String.length b -> (a +:+ c = b +:+ d)%string -> a = b.
Proof.
  revert b. induction a as [|x a IH]; intros [|y b] Hlen H; try discriminate.
  - reflexivity.
  - injection Hlen as Hlen. injection H as -> H. f_equal. exact (IH b Hlen H).
Qed.

Lemma In_corpus_loaded r fws :
  In r (corpus fws) -> In (fst r) fws.
Proof.
  unfold corpus. rewrite in_flat_map. intros ([code fw] & Hin & H).
  apply in_map_iff in H as (f & <- & _). exact Hin.
Qed.

Lemma In_loaded_code tree code fw :
  In (code, fw) (_load_frameworks tree) ->
  In code (map def_code framework_defs).
Proof.
  rewrite load_frameworks_eq. intros H. apply (In_loaded_keys tree).
  apply (in_map fst) in H. exact H.
Qed.

(** [RulesAPI.by_domain(domain)] on a built index raises nothing, and every
    record it returns belongs to a framework of the index that declares the
    domain. *)
Theorem rules_by_domain_declare_domain (tree : FileTree) (domain : string) :
  exists rules,
    rules_by_domain (init tree) domain = inr rules
    /\ forall fd, In fd rules ->
         exists fw, od_get (frameworks (init tree)) (framework fd) = Some fw
                    /\ In domain (fw_domains fw).
Proof.
  destruct (lookup_all_total (function_index (init tree))
              (dd_get (domain_index (init tree)) domain))
    as (rules & Hrules & _ & Hin).
  { intros k Hk. apply function_index_has_key.
    apply In_domain_index in Hk as (r & Hr & -> & _).
    unfold insertions. rewrite map_map.
    apply (in_map (fun x => fst (entry x))), Hr. }
  exists rules. split; [exact Hrules|]. intros fd Hfd.
  destruct (Hin fd Hfd) as (k & Hk & Hget).
  apply In_domain_index in Hk as ([[code fw] f] & Hr & -> & Hdom).
  simpl in Hdom.
  (* the record held under the name comes from the same framework *)
  apply od_get_In in Hget.
  unfold init, _build_indices in Hget. cbn [frameworks] in Hget.
  rewrite function_index_build in Hget. cbn [function_index] in Hget.
  apply In_fold_od_set in Hget as [[]|Hget].
  apply in_map_iff in Hget as ([[code' fw'] f'] & Hentry & Hr').
  simpl in Hentry. injection Hentry as Hname <-. cbn [framework].
  pose proof (In_corpus_loaded _ _ Hr) as Hl. simpl in Hl.
  pose proof (In_corpus_loaded _ _ Hr') as Hl'. simpl in Hl'.
  assert (code' = code) as ->.
  { apply (append_inj_length code' code
             (":" +:+ Extractor.name f') (":" +:+ Extractor.name f));
      [|exact Hname].
    rewrite (code_length code') by exact (In_loaded_code tree _ _ Hl').
    rewrite (code_length code) by exact (In_loaded_code tree _ _ Hl).
    reflexivity. }
  exists (built fw). split; [|exact Hdom].
  rewrite frameworks_init. rewrite load_frameworks_eq in Hl.
  apply In_od_get.
  - unfold od_keys. rewrite map_map. apply loaded_keys_NoDup, codes_NoDup.
  - apply (in_map (fun kv => (fst kv, built (snd kv)))) in Hl. exact Hl.
Qed.

(** ** [get_framework_stats] *)

Definition stat_of (fw : Framework) (n : Z) : FrameworkStat :=
  {| fs_name := fw_name fw; fs_level := fw_level fw;
     fs_function_count := n; fs_domains := fw_domains fw |}.

Lemma framework_stats_built (l : odict Framework) (acc : odict FrameworkStat) :
  framework_stats (map (fun kv => (fst kv, built (snd kv))) l) acc
  = inr (fold_left
           (fun d kv => od_set d (fst kv) (snd kv))
           (map (fun kv =>
                   (fst kv,
                    stat_of (snd kv)
                      (Z.of_nat (length
                         (flat_map Extractor._extract_functions_from_file
                            (fw_files (snd kv)))))))
              l)
           acc).
Proof.
  revert acc. induction l as [|[code fw] l IH]; intros acc; [reflexivity|].
  simpl. rewrite IH. reflexivity.
Qed.

(** The sum of the [function_count] of the frameworks of the statistics. *)
Definition sum_counts (fws : odict FrameworkStat) : Z :=
  fold_right Z.add 0 (map (fun kv => fs_function_count (snd kv)) fws).

Lemma length_corpus (fws : odict Framework) :
  Z.of_nat (length (corpus fws))
  = fold_right Z.add 0
      (map (fun kv =>
              Z.of_nat (length
                (flat_map Extractor._extract_functions_from_file
                   (fw_files (snd kv)))))
         fws).
Proof.
  induction fws as [|[code fw] fws IH]; [reflexivity|].
  rewrite corpus_cons, length_app, length_map. cbn [map fold_right snd].
  rewrite <- IH. lia.
Qed.

(** The values of [domain_index] are not empty. *)
Definition lists_nonempty (m : gmap string (list string)) : Prop :=
  forall k v, m !! k = Some v -> v <> [].

Lemma lists_nonempty_append m k x :
  lists_nonempty m -> lists_nonempty (dd_append m k x).
Proof.
  intros H k' v. unfold dd_append.
  destruct (decide (k = k')) as [->|Hne].
  - rewrite lookup_insert_eq. intros [= <-]. destruct (default [] _); discriminate.
  - rewrite lookup_insert_ne by exact Hne. apply H.
Qed.

Lemma lists_nonempty_fold m (keys : list string) x :
  lists_nonempty m ->
  lists_nonempty (fold_left (fun d k => dd_append d k x) keys m).
Proof.
  revert m. induction keys as [|k keys IH]; intros m H; [exact H|].
  simpl. apply IH, lists_nonempty_append, H.
Qed.

Lemma domain_index_nonempty tree : lists_nonempty (domain_index (init tree)).
Proof.
  unfold init, _build_indices. cbn [frameworks].
  rewrite (build_projection domain_index
             (fun code fw f d =>
                fold_left (fun d domain => dd_append d domain (full_name code f))
                  (fw_domains fw) d));
    [|reflexivity|reflexivity].
  cbn [domain_index].
  assert (lists_nonempty (∅ : gmap string (list string))) as H
    by (intros k v Hk; rewrite lookup_empty in Hk; discriminate).
  revert H. generalize (∅ : gmap string (list string)).
  induction (corpus (_load_frameworks tree)) as [|[[code fw] f] l IH];
    intros m Hm; [exact Hm|].
  simpl. apply IH, lists_nonempty_fold, Hm.
Qed.

Lemma framework_stats_init tree :
  framework_stats (frameworks (init tree)) []
  = inr (map (fun kv =>
                (fst kv,
                 stat_of (snd kv)
                   (Z.of_nat (length
                      (flat_map Extractor._extract_functions_from_file
                         (fw_files (snd kv)))))))
           (loaded_frameworks tree framework_defs)).
Proof.
  rewrite frameworks_init, framework_stats_built. f_equal.
  apply (fold_od_set_fresh _ []).
  simpl. unfold od_keys. rewrite map_map. simpl.
  apply (loaded_keys_NoDup tree framework_defs codes_NoDup).
Qed.

Lemma sum_counts_init tree :
  sum_counts
    (map (fun kv =>
            (fst kv,
             stat_of (snd kv)
               (Z.of_nat (length
                  (flat_map Extractor._extract_functions_from_file
                     (fw_files (snd kv)))))))
       (loaded_frameworks tree framework_defs))
  = Z.of_nat (length (insertions tree)).
Proof.
  unfold insertions. rewrite length_map, load_frameworks_eq, length_corpus.
  unfold sum_counts. rewrite map_map. reflexivity.
Qed.

(** On a built index [get_framework_stats] raises nothing.  Its
    [total_functions] is at most the sum of the [function_count] of the
    frameworks, and equal to it when the qualified names of the corpus are
    pairwise different (a name defined twice is counted twice by its
    framework and once by the total); and every domain of the statistics
    has at least one function. *)
Theorem framework_stats_totals (tree : FileTree) :
  exists stats,
    get_framework_stats (init tree) = inr stats
    /\ total_functions stats <= sum_counts (stats_frameworks stats)
    /\ (List.NoDup (od_keys (insertions tree)) ->
        total_functions stats = sum_counts (stats_frameworks stats))
    /\ forall domain st,
         stats_domains stats !! domain = Some st -> 1 <= ds_function_count st.
Proof.
  unfold get_framework_stats. rewrite framework_stats_init.
  eexists. split; [reflexivity|].
  cbn [total_functions stats_frameworks stats_domains].
  rewrite sum_counts_init.
  repeat split.
  - unfold init, _build_indices. cbn [frameworks].
    rewrite function_index_build. cbn [function_index].
    pose proof (length_fold_od_set (map entry (corpus (_load_frameworks tree))) [])
      as H.
    unfold insertions. simpl in H. lia.
  - intros Hnd. rewrite (function_index_unique tree Hnd). reflexivity.
  - intros domain st. rewrite map_lookup_imap.
    destruct (domain_index (init tree) !! domain) as [funcs|] eqn:E;
      [|discriminate].
    simpl. intros [= <-]. simpl.
    pose proof (domain_index_nonempty tree domain funcs E) as Hne.
    destruct funcs; [congruence | simpl; lia].
Qed.

End Stats.

End StatsFacts.

(* ===================================================================== *)
(** * Extracted records; search within a domain                           *)
(* ===================================================================== *)

Module RecordFacts.
Import ListFacts PyStr PyDict PyDictFacts PySort SortFacts Index IndexFacts.
Import ChainFacts DerivedFacts SearchFacts Api BuildFacts StatsFacts.

Section Records.
Context {rt : PyRuntime}.

Lemma span_cp_nonempty (cls : string -> bool) (s : string) :
  cls s = true -> s <> EmptyString -> fst (span_cp cls s) <> EmptyString.
Proof.
  destruct s as [|c r]; [congruence|]. intros H _. cbn [span_cp].
  rewrite H, orb_true_r. destruct (span_cp cls r). discriminate.
Qed.

Lemma re_w_nonempty (s : string) : re_w s = true -> s <> EmptyString.
Proof. destruct s; [discriminate | discriminate]. Qed.

Lemma append_nonempty (a b : string) :
  a <> EmptyString -> (a +:+ b)%string <> EmptyString.
Proof. destruct a; [congruence | discriminate]. Qed.

Lemma match_define_name (s nm rest : string) :
  Extractor.match_define s = Some (nm, rest) -> nm <> EmptyString.
Proof.
  unfold Extractor.match_define.
  destruct (String.prefix "(define" s); [|discriminate].
  destruct (span_cp re_s (drop 7 s)) as [ws s2].
  destruct ws as [|w ws]; [discriminate|].
  set (s3 := if String.prefix "(" s2 then drop 1 s2 else s2).
  destruct (re_w s3) eqn:Hw; [|discriminate].
  pose proof (span_cp_nonempty re_w_or_hyphen s3) as Hne.
  destruct (span_cp re_w_or_hyphen s3) as [nm0 s4]. simpl in Hne.
  assert (nm0 <> EmptyString) as Hnm0.
  { apply Hne; [unfold re_w_or_hyphen; rewrite Hw; reflexivity|].
    apply re_w_nonempty, Hw. }
  destruct (String.prefix "?" s4); destruct (span_cp re_s _);
    intros [= <- _]; [apply append_nonempty|]; exact Hnm0.
Qed.

Lemma finditer_define_names (skip : nat) (s : string) :
  Forall (fun m => fst m <> EmptyString) (Extractor.finditer_define skip s).
Proof.
  revert skip. induction s as [|c r IH]; intros skip; [constructor|].
  cbn [Extractor.finditer_define]. destruct skip as [|k]; [|apply IH].
  destruct (Extractor.match_define (String c r)) as [[nm rest]|] eqn:E;
    [|apply IH].
  constructor; [|apply IH]. exact (match_define_name _ _ _ E).
Qed.

Lemma findall_names_nonempty (s cur : string) :
  Forall (fun name => name <> EmptyString) (findall_names s cur).
Proof.
  revert cur. induction s as [|c r IH]; intros cur; cbn [findall_names].
  - destruct cur; [constructor | constructor; [discriminate | constructor]].
  - destruct (is_cont c); [destruct cur; apply IH|].
    destruct (re_w_or_hyphen (String c r)); [apply IH|].
    destruct cur; [apply IH|]. constructor; [discriminate | apply IH].
Qed.

(** Every record that the extractor returns for a document has a name that
    is not empty, carries the name of the document as its [file], and has
    cross-reference names that are not empty. *)
Theorem extracted_records_are_named (f : SourceFile) :
  Forall
    (fun r =>
       Extractor.name r <> EmptyString
       /\ Extractor.file r = Extractor.file_name f
       /\ Forall (fun ref => ref <> EmptyString) (Extractor.cross_references r))
    (Extractor._extract_functions_from_file f).
Proof.
  unfold Extractor._extract_functions_from_file, Extractor.extract_try.
  destruct (read_text (Extractor.file_bytes f)) as [e|content]; [constructor|].
  pose proof (finditer_define_names O content) as H.
  induction H as [|[nm rest] l Hnm _ IH]; [constructor|].
  simpl. constructor; [|exact IH]. repeat split; [exact Hnm|].
  unfold Extractor.search_cross_refs.
  destruct (after_first _ _); [|constructor].
  destruct (span_cp re_s _). apply findall_names_nonempty.
Qed.

(** ** Search within a domain *)

Lemma In_insert_stable {A : Type} (key : A -> Z) (x y : A) (l : list A) :
  In x (insert_stable key y l) <-> x = y \/ In x l.
Proof.
  induction l as [|z l IH]; simpl; [intuition congruence|].
  destruct (key y <=? key z); simpl; [intuition congruence|].
  rewrite IH. intuition congruence.
Qed.

Lemma In_sort_by {A : Type} (key : A -> Z) (x : A) (l : list A) :
  In x (sort_by key l) <-> In x l.
Proof.
  induction l as [|y l IH]; simpl; [reflexivity|].
  rewrite In_insert_stable, IH. intuition congruence.
Qed.

Lemma In_match_record ql fd r : In r (match_record ql fd) -> data r = fd.
Proof.
  unfold match_record.
  destruct (contains _ _); [intros [<-|[]]; reflexivity|].
  destruct (contains _ _); [intros [<-|[]]; reflexivity | intros []].
Qed.

Lemma In_function_index_corpus tree k fd :
  In (k, fd) (function_index (init tree)) ->
  exists r, In r (corpus (_load_frameworks tree)) /\ entry r = (k, fd).
Proof.
  intros H. unfold init, _build_indices in H. cbn [frameworks] in H.
  rewrite function_index_build in H. cbn [function_index] in H.
  apply In_fold_od_set in H as [[]|H].
  apply in_map_iff in H as (r & Hr & Hin). exists r. split; assumption.
Qed.

Lemma function_index_NoDup tree :
  List.NoDup (od_keys (function_index (init tree))).
Proof.
  unfold init, _build_indices. cbn [frameworks].
  rewrite function_index_build. cbn [function_index].
  apply fold_od_set_NoDup. constructor.
Qed.

Lemma In_dd_get_domain tree dom r :
  In r (corpus (_load_frameworks tree)) ->
  In dom (fw_domains (snd (fst r))) ->
  In (fst (entry r)) (dd_get (domain_index (init tree)) dom).
Proof.
  intros Hr Hdom. rewrite domain_index_init. apply in_flat_map.
  exists r. split; [exact Hr|]. apply in_flat_map. exists dom.
  split; [exact Hdom|]. rewrite String.eqb_refl. left. reflexivity.
Qed.

Lemma lookup_all_In (d : odict IndexedFunc) keys vs k v :
  lookup_all d keys = inr vs -> In k keys -> od_get d k = Some v -> In v vs.
Proof.
  revert vs. induction keys as [|k0 keys IH]; intros vs H Hk Hget; [destruct Hk|].
  simpl in H. destruct (od_get d k0) as [v0|] eqn:E0; [|discriminate].
  destruct (lookup_all d keys) as [e|vs'] eqn:E; [discriminate|].
  injection H as <-. destruct Hk as [->|Hk].
  - left. congruence.
  - right. exact (IH vs' eq_refl Hk Hget).
Qed.

(** A search restricted to a domain stays inside the domain: for a domain
    that is not the empty string, every record that [search_functions]
    returns is among the records that [RulesAPI.by_domain] returns for the
    domain, and neither call raises. *)
Theorem search_in_domain_is_within_domain (tree : FileTree)
    (query domain : string) :
  domain <> EmptyString ->
  exists results rules,
    search_functions (init tree) query (Some domain) = inr results
    /\ rules_by_domain (init tree) domain = inr rules
    /\ forall r, In r results -> In (data r) rules.
Proof.
  intros Hdomain.
  destruct (lookup_all_total (function_index (init tree))
              (dd_get (domain_index (init tree)) domain))
    as (rules & Hrules & _ & _).
  { intros k Hk. apply function_index_has_key.
    apply In_domain_index in Hk as (r & Hr & -> & _).
    unfold insertions. rewrite map_map.
    apply (in_map (fun x => fst (entry x))), Hr. }
  unfold search_functions.
  rewrite search_loop_spec by (apply function_index_framework). simpl app.
  eexists. exists rules. split; [reflexivity|]. split; [exact Hrules|].
  intros r Hr. apply In_sort_by in Hr. apply in_flat_map in Hr as (fd & Hfd & Hr).
  destruct (passes (init tree) (Some domain) fd) eqn:Hpass; [|destruct Hr].
  apply In_match_record in Hr. rewrite Hr. clear r Hr.
  apply in_map_iff in Hfd as ([k fd'] & Hsnd & Hin). simpl in Hsnd. subst fd'.
  destruct (In_function_index_corpus tree k fd Hin) as ([[code fw] f] & Hr & Hentry).
  simpl in Hentry. injection Hentry as <- <-.
  (* the framework of the record declares the domain *)
  unfold passes in Hpass.
  assert (truthy (Some domain) = Some domain) as Htruthy
    by (destruct domain; [congruence | reflexivity]).
  rewrite Htruthy in Hpass. cbn [framework] in Hpass.
  pose proof (In_corpus_loaded _ _ Hr) as Hl. simpl in Hl.
  rewrite frameworks_init in Hpass. rewrite load_frameworks_eq in Hl.
  rewrite (In_od_get _ code (built fw)) in Hpass.
  - cbn [built fw_domains] in Hpass. apply str_in_In in Hpass.
    apply (lookup_all_In _ _ _ (full_name code f) _ Hrules).
    + exact (In_dd_get_domain tree domain (code, fw, f) Hr Hpass).
    + apply In_od_get; [apply function_index_NoDup | exact Hin].
  - unfold od_keys. rewrite map_map. apply loaded_keys_NoDup, codes_NoDup.
  - apply (in_map (fun kv => (fst kv, built (snd kv)))) in Hl. exact Hl.
Qed.

End Records.

End RecordFacts.

(* ===================================================================== *)
(** * The validator on a built index                                      *)
(* ===================================================================== *)

Module ValidatorFacts.
Import ListFacts PyStr PyDict PyDictFacts Index IndexFacts.
Import ChainFacts DerivedFacts SearchFacts Api BuildFacts StatsFacts RecordFacts.
Import Validator.

Section Checks.
Context {rt : PyRuntime}.

(** ** [check_framework_structure] *)

(** The errors of the structure check: one for each definition whose
    directory does not exist. *)
Definition missing (tree : FileTree) (defs : list FrameworkDef) : list Message :=
  flat_map
    (fun d =>
       match tree (def_path d) with
       | None => [missing_framework (def_code d)]
       | Some _ => []
       end)
    defs.

(** Its warnings: one for each directory without a [.scm] file. *)
Definition without_files (tree : FileTree) (defs : list FrameworkDef)
  : list Message :=
  flat_map
    (fun d =>
       match tree (def_path d) with
       | Some [] => [no_files (def_code d)]
       | _ => []
       end)
    defs.

(** Its reports: for each directory with a file, the number of its files
    and the number of records extracted from them. *)
Definition reported (tree : FileTree) (defs : list FrameworkDef) : list Message :=
  flat_map
    (fun d =>
       match tree (def_path d) with
       | Some ((_ :: _) as files) =>
           [framework_report (def_code d) (Z.of_nat (length files))
              (Z.of_nat (length
                 (flat_map Extractor._extract_functions_from_file files)))]
       | _ => []
       end)
    defs.

Lemma structure_loop_spec (tree : FileTree) (defs : list FrameworkDef) :
  (forall d, In d defs -> In d framework_defs) ->
  forall self, index self = init tree ->
    structure_loop (map def_code defs) self
    = inr {| index := index self;
             errors := errors self ++ missing tree defs;
             warnings := warnings self ++ without_files tree defs;
             info := info self ++ reported tree defs |}.
Proof.
  induction defs as [|d defs IH]; intros Hin self Hidx.
  - destruct self. simpl. rewrite !app_nil_r. reflexivity.
  - assert (forall d', In d' defs -> In d' framework_defs) as Hin'
      by (intros d' H; apply Hin; right; exact H).
    cbn [map structure_loop]. rewrite Hidx, frameworks_init.
    rewrite (od_get_built_loaded tree _ d codes_NoDup (Hin d (or_introl eq_refl))).
    unfold missing, without_files, reported. cbn [flat_map].
    fold (missing tree defs) (without_files tree defs) (reported tree defs).
    destruct (tree (def_path d)) as [[|f fs]|];
      cbn [built loaded fw_files fw_function_count];
      rewrite IH by (try exact Hin'; rewrite <- Hidx; reflexivity);
      cbn [index errors warnings info app]; rewrite <- ?app_assoc; reflexivity.
Qed.

(** On a built index the structure check raises nothing and files each of
    the nine frameworks once, in the order of [framework_defs]: an error
    for a directory that does not exist, a warning for a directory without
    a [.scm] file, and otherwise a report with the number of files and of
    extracted records. *)
Theorem structure_check_of_build (tree : FileTree) (self : FrameworkValidator) :
  index self = init tree ->
  check_framework_structure self
  = inr {| index := index self;
           errors := errors self ++ missing tree framework_defs;
           warnings := warnings self ++ without_files tree framework_defs;
           info := info self ++ reported tree framework_defs |}.
Proof.
  intros Hidx. unfold check_framework_structure.
  change expected_frameworks with (map def_code framework_defs).
  apply structure_loop_spec; [intros d H; exact H | exact Hidx].
Qed.

(** ** [check_domain_coverage] *)

Lemma no_empty_domain (stats : list (string * Z)) (ws : list Message) :
  Forall (fun s => snd s <> 0) stats ->
  fold_left
    (fun ws '(domain, count) =>
       if count =? 0 then ws ++ [empty_domain domain] else ws)
    stats ws = ws.
Proof.
  intros H. revert ws. induction H as [|[dom n] l Hn _ IH]; intros ws; [reflexivity|].
  simpl in *. apply Z.eqb_neq in Hn. rewrite Hn. apply IH.
Qed.

(** A framework of the index that declares a domain and has a record. *)
Definition covers (self : FrameworkIndex) (code : string) (fw : Framework) : Prop :=
  In (code, fw) (frameworks self) /\ fw_domains fw <> [] /\ fw_functions fw <> [].

Lemma In_corpus_built fws code fw f :
  In (code, fw) fws -> In f (fw_functions (built fw)) ->
  In (code, fw, f) (corpus fws).
Proof.
  intros Hfw Hf. unfold corpus. apply in_flat_map. exists (code, fw).
  split; [exact Hfw|]. apply (in_map (fun f => (code, fw, f))), Hf.
Qed.

Lemma covered_domain_index tree code fw :
  covers (init tree) code fw -> domain_index (init tree) <> ∅.
Proof.
  intros (Hin & Hdom & Hfun) Hempty. rewrite frameworks_init in Hin.
  apply in_map_iff in Hin as ([code0 fw0] & Heq & Hin).
  cbn [fst snd] in Heq. injection Heq as -> <-.
  rewrite <- load_frameworks_eq in Hin. cbn [built fw_domains fw_functions] in *.
  destruct (fw_domains fw0) as [|dom doms] eqn:Ed; [congruence|].
  destruct (flat_map Extractor._extract_functions_from_file (fw_files fw0))
    as [|f fs] eqn:Ef; [congruence|].
  assert (In (code, fw0, f) (corpus (_load_frameworks tree))) as Hr.
  { apply In_corpus_built; [exact Hin|]. cbn [built fw_functions].
    rewrite Ef. left. reflexivity. }
  pose proof (In_dd_get_domain tree dom (code, fw0, f) Hr) as H.
  cbn [fst snd] in H. rewrite Ed in H. specialize (H (or_introl eq_refl)).
  unfold dd_get in H. rewrite Hempty, lookup_empty in H. exact H.
Qed.

Lemma uncovered_domain_index tree :
  (forall code fw, ~ covers (init tree) code fw) -> domain_index (init tree) = ∅.
Proof.
  intros Hno. apply map_empty. intros dom.
  destruct (domain_index (init tree) !! dom) as [v|] eqn:E; [|reflexivity].
  exfalso. pose proof (domain_index_nonempty tree dom v E) as Hne.
  destruct v as [|k v]; [congruence|].
  assert (In k (dd_get (domain_index (init tree)) dom)) as Hk
    by (unfold dd_get; rewrite E; left; reflexivity).
  apply In_domain_index in Hk as ([[code fw] f] & Hr & _ & Hdom).
  cbn [fst snd] in Hdom.
  apply (Hno code (built fw)). repeat split.
  - rewrite frameworks_init, <- load_frameworks_eq.
    apply (in_map (fun kv => (fst kv, built (snd kv))) _ (code, fw)).
    exact (In_corpus_loaded _ _ Hr).
  - cbn [built fw_domains]. intros H. rewrite H in Hdom. destruct Hdom.
  - cbn [built fw_functions]. unfold corpus in Hr.
    apply in_flat_map in Hr as ([code' fw'] & _ & Hr).
    apply in_map_iff in Hr as (f' & [= _ <- _] & Hf').
    intros H. rewrite H in Hf'. destruct Hf'.
Qed.

(** On a built index the domain check never warns of a domain without
    functions, whatever the order of the items.  It reports the error
    [No domains found], and nothing else, when no framework of the index
    both declares a domain and has a record; and otherwise no error and
    one line of information. *)
Theorem domain_check_of_build (tree : FileTree) (self : FrameworkValidator)
    (items : list (string * list string)) :
  items ≡ₚ map_to_list (domain_index (init tree)) ->
  warnings (check_domain_coverage self items) = warnings self
  /\ ((forall code fw, ~ covers (init tree) code fw) ->
      errors (check_domain_coverage self items) = errors self ++ [no_domains]
      /\ info (check_domain_coverage self items) = info self)
  /\ ((exists code fw, covers (init tree) code fw) ->
      errors (check_domain_coverage self items) = errors self
      /\ exists m, info (check_domain_coverage self items) = info self ++ [m]).
Proof.
  intros Hperm.
  assert (Forall (fun s : string * Z => snd s <> 0)
            (map (fun '(domain, func_names) =>
                    (domain, Z.of_nat (length func_names))) items)) as Hpos.
  { apply List.Forall_forall. intros s Hs.
    apply in_map_iff in Hs as ([dom names] & <- & Hitem). simpl.
    apply (Permutation_in _ Hperm), list_elem_of_In, elem_of_map_to_list in Hitem.
    pose proof (domain_index_nonempty tree dom names Hitem) as Hne.
    destruct names; [congruence | simpl; lia]. }
  unfold check_domain_coverage. repeat split.
  - destruct items as [|[dom names] items]; [reflexivity|].
    cbn [map warnings]. cbn [map] in Hpos. exact (no_empty_domain _ _ Hpos).
  - apply uncovered_domain_index in H. rewrite H, map_to_list_empty in Hperm.
    apply Permutation_sym, Permutation_nil in Hperm. subst items. reflexivity.
  - apply uncovered_domain_index in H. rewrite H, map_to_list_empty in Hperm.
    apply Permutation_sym, Permutation_nil in Hperm. subst items. reflexivity.
  - destruct H as (code & fw & Hc). apply covered_domain_index in Hc.
    destruct items as [|[dom names] items]; [|reflexivity].
    apply Permutation_nil, map_to_list_empty_iff in Hperm. contradiction.
  - destruct H as (code & fw & Hc). apply covered_domain_index in Hc.
    destruct items as [|[dom names] items]; [|eexists; reflexivity].
    apply Permutation_nil, map_to_list_empty_iff in Hperm. contradiction.
Qed.

End Checks.

End ValidatorFacts.

(* ===================================================================== *)
(** * Related nodes                                                       *)
(* ===================================================================== *)

Module RelatedFacts.
Import PySort Hypergraph HypergraphFacts Related RecordFacts.

Lemma insert_stable_sorted {A : Type} (key : A -> Z) (x : A) (l : list A) :
  StronglySorted (fun a b => key a <= key b) l ->
  StronglySorted (fun a b => key a <= key b) (insert_stable key x l).
Proof.
  induction 1 as [|y l Hl IH Hy]; simpl; [repeat constructor|].
  destruct (key x <=? key y) eqn:E.
  - apply Z.leb_le in E. constructor; [constructor; assumption|].
    constructor; [exact E|].
    apply List.Forall_forall. intros z Hz.
    rewrite List.Forall_forall in Hy. specialize (Hy z Hz). lia.
  - apply Z.leb_gt in E. constructor; [exact IH|].
    apply List.Forall_forall. intros z Hz. apply In_insert_stable in Hz as [->|Hz].
    + lia.
    + rewrite List.Forall_forall in Hy. exact (Hy z Hz).
Qed.

Lemma sort_by_sorted {A : Type} (key : A -> Z) (l : list A) :
  StronglySorted (fun a b => key a <= key b) (sort_by key l).
Proof.
  induction l as [|x l IH]; simpl; [constructor|].
  apply insert_stable_sorted, IH.
Qed.

Section FindRelatedNodes.
Variable lengths_within : DiGraph -> PyVal -> Z -> NxError + list (PyVal * Z).
Variable node_type : PyVal -> option string.
Variable node_confidence : PyVal -> option Q.

(** The dictionary that the loop makes of an item of the lengths. *)
Definition related_node (g : DiGraph) (item : PyVal * Z) : RelatedNode :=
  {| rel_name := name_of g (fst item);
     rel_type := default "unknown" (node_type (fst item));
     distance := snd item;
     rel_confidence := default (95 # 100) (node_confidence (fst item)) |}.

Lemma related_loop_nodes g (lengths : list (PyVal * Z)) (related : list RelatedNode) :
  Forall (fun item => has_node g (fst item) = true) lengths ->
  related_loop node_type node_confidence g lengths related
  = inr (related
         ++ map (related_node g)
              (List.filter (fun item => 0 <? snd item) lengths)).
Proof.
  intros H. revert related.
  induction H as [|[t d] l Ht _ IH]; intros related;
    [simpl; rewrite app_nil_r; reflexivity|].
  cbn [related_loop List.filter snd]. simpl in Ht.
  destruct (0 <? d); [|apply IH].
  rewrite Ht, IH. cbn [map]. rewrite <- app_assoc. reflexivity.
Qed.

(** For a name of the index whose identifier is true, when the library
    yields lengths for nodes of the graph: [find_related_nodes] returns one
    dictionary for each node at a positive distance, so never the node
    itself, sorted by ascending distance, nodes at the same distance in the
    order in which the library yields them. *)
Theorem related_nodes_by_distance (self : EnhancedHypergraphAPI)
    (g : DiGraph) (idx : gmap string PyVal) (node_name : string) (v : PyVal)
    (max_distance : Z) (lengths : list (PyVal * Z)) :
  graph self = Some g ->
  node_index self = Some idx ->
  idx !! node_name = Some v ->
  is_truthy (Some v) = true ->
  lengths_within g v max_distance = inr lengths ->
  Forall (fun item => has_node g (fst item) = true) lengths ->
  exists related,
    find_related_nodes lengths_within node_type node_confidence
      self node_name max_distance = inr related
    /\ related
       = sort_by distance
           (map (related_node g) (List.filter (fun item => 0 <? snd item) lengths))
    /\ StronglySorted (fun a b => distance a <= distance b) related
    /\ Forall (fun r => 0 < distance r) related.
Proof.
  intros Hg Hidx Hv Htrue Hlen Hnodes. eexists. split; [|split; [reflexivity|]].
  - unfold find_related_nodes. rewrite Hg, Hidx, Hv, Htrue. cbn [negb].
    rewrite Hlen, (related_loop_nodes g lengths [] Hnodes). reflexivity.
  - split; [apply sort_by_sorted|].
    apply List.Forall_forall. intros r Hr. apply In_sort_by in Hr.
    apply in_map_iff in Hr as (item & <- & Hitem).
    apply filter_In in Hitem as [_ Hpos]. apply Z.ltb_lt in Hpos. exact Hpos.
Qed.

End FindRelatedNodes.

End RelatedFacts.

(* ===================================================================== *)
(** * From a search to the indices                                        *)
(* ===================================================================== *)

Module LookupFacts.
Import ListFacts PyStr PyDict PyDictFacts PySort Index IndexFacts.
Import ChainFacts DerivedFacts SearchFacts PrincipleFacts Api BuildFacts RecordFacts.

Section Lookup.
Context {rt : PyRuntime}.

Lemma entry_full_name (r : string * Framework * Func) :
  full_name (framework (snd (entry r))) (func (snd (entry r))) = fst (entry r).
Proof. destruct r as [[code fw] f]. reflexivity. Qed.

(** A search raises nothing on a built index, and every record it returns
    is the one that [function_index] holds under the qualified name made
    of the framework and the name of the record. *)
Theorem search_results_are_indexed (tree : FileTree) (query : string)
    (domain : option string) :
  exists results,
    search_functions (init tree) query domain = inr results
    /\ Forall
         (fun r =>
            od_get (function_index (init tree))
              (full_name (framework (data r)) (func (data r)))
            = Some (data r))
         results.
Proof.
  unfold search_functions.
  rewrite search_loop_spec by (apply function_index_framework). simpl app.
  eexists. split; [reflexivity|].
  apply List.Forall_forall. intros r Hr.
  apply In_sort_by in Hr. apply in_flat_map in Hr as (fd & Hfd & Hr).
  destruct (passes (init tree) domain fd); [|destruct Hr].
  apply In_match_record in Hr. rewrite Hr. clear r Hr.
  apply in_map_iff in Hfd as ([k fd'] & Hsnd & Hin). simpl in Hsnd. subst fd'.
  destruct (In_function_index_corpus tree k fd Hin) as (r & _ & Hentry).
  pose proof (entry_full_name r) as Hname. rewrite Hentry in Hname.
  cbn [fst snd] in Hname. rewrite Hname.
  apply In_od_get; [apply function_index_NoDup | exact Hin].
Qed.

Lemma principle_index_keys tree k p :
  In (k, p) (principle_index (init tree)) -> k = Extractor.name (p_func p).
Proof.
  unfold init, _build_indices. cbn [frameworks].
  rewrite principle_index_build. cbn [principle_index].
  assert (forall kv, In kv (@nil (string * Principle)) ->
                     fst kv = Extractor.name (p_func (snd kv))) as H
    by (intros kv []).
  revert H. generalize (@nil (string * Principle)).
  induction (corpus (_load_frameworks tree)) as [|[[code fw] f] l IH];
    intros d Hd Hin; [exact (Hd _ Hin)|].
  simpl in Hin. revert Hin. apply IH. intros kv Hkv.
  destruct (_ || _); [|exact (Hd _ Hkv)].
  apply In_od_set in Hkv as [Hkv| ->]; [exact (Hd _ Hkv) | reflexivity].
Qed.

Lemma In_principles_search (index : FrameworkIndex) (query : string) p :
  In p (principles_search index query) ->
  exists k, In (k, p) (principle_index index).
Proof.
  unfold principles_search.
  assert (forall (l : list (string * Principle)) acc,
            In p (fold_left
                    (fun results '(name, data) =>
                       if contains (str_lower query) (str_lower name)
                       then results ++ [data]
                       else if contains (str_lower query)
                                 (str_lower (Extractor.docstring (p_func data)))
                       then results ++ [data]
                       else results) l acc) ->
            In p acc \/ exists k, In (k, p) l) as H.
  { induction l as [|[k d] l IH]; intros acc Hin; [left; exact Hin|].
    simpl in Hin. apply IH in Hin as [Hin|(k' & Hk')].
    - assert (In p acc \/ p = d) as [Hacc| ->].
      { destruct (contains _ _);
          [apply in_app_or in Hin as [Hin|[<-|[]]]; tauto|].
        destruct (contains _ _);
          [apply in_app_or in Hin as [Hin|[<-|[]]]; tauto | tauto]. }
      + left. exact Hacc.
      + right. exists k. left. reflexivity.
    - right. exists k'. right. exact Hk'. }
  intros Hin. apply H in Hin as [[]|Hin]. exact Hin.
Qed.

(** Every principle that [PrinciplesAPI.search] finds on a built index is
    the one that [PrinciplesAPI.get] returns for its name. *)
Theorem found_principles_are_gettable (tree : FileTree) (query : string) :
  Forall
    (fun p => principles_get (init tree) (Extractor.name (p_func p)) = Some p)
    (principles_search (init tree) query).
Proof.
  apply List.Forall_forall. intros p Hp.
  apply In_principles_search in Hp as (k & Hk).
  pose proof (principle_index_keys tree k p Hk) as ->.
  unfold principles_get. apply In_od_get; [apply principle_index_NoDup | exact Hk].
Qed.

End Lookup.

End LookupFacts.
(* ===================================================================== *)
(** * Concrete corpora                                                    *)
(* ===================================================================== *)

Module Examples.
Import PyStr PyDict Index IndexFacts ChainFacts DerivedFacts SearchFacts PrincipleFacts.
Import Inference ConfidenceFacts ExtractorFacts.
Import Hypergraph HypergraphFacts.

#[local] Existing Instance ascii_runtime.
#[local] Open Scope string_scope.

(** A tree with the single directory [path], holding [files]. *)
Definition one_dir (path : string) (files : list SourceFile) : FileTree :=
  fun p => if String.eqb p path then Some files else None.

(** Two documents of the civil framework that both define
    [contract-valid?]. *)
Definition dup_a : SourceFile :=
  {| Extractor.file_name := "a.scm";
     Extractor.file_bytes := Some "(define (contract-valid? c) (offer c))" |}.
Definition dup_b : SourceFile :=
  {| Extractor.file_name := "b.scm";
     Extractor.file_bytes := Some "(define (contract-valid? c) (accept c))" |}.
Definition dup_tree : FileTree := one_dir "civ/za" [dup_a; dup_b].

Definition dup_record (file : string) : IndexedFunc :=
  {| framework := "civ"; framework_name := "Civil Law (ZA)";
     func := {| Extractor.name := "contract-valid?"; Extractor.docstring := "";
                Extractor.cross_references := []; Extractor.is_principle := false;
                Extractor.file := file |} |}.

(** C1 fails as stated: both documents are inserted under
    [civ:contract-valid?], the record of [a.scm] first, and the built index
    holds the record of [b.scm]. *)
Lemma function_index_overwrites_first :
  insertions dup_tree =
    [("civ:contract-valid?", dup_record "a.scm");
     ("civ:contract-valid?", dup_record "b.scm")]
  /\ od_get (insertions dup_tree) "civ:contract-valid?" = Some (dup_record "a.scm")
  /\ od_get (function_index (init dup_tree)) "civ:contract-valid?"
     = Some (dup_record "b.scm")
  /\ dup_record "a.scm" <> dup_record "b.scm".
Proof.
  repeat split; try (vm_compute; reflexivity).
  intros H. discriminate H.
Qed.


Definition nl : string := String LF EmptyString.

(** A tree with two directories. *)
Definition two_dirs (path1 : string) (files1 : list SourceFile)
    (path2 : string) (files2 : list SourceFile) : FileTree :=
  fun p =>
    if String.eqb p path1 then Some files1
    else if String.eqb p path2 then Some files2
    else None.

(** The civil and the criminal framework both define [liable?]; only the
    criminal rule refers to the principle [culpa]. *)
Definition liable_civ : SourceFile :=
  {| Extractor.file_name := "delict.scm";
     Extractor.file_bytes := Some "(define (liable? x) (harm x))" |}.
Definition liable_cri : SourceFile :=
  {| Extractor.file_name := "crime.scm";
     Extractor.file_bytes :=
       Some ("(define (liable? x)" +:+ nl +:+
             "  ;; Cross-reference: culpa" +:+ nl +:+
             "  (guilty x))") |}.
Definition liable_tree : FileTree :=
  two_dirs "civ/za" [liable_civ] "cri/za" [liable_cri].

Definition liable_cri_record : IndexedFunc :=
  {| framework := "cri"; framework_name := "Criminal Law (ZA)";
     func := {| Extractor.name := "liable?"; Extractor.docstring := "";
                Extractor.cross_references := ["culpa"];
                Extractor.is_principle := false;
                Extractor.file := "crime.scm" |} |}.

(** C2 fails as stated: a record of the index has the local name [liable?]
    and lists [culpa], and no chain is returned, because the civil record of
    that name comes first and does not list it. *)
Lemma chain_misses_later_record :
  od_get (function_index (init liable_tree)) "cri:liable?" = Some liable_cri_record
  /\ Extractor.name (func liable_cri_record) = "liable?"
  /\ In "culpa" (Extractor.cross_references (func liable_cri_record))
  /\ Inference.chain (init liable_tree) "culpa" "liable?" = None.
Proof.
  repeat split; try (vm_compute; reflexivity).
  left. reflexivity.
Qed.

(** The scenario of the design document: the principle
    [pacta-sunt-servanda] of [lv1], and the rule [contract-valid?] of the
    civil framework, which refers to it. *)
Definition quoted (s : string) : string :=
  String DQUOTE (s +:+ String DQUOTE EmptyString).

Definition scenario_lv1 : SourceFile :=
  {| Extractor.file_name := "principles.scm";
     Extractor.file_bytes :=
       Some ("(define (pacta-sunt-servanda agreement)" +:+ nl +:+
             "  " +:+ quoted "Agreements must be kept" +:+ nl +:+
             "  (binding agreement))") |}.
Definition scenario_civ : SourceFile :=
  {| Extractor.file_name := "contract.scm";
     Extractor.file_bytes :=
       Some ("(define (contract-valid? c)" +:+ nl +:+
             "  " +:+ quoted "A contract needs offer and acceptance" +:+ nl +:+
             "  ;; Cross-reference: pacta-sunt-servanda" +:+ nl +:+
             "  (and (offer c) (acceptance c)))") |}.
Definition scenario_tree : FileTree :=
  two_dirs "lv1" [scenario_lv1] "civ/za" [scenario_civ].

Definition pacta_record : IndexedFunc :=
  {| framework := "lv1"; framework_name := "Level 1 Principles";
     func := {| Extractor.name := "pacta-sunt-servanda";
                Extractor.docstring := "Agreements must be kept";
                Extractor.cross_references := [];
                Extractor.is_principle := false;
                Extractor.file := "principles.scm" |} |}.
Definition contract_record : IndexedFunc :=
  {| framework := "civ"; framework_name := "Civil Law (ZA)";
     func := {| Extractor.name := "contract-valid?";
                Extractor.docstring := "A contract needs offer and acceptance";
                Extractor.cross_references := ["pacta-sunt-servanda"];
                Extractor.is_principle := false;
                Extractor.file := "contract.scm" |} |}.

Lemma scenario_index :
  function_index (init scenario_tree) =
  [("lv1:pacta-sunt-servanda", pacta_record); ("civ:contract-valid?", contract_record)].
Proof. vm_compute. reflexivity. Qed.

Lemma scenario_unique : List.NoDup (od_keys (insertions scenario_tree)).
Proof.
  vm_compute. repeat constructor; simpl; intros H;
    repeat (destruct H as [H|H]; [discriminate H|]); exact H.
Defined.

(** C4 at the scenario: the rules derived from [pacta-sunt-servanda]. *)
Lemma derived_rules_scenario :
  find_derived_rules (init scenario_tree) "pacta-sunt-servanda"
    = inr (referrers "pacta-sunt-servanda" (function_index (init scenario_tree)))
  /\ forall e,
       In e (referrers "pacta-sunt-servanda" (function_index (init scenario_tree))) <->
       In e (od_values (function_index (init scenario_tree)))
       /\ In "pacta-sunt-servanda" (Extractor.cross_references (func e)).
Proof.
  exact (derived_rules_are_the_referrers scenario_tree "pacta-sunt-servanda"
           scenario_unique).
Defined.

Lemma derived_rules_scenario_value :
  find_derived_rules (init scenario_tree) "pacta-sunt-servanda"
  = inr [contract_record].
Proof. vm_compute. reflexivity. Qed.

(** A rule that refers to [bona-fides], and a second document that defines
    it again without the reference. *)
Definition redef_a : SourceFile :=
  {| Extractor.file_name := "a.scm";
     Extractor.file_bytes :=
       Some ("(define (valid? c)" +:+ nl +:+
             "  ;; Cross-reference: bona-fides" +:+ nl +:+
             "  (honest c))") |}.
Definition redef_b : SourceFile :=
  {| Extractor.file_name := "b.scm";
     Extractor.file_bytes := Some "(define (valid? c) (signed c))" |}.
Definition redef_tree : FileTree := one_dir "civ/za" [redef_a; redef_b].

Definition redef_record : IndexedFunc :=
  {| framework := "civ"; framework_name := "Civil Law (ZA)";
     func := {| Extractor.name := "valid?"; Extractor.docstring := "";
                Extractor.cross_references := [];
                Extractor.is_principle := false;
                Extractor.file := "b.scm" |} |}.

(** C4 fails as stated: after the second definition has replaced the first
    in [function_index], the rules derived from [bona-fides] are the one
    record of [civ:valid?], which has no cross-reference at all. *)
Lemma derived_rule_without_reference :
  find_derived_rules (init redef_tree) "bona-fides" = inr [redef_record]
  /\ od_values (function_index (init redef_tree)) = [redef_record]
  /\ Extractor.cross_references (func redef_record) = [].
Proof. repeat split; vm_compute; reflexivity. Qed.

(** The scenario, searched for [contract]. *)
Lemma search_scenario :
  search_functions (init scenario_tree) "contract" None
  = inr [ {| relevance := partial; data := contract_record |} ]
  /\ search_functions (init scenario_tree) "Contract-Valid?" (Some "contract")
     = inr [ {| relevance := exact; data := contract_record |} ]
  /\ search_functions (init scenario_tree) "kept" None
     = inr [ {| relevance := description; data := pacta_record |} ]
  /\ search_functions (init scenario_tree) "contract" (Some "criminal") = inr [].
Proof. repeat split; vm_compute; reflexivity. Qed.

(** C6 fails as stated: with the empty string given as the domain the
    search returns the civil rule, although the civil framework does not
    declare a domain of that name. *)
Lemma search_ignores_empty_domain :
  search_functions (init scenario_tree) "contract" (Some "")
  = inr [ {| relevance := partial; data := contract_record |} ]
  /\ option_map fw_domains
       (od_get (frameworks (init scenario_tree)) (framework contract_record))
     = Some ["contract"; "delict"; "property"; "family"]
  /\ str_in "" ["contract"; "delict"; "property"; "family"] = false.
Proof. repeat split; vm_compute; reflexivity. Qed.

(** The principles of the domain [contract] in the scenario. *)
Lemma principles_scenario :
  map pi_name (find_principles_by_domain (init scenario_tree) "contract")
  = ["pacta-sunt-servanda"]
  /\ find_principles_by_domain (init scenario_tree) "criminal" = [].
Proof. split; vm_compute; reflexivity. Qed.

(** C7 fails as stated.  The level-1 framework defines [p-one] and then
    [p-two]; the first rule of the civil framework refers to [p-two] and the
    second to [p-one].  The method lists [p-one] first, as
    [principle_index] does, while the records of the domain refer to
    [p-two] first. *)
Definition order_lv1 : SourceFile :=
  {| Extractor.file_name := "principles.scm";
     Extractor.file_bytes :=
       Some ("(define (p-one x) x)" +:+ nl +:+
             "(define (p-two x) x)" +:+ nl) |}.
Definition order_civ : SourceFile :=
  {| Extractor.file_name := "rules.scm";
     Extractor.file_bytes :=
       Some ("(define (r-one x)" +:+ nl +:+
             "  ;; Cross-reference: p-two" +:+ nl +:+
             "  x)" +:+ nl +:+
             "(define (r-two x)" +:+ nl +:+
             "  ;; Cross-reference: p-one" +:+ nl +:+
             "  x)" +:+ nl) |}.
Definition order_tree : FileTree :=
  two_dirs "lv1" [order_lv1] "civ/za" [order_civ].

Lemma principles_in_index_order :
  od_keys (principle_index (init order_tree)) = ["p-one"; "p-two"]
  /\ dd_get (domain_index (init order_tree)) "contract"
     = ["civ:r-one"; "civ:r-two"]
  /\ references (init order_tree)
       (dd_get (domain_index (init order_tree)) "contract")
     = ["p-two"; "p-one"]
  /\ principles_first_seen (init order_tree) "contract" = ["p-two"; "p-one"]
  /\ map pi_name (find_principles_by_domain (init order_tree) "contract")
     = ["p-one"; "p-two"].
Proof. repeat split; vm_compute; reflexivity. Qed.

(** The chain of the scenario. *)
Lemma chain_scenario :
  Inference.chain (init scenario_tree) "pacta-sunt-servanda" "contract-valid?"
  = Some [principle_node "pacta-sunt-servanda";
          rule_node "contract-valid?" contract_record].
Proof. vm_compute. reflexivity. Qed.

(** ** Confidence *)

Definition scenario_chain : list ChainNode :=
  [principle_node "pacta-sunt-servanda"; rule_node "contract-valid?" contract_record].

Definition three_nodes : list ChainNode :=
  [principle_node "pacta-sunt-servanda";
   rule_node "contract-valid?" contract_record;
   rule_node "contract-enforceable?" contract_record].

Lemma confidence_values :
  (confidence [] None == 0
   /\ confidence scenario_chain None == 95 # 100
   /\ confidence three_nodes None == 9025 # 10000
   /\ confidence three_nodes (Some ["inductive"; "abductive"]) == 56 # 100
   /\ confidence scenario_chain (Some ["analogical"; "circumstantial"]) == 6175 # 10000)%Q.
Proof. repeat split. Qed.


(** The values of the longer chain: 0.9025 without types against 0.95,
    and 0.665 with the two types against 0.95 with the first. *)
Lemma confidence_of_longer_chain :
  (confidence three_nodes None == 9025 # 10000
   /\ confidence scenario_chain None == 95 # 100
   /\ confidence three_nodes (Some ["deductive"; "abductive"]) == 665 # 1000
   /\ confidence scenario_chain (Some ["deductive"]) == 95 # 100)%Q.
Proof. repeat split. Qed.

(** ** Confidence in binary64 *)

(** C9 at two chains of different lengths and two supplied types, one of
    them unknown to the table. *)
Lemma confidence_of_types_scenario :
  Binary64.confidence Binary64.pow_rounded scenario_chain
    (Some ["inductive"; "circumstantial"])
  = Binary64.round4
      (fold_left (fun c inf_type => Binary64.mul c (Binary64.factor inf_type))
         ["inductive"; "circumstantial"] Binary64.one)
  /\ Binary64.confidence Binary64.pow_rounded three_nodes
       (Some ["inductive"; "circumstantial"])
     = Binary64.confidence Binary64.pow_rounded scenario_chain
         (Some ["inductive"; "circumstantial"])
  /\ (forall t, Binary64.factors t = None ->
                Binary64.factor t = Binary64.decimal 95 100)
  /\ Binary64.confidence Binary64.pow_rounded scenario_chain (Some [])
     = Binary64.confidence Binary64.pow_rounded scenario_chain None.
Proof.
  apply (confidence_of_types Binary64.pow_rounded scenario_chain three_nodes
           ["inductive"; "circumstantial"]); discriminate.
Defined.

Lemma confidence_of_types_scenario_value :
  Binary64.confidence Binary64.pow_rounded scenario_chain
    (Some ["inductive"; "circumstantial"])
  = Binary64.decimal 76 100.
Proof. vm_compute. reflexivity. Qed.

(** C9 fails as stated.  The product of the factors of [deductive],
    [deductive] and [abductive] is 0.63175, which rounds to 0.6318; the
    method returns 0.6317, the second product being rounded below 0.63175
    in binary64.  The order of the types counts: [analogical], [abductive],
    [analogical] give 0.2957 and [analogical], [analogical], [abductive]
    give 0.2958.  And with the empty list supplied the result is that of
    the omitted list, which depends on the chain: 0.95 for two nodes and
    0.9025 for three. *)
Lemma confidence_is_not_the_exact_product :
  Binary64.confidence Binary64.pow_rounded scenario_chain
    (Some ["deductive"; "deductive"; "abductive"])
  = Binary64.decimal 6317 10000
  /\ round4 (product (map factor ["deductive"; "deductive"; "abductive"]))
     = 6318 # 10000
  /\ confidence scenario_chain (Some ["deductive"; "deductive"; "abductive"])
     = 6318 # 10000
  /\ Binary64.confidence Binary64.pow_rounded scenario_chain
       (Some ["analogical"; "abductive"; "analogical"])
     = Binary64.decimal 2957 10000
  /\ Binary64.confidence Binary64.pow_rounded scenario_chain
       (Some ["analogical"; "analogical"; "abductive"])
     = Binary64.decimal 2958 10000
  /\ Binary64.confidence Binary64.pow_rounded scenario_chain (Some [])
     = Binary64.decimal 95 100
  /\ Binary64.confidence Binary64.pow_rounded three_nodes (Some [])
     = Binary64.decimal 9025 10000.
Proof. repeat split; vm_compute; reflexivity. Qed.

(** Without types the two arithmetics agree on every chain of up to 40
    nodes, the power being rounded once. *)
Definition agrees (n : nat) : bool :=
  let chain := repeat (principle_node "p") n in
  match confidence chain None with
  | Qmake k _ =>
      SFeqb (Binary64.confidence Binary64.pow_rounded chain None)
        (if (k =? 0)%Z then Binary64.zero else Binary64.decimal k 10000)
  end.

Lemma confidence_agrees_in_binary64 : forallb agrees (seq 0 41) = true.
Proof. vm_compute. reflexivity. Qed.

(** The numbers that the two results of the first example hold. *)
Lemma confidence_is_not_the_exact_product_values :
  (Binary64.value
     (fold_left (fun c inf_type => Binary64.mul c (Binary64.factor inf_type))
        ["deductive"; "deductive"; "abductive"] Binary64.one)
   < 63175 # 100000)%Q
  /\ (product (map factor ["deductive"; "deductive"; "abductive"]) == 63175 # 100000)%Q
  /\ (Binary64.value (Binary64.decimal 6317 10000)
      < Binary64.value (Binary64.decimal 6318 10000))%Q.
Proof. repeat split; vm_compute; reflexivity. Qed.

(** ** Extraction *)

(** A document with one well-formed definition, and the same document
    followed by a definition that holds the byte [0xFF], which is not
    UTF-8. *)
Definition intact_bytes : string :=
  "(define (offer-valid? o)" +:+ nl +:+
  "  ;; Cross-reference: pacta-sunt-servanda" +:+ nl +:+
  "  (made o))" +:+ nl.
Definition malformed_bytes : string :=
  "(define (accept" +:+ String (ascii_of_N 255) "ance-valid? a) (given a))" +:+ nl.

Definition intact_doc : SourceFile :=
  {| Extractor.file_name := "offer.scm"; Extractor.file_bytes := Some intact_bytes |}.
Definition broken_doc : SourceFile :=
  {| Extractor.file_name := "offer.scm";
     Extractor.file_bytes := Some (intact_bytes +:+ malformed_bytes) |}.

Definition offer_func : Func :=
  {| Extractor.name := "offer-valid?"; Extractor.docstring := "";
     Extractor.cross_references := ["pacta-sunt-servanda"];
     Extractor.is_principle := false; Extractor.file := "offer.scm" |}.

(** C5 fails as stated: the definition of [offer-valid?] is extracted from
    the document that ends after it, and the same document followed by one
    malformed definition yields no record. *)
Lemma malformed_definition_loses_document :
  Extractor._extract_functions_from_file intact_doc = [offer_func]
  /\ Extractor.file_bytes broken_doc = Some (intact_bytes +:+ malformed_bytes)
  /\ Extractor.reports_error broken_doc = true
  /\ Extractor._extract_functions_from_file broken_doc = [].
Proof. repeat split; vm_compute; reflexivity. Qed.

(** C5 at the broken document, between two documents that are read. *)
Lemma extraction_fails_per_document_scenario :
  Extractor._extract_functions_from_file broken_doc = []
  /\ fold_left (index_file "civ" (mkFramework "civ" "Civil Law (ZA)" 2 "civ/za"
                                   ["contract"] [] [] None))
       ([scenario_civ] ++ broken_doc :: [intact_doc])
       (mkIndex [] [] [] ∅ ∅, [])
     = fold_left (index_file "civ" (mkFramework "civ" "Civil Law (ZA)" 2 "civ/za"
                                     ["contract"] [] [] None))
         ([scenario_civ] ++ [intact_doc])
         (mkIndex [] [] [] ∅ ∅, []).
Proof.
  apply (extraction_fails_per_document broken_doc).
  vm_compute. reflexivity.
Defined.

(** ** Paths *)

(** C10 at the graph whose node [A] has the identifier 0: the node is in
    the graph and the edge to [B] is a path, and both functions report that
    there is none. *)
Lemma falsy_identifier_scenario :
  (find_path bfs_shortest_path zero_api "A" "B" = inr None
   /\ find_all_paths zero_api "A" "B" 5 = inr []
   /\ is_truthy (Some (VInt 0)) = false
   /\ is_truthy (Some (VStr "")) = false)
  /\ has_node zero_graph (VInt 0) = true
  /\ all_simple_paths zero_graph (VInt 0) (VInt 1) 5 = inr [[VInt 0; VInt 1]]
  /\ bfs_shortest_path zero_graph (VInt 0) (VInt 1) = inr [VInt 0; VInt 1].
Proof.
  split.
  - apply (falsy_identifier_is_absent bfs_shortest_path zero_api
             (<["A" := VInt 0]> (<["B" := VInt 1]> ∅)) "A" "B" 5).
    + reflexivity.
    + left. vm_compute. reflexivity.
  - repeat split; vm_compute; reflexivity.
Defined.

(** ** The sub-APIs, the unified API and the validator *)

Import Api Unified BuildFacts PathFacts StatsFacts RecordFacts.
Import ValidatorFacts RelatedFacts.

(** The edges of the examples carry no [inference_type]. *)
Definition untyped (u v : PyVal) : option string := None.

(** A path of three names that the index of the cycle does not know. *)
Lemma unknown_path_scenario :
  exists c,
    compute_path_confidence untyped cycle_api [VStr "X"; VStr "Y"; VInt 7] = inr c
    /\ (c == 1)%Q.
Proof.
  eapply (unknown_path_has_full_confidence untyped cycle_api).
  - reflexivity.
  - reflexivity.
  - simpl. lia.
  - intros n [<-|[<-|[<-|[]]]]; vm_compute; reflexivity.
Defined.

(** A step over an edge of the cycle is counted, with the default type. *)
Lemma known_path_scenario :
  (exists c, compute_path_confidence untyped cycle_api [VStr "A"; VStr "B"] = inr c
             /\ (c == 95 # 100)%Q)
  /\ (exists c, compute_path_confidence untyped cycle_api [VStr "A"; VStr "C"] = inr c
                /\ (c == 1)%Q).
Proof. split; eexists; split; vm_compute; reflexivity. Qed.

(** The chain of the scenario, with its confidence and explanation. *)
Lemma returned_chain_scenario :
  (confidence scenario_chain None == 95 # 100)%Q
  /\ explain scenario_chain =
     ("Level 1: " +:+ "pacta-sunt-servanda" +:+ " (principle)") +:+ newline
     +:+ arrow_line +:+ newline
     +:+ "Level 2: " +:+ "contract-valid?" +:+ " (rule)".
Proof.
  apply (returned_chain_confidence (init scenario_tree)
           "pacta-sunt-servanda" "contract-valid?" scenario_chain).
  exact chain_scenario.
Defined.

(** The scenario asked for a path without a hypergraph. *)
Lemma inference_path_scenario :
  exists r,
    find_inference_path bfs_shortest_path untyped (init scenario_tree) None
      "pacta-sunt-servanda" "contract-valid?" = inr (Some r)
    /\ path r = [VStr "pacta-sunt-servanda"; VStr "contract-valid?"]
    /\ (path_confidence r == 95 # 100)%Q
    /\ explanation r = explain scenario_chain
    /\ method r = "simple".
Proof.
  pose proof (inference_path_without_hypergraph bfs_shortest_path untyped
                (init scenario_tree) None
                "pacta-sunt-servanda" "contract-valid?" (or_introl eq_refl)) as H.
  rewrite chain_scenario in H. exact H.
Defined.

(** The scenario searched within the domain [contract]. *)
Lemma search_in_domain_scenario :
  exists results rules,
    search_functions (init scenario_tree) "valid" (Some "contract") = inr results
    /\ rules_by_domain (init scenario_tree) "contract" = inr rules
    /\ forall r, In r results -> In (data r) rules.
Proof.
  apply (search_in_domain_is_within_domain scenario_tree "valid" "contract").
  discriminate.
Defined.

Lemma search_in_domain_scenario_value :
  search_functions (init scenario_tree) "valid" (Some "contract")
  = inr [ {| relevance := partial; data := contract_record |} ]
  /\ rules_by_domain (init scenario_tree) "contract" = inr [contract_record]
  /\ rules_by_domain (init scenario_tree) "maritime" = inr []
  /\ rules_by_framework (init scenario_tree) "civ" = [func contract_record]
  /\ rules_by_framework (init scenario_tree) "cri" = [].
Proof. repeat split; vm_compute; reflexivity. Qed.

(** The validator of the scenario before its checks. *)
Definition scenario_validator : Validator.FrameworkValidator :=
  {| Validator.index := init scenario_tree;
     Validator.errors := [];
     Validator.warnings := [];
     Validator.info := [] |}.

Lemma structure_check_scenario :
  Validator.check_framework_structure scenario_validator
  = inr {| Validator.index := init scenario_tree;
           Validator.errors := ([] ++ missing scenario_tree framework_defs)%list;
           Validator.warnings := ([] ++ without_files scenario_tree framework_defs)%list;
           Validator.info := ([] ++ reported scenario_tree framework_defs)%list |}.
Proof.
  apply (structure_check_of_build scenario_tree scenario_validator).
  reflexivity.
Defined.

Lemma structure_check_scenario_value :
  map Validator.message (missing scenario_tree framework_defs)
  = ["Missing framework: cri"; "Missing framework: con"; "Missing framework: adm";
     "Missing framework: lab"; "Missing framework: env"; "Missing framework: cst";
     "Missing framework: int"]
  /\ without_files scenario_tree framework_defs = []
  /\ map Validator.message (reported scenario_tree framework_defs)
     = ["Framework lv1: 1 files, 1 functions"; "Framework civ: 1 files, 1 functions"].
Proof. repeat split; vm_compute; reflexivity. Qed.

Lemma domain_check_scenario :
  Validator.warnings
    (Validator.check_domain_coverage scenario_validator
       (map_to_list (domain_index (init scenario_tree)))) = []
  /\ ((forall code fw, ~ covers (init scenario_tree) code fw) ->
      Validator.errors
        (Validator.check_domain_coverage scenario_validator
           (map_to_list (domain_index (init scenario_tree))))
      = ([] ++ [Validator.no_domains])%list
      /\ Validator.info
           (Validator.check_domain_coverage scenario_validator
              (map_to_list (domain_index (init scenario_tree)))) = [])
  /\ ((exists code fw, covers (init scenario_tree) code fw) ->
      Validator.errors
        (Validator.check_domain_coverage scenario_validator
           (map_to_list (domain_index (init scenario_tree)))) = []
      /\ exists m,
           Validator.info
             (Validator.check_domain_coverage scenario_validator
                (map_to_list (domain_index (init scenario_tree)))) = ([] ++ [m])%list).
Proof.
  apply (domain_check_of_build scenario_tree scenario_validator
           (map_to_list (domain_index (init scenario_tree)))).
  reflexivity.
Defined.

Lemma domain_check_scenario_value :
  map Validator.message
    (Validator.info
       (Validator.check_domain_coverage scenario_validator
          (map_to_list (domain_index (init scenario_tree)))))
  = ["4 domains covering 4 function references"]
  /\ Validator.errors
       (Validator.check_domain_coverage
          {| Validator.index := init (one_dir "lv1" [scenario_lv1]);
             Validator.errors := []; Validator.warnings := []; Validator.info := [] |}
          (map_to_list (domain_index (init (one_dir "lv1" [scenario_lv1])))))
     = [Validator.no_domains].
Proof. split; vm_compute; reflexivity. Qed.

(** The nodes related to [A] in the cycle, within two steps. *)
Lemma related_nodes_scenario :
  exists related,
    Related.find_related_nodes Related.undirected_lengths
      (fun _ => None) (fun _ => None) cycle_api "A" 2 = inr related
    /\ related
       = PySort.sort_by Related.distance
           (map (related_node (fun _ => None) (fun _ => None) cycle_graph)
              (List.filter (fun item => (0 <? snd item)%Z)
                 [(VInt 1, 0); (VInt 2, 1); (VInt 4, 1); (VInt 3, 1)]))
    /\ StronglySorted (fun a b => (Related.distance a <= Related.distance b)%Z) related
    /\ Forall (fun r => (0 < Related.distance r)%Z) related.
Proof.
  eapply (related_nodes_by_distance Related.undirected_lengths
            (fun _ => None) (fun _ => None) cycle_api cycle_graph _ "A" (VInt 1) 2).
  - reflexivity.
  - reflexivity.
  - vm_compute. reflexivity.
  - reflexivity.
  - vm_compute. reflexivity.
  - repeat constructor.
Defined.

Lemma related_nodes_scenario_value :
  option_map (map (fun r => (Related.rel_name r, Related.distance r)))
    (match Related.find_related_nodes Related.undirected_lengths
             (fun _ => None) (fun _ => None) cycle_api "A" 2 with
     | inr related => Some related
     | inl _ => None
     end)
  = Some [(VStr "B", 1); (VStr "D", 1); (VStr "C", 1)].
Proof. vm_compute. reflexivity. Qed.

(** The statistics of the scenario. *)
Lemma stats_scenario :
  option_map (fun s => (total_frameworks s, total_functions s, total_principles s))
    (match get_framework_stats (init scenario_tree) with
     | inr s => Some s
     | inl _ => None
     end)
  = Some (2, 2, 1).
Proof. vm_compute. reflexivity. Qed.

(** ** The frameworks of the scenario *)

Definition civ_def : FrameworkDef :=
  mkDef "civ" "civ/za" "Civil Law (ZA)" 2
    (Some ["contract"; "delict"; "property"; "family"]).

Definition cri_def : FrameworkDef :=
  mkDef "cri" "cri/za" "Criminal Law (ZA)" 2 (Some ["criminal"]).

Lemma civ_def_defined : In civ_def framework_defs /\ In cri_def framework_defs.
Proof. split; vm_compute; tauto. Qed.

Lemma unknown_code : ~ In "mar" (map def_code framework_defs).
Proof. vm_compute. intuition discriminate. Qed.

(** The directory of the civil framework exists in the scenario, that of
    the criminal framework does not. *)
Lemma scenario_dirs :
  scenario_tree (def_path civ_def) = Some [scenario_civ]
  /\ scenario_tree (def_path cri_def) = None.
Proof. split; reflexivity. Qed.

(** The civil framework of the scenario after the build, a framework
    without a directory, and a code that is no framework. *)
Lemma frameworks_scenario :
  od_get (frameworks (init scenario_tree)) "civ"
  = Some (built (loaded civ_def [scenario_civ]))
  /\ od_get (frameworks (init scenario_tree)) "cri" = None
  /\ od_get (frameworks (init scenario_tree)) "mar" = None.
Proof.
  destruct civ_def_defined as [Hciv Hcri].
  destruct scenario_dirs as [Dciv Dcri].
  split; [|split].
  - pose proof (proj1 (frameworks_after_build scenario_tree civ_def "mar") Hciv) as H.
    rewrite Dciv in H. exact H.
  - pose proof (proj1 (frameworks_after_build scenario_tree cri_def "mar") Hcri) as H.
    rewrite Dcri in H. exact H.
  - exact (proj2 (frameworks_after_build scenario_tree civ_def "mar") unknown_code).
Defined.

Lemma rules_by_framework_scenario :
  rules_by_framework (init scenario_tree) "civ"
  = List.filter (fun f => negb (Extractor.is_principle f))
      (flat_map Extractor._extract_functions_from_file [scenario_civ])
  /\ rules_by_framework (init scenario_tree) "cri" = []
  /\ rules_by_framework (init scenario_tree) "mar" = [].
Proof.
  destruct civ_def_defined as [Hciv Hcri].
  destruct scenario_dirs as [Dciv Dcri].
  split; [|split].
  - pose proof (proj1 (rules_by_framework_of_build scenario_tree civ_def "mar") Hciv)
      as H.
    rewrite Dciv in H. exact H.
  - pose proof (proj1 (rules_by_framework_of_build scenario_tree cri_def "mar") Hcri)
      as H.
    rewrite Dcri in H. exact H.
  - exact (proj2 (rules_by_framework_of_build scenario_tree civ_def "mar") unknown_code).
Defined.

(** Nothing is filed under the name [mar] in the scenario. *)
Lemma reverse_lookups_scenario :
  find_derived_rules (init scenario_tree) "mar" = inr []
  /\ rules_by_domain (init scenario_tree) "mar" = inr [].
Proof.
  destruct (reverse_lookups_never_raise scenario_tree "mar") as (_ & _ & Hx & Hd).
  split; [apply Hx | apply Hd]; vm_compute; reflexivity.
Defined.

(** The qualified names of the scenario are different, and its totals
    agree. *)
Lemma stats_totals_scenario :
  exists stats,
    get_framework_stats (init scenario_tree) = inr stats
    /\ total_functions stats = sum_counts (stats_frameworks stats).
Proof.
  destruct (framework_stats_totals scenario_tree) as (stats & Hstats & _ & Heq & _).
  exists stats. split; [exact Hstats | exact (Heq scenario_unique)].
Defined.
End Examples.
